(** * django-helpdesk: ticket lifecycle, update workflow and notification
      fan-out

    A shallow embedding of [helpdesk/models.py] ([Ticket.save],
    [FollowUp.save], [TicketCC.email_address], [Queue.from_address],
    [Ticket.queue_and_id_from_query], [Ticket.get_submitter_emails]) and
    of [helpdesk/views/staff.py] ([update_ticket], [return_to_ticket],
    [quick_update_ticket], [subscribe_staff_member_to_ticket], the
    saved-query handling of [ticket_list]), followed by the properties
    proved of them.

    The database is an explicit store threaded through every operation; a
    Python exception is a [Raise] result that keeps the rows written so
    far (the views run without a surrounding transaction).  Model objects
    held in local variables ([ticket], [f]) are records passed along;
    foreign keys are the referenced primary keys, and the related
    objects an instance keeps in memory are a [Cache] next to it. *)

From Stdlib Require Import Ascii.
From stdpp Require Import gmap strings list fin_maps pretty.

Open Scope Z_scope.
Open Scope string_scope.
Open Scope list_scope.

(** ** Data model *)

(** [helpdesk.models.Ticket].  Only the columns read or written by the
    embedded operations are kept; [ticket_fields] below lists every
    column of the class.  A nullable column is an [option]; [t_id] is
    [None] for an instance that was never saved. *)
Record Ticket := mkTicket {
  t_id : option Z;
  t_title : string;
  t_queue : Z;
  t_created : option Z;
  t_modified : option Z;
  t_resolved : option Z;
  t_closed : option Z;
  t_submitter_email : option string;
  t_assigned_to : option Z;
  t_status : Z;
  t_category : option Z;
  t_type : option Z;
  t_billing : option Z;
  t_resolution : option string;
  t_priority : Z;
  t_due_date : option Z;
  t_customer_contact : option Z;
  t_customer : option Z;
  t_site : option Z;
  t_customer_product : option Z;
  t_time_before_first_answer : option Z;
  t_merged_to : option Z;
  t_generic_incident : option Z
}.

Definition set_id (v : option Z) (t : Ticket) : Ticket :=
  mkTicket v (t_title t) (t_queue t) (t_created t) (t_modified t)
    (t_resolved t) (t_closed t) (t_submitter_email t) (t_assigned_to t)
    (t_status t) (t_category t) (t_type t) (t_billing t) (t_resolution t)
    (t_priority t) (t_due_date t) (t_customer_contact t) (t_customer t)
    (t_site t) (t_customer_product t) (t_time_before_first_answer t)
    (t_merged_to t) (t_generic_incident t).
Definition set_title (v : string) (t : Ticket) : Ticket :=
  mkTicket (t_id t) v (t_queue t) (t_created t) (t_modified t) (t_resolved t)
    (t_closed t) (t_submitter_email t) (t_assigned_to t) (t_status t)
    (t_category t) (t_type t) (t_billing t) (t_resolution t) (t_priority t)
    (t_due_date t) (t_customer_contact t) (t_customer t) (t_site t)
    (t_customer_product t) (t_time_before_first_answer t) (t_merged_to t)
    (t_generic_incident t).
Definition set_queue (v : Z) (t : Ticket) : Ticket :=
  mkTicket (t_id t) (t_title t) v (t_created t) (t_modified t) (t_resolved t)
    (t_closed t) (t_submitter_email t) (t_assigned_to t) (t_status t)
    (t_category t) (t_type t) (t_billing t) (t_resolution t) (t_priority t)
    (t_due_date t) (t_customer_contact t) (t_customer t) (t_site t)
    (t_customer_product t) (t_time_before_first_answer t) (t_merged_to t)
    (t_generic_incident t).
Definition set_created (v : option Z) (t : Ticket) : Ticket :=
  mkTicket (t_id t) (t_title t) (t_queue t) v (t_modified t) (t_resolved t)
    (t_closed t) (t_submitter_email t) (t_assigned_to t) (t_status t)
    (t_category t) (t_type t) (t_billing t) (t_resolution t) (t_priority t)
    (t_due_date t) (t_customer_contact t) (t_customer t) (t_site t)
    (t_customer_product t) (t_time_before_first_answer t) (t_merged_to t)
    (t_generic_incident t).
Definition set_modified (v : option Z) (t : Ticket) : Ticket :=
  mkTicket (t_id t) (t_title t) (t_queue t) (t_created t) v (t_resolved t)
    (t_closed t) (t_submitter_email t) (t_assigned_to t) (t_status t)
    (t_category t) (t_type t) (t_billing t) (t_resolution t) (t_priority t)
    (t_due_date t) (t_customer_contact t) (t_customer t) (t_site t)
    (t_customer_product t) (t_time_before_first_answer t) (t_merged_to t)
    (t_generic_incident t).
Definition set_resolved (v : option Z) (t : Ticket) : Ticket :=
  mkTicket (t_id t) (t_title t) (t_queue t) (t_created t) (t_modified t) v
    (t_closed t) (t_submitter_email t) (t_assigned_to t) (t_status t)
    (t_category t) (t_type t) (t_billing t) (t_resolution t) (t_priority t)
    (t_due_date t) (t_customer_contact t) (t_customer t) (t_site t)
    (t_customer_product t) (t_time_before_first_answer t) (t_merged_to t)
    (t_generic_incident t).
Definition set_closed (v : option Z) (t : Ticket) : Ticket :=
  mkTicket (t_id t) (t_title t) (t_queue t) (t_created t) (t_modified t)
    (t_resolved t) v (t_submitter_email t) (t_assigned_to t) (t_status t)
    (t_category t) (t_type t) (t_billing t) (t_resolution t) (t_priority t)
    (t_due_date t) (t_customer_contact t) (t_customer t) (t_site t)
    (t_customer_product t) (t_time_before_first_answer t) (t_merged_to t)
    (t_generic_incident t).
Definition set_submitter_email (v : option string) (t : Ticket) : Ticket :=
  mkTicket (t_id t) (t_title t) (t_queue t) (t_created t) (t_modified t)
    (t_resolved t) (t_closed t) v (t_assigned_to t) (t_status t)
    (t_category t) (t_type t) (t_billing t) (t_resolution t) (t_priority t)
    (t_due_date t) (t_customer_contact t) (t_customer t) (t_site t)
    (t_customer_product t) (t_time_before_first_answer t) (t_merged_to t)
    (t_generic_incident t).
Definition set_assigned_to (v : option Z) (t : Ticket) : Ticket :=
  mkTicket (t_id t) (t_title t) (t_queue t) (t_created t) (t_modified t)
    (t_resolved t) (t_closed t) (t_submitter_email t) v (t_status t)
    (t_category t) (t_type t) (t_billing t) (t_resolution t) (t_priority t)
    (t_due_date t) (t_customer_contact t) (t_customer t) (t_site t)
    (t_customer_product t) (t_time_before_first_answer t) (t_merged_to t)
    (t_generic_incident t).
Definition set_status (v : Z) (t : Ticket) : Ticket :=
  mkTicket (t_id t) (t_title t) (t_queue t) (t_created t) (t_modified t)
    (t_resolved t) (t_closed t) (t_submitter_email t) (t_assigned_to t) v
    (t_category t) (t_type t) (t_billing t) (t_resolution t) (t_priority t)
    (t_due_date t) (t_customer_contact t) (t_customer t) (t_site t)
    (t_customer_product t) (t_time_before_first_answer t) (t_merged_to t)
    (t_generic_incident t).
Definition set_category (v : option Z) (t : Ticket) : Ticket :=
  mkTicket (t_id t) (t_title t) (t_queue t) (t_created t) (t_modified t)
    (t_resolved t) (t_closed t) (t_submitter_email t) (t_assigned_to t)
    (t_status t) v (t_type t) (t_billing t) (t_resolution t) (t_priority t)
    (t_due_date t) (t_customer_contact t) (t_customer t) (t_site t)
    (t_customer_product t) (t_time_before_first_answer t) (t_merged_to t)
    (t_generic_incident t).
Definition set_type (v : option Z) (t : Ticket) : Ticket :=
  mkTicket (t_id t) (t_title t) (t_queue t) (t_created t) (t_modified t)
    (t_resolved t) (t_closed t) (t_submitter_email t) (t_assigned_to t)
    (t_status t) (t_category t) v (t_billing t) (t_resolution t)
    (t_priority t) (t_due_date t) (t_customer_contact t) (t_customer t)
    (t_site t) (t_customer_product t) (t_time_before_first_answer t)
    (t_merged_to t) (t_generic_incident t).
Definition set_billing (v : option Z) (t : Ticket) : Ticket :=
  mkTicket (t_id t) (t_title t) (t_queue t) (t_created t) (t_modified t)
    (t_resolved t) (t_closed t) (t_submitter_email t) (t_assigned_to t)
    (t_status t) (t_category t) (t_type t) v (t_resolution t) (t_priority t)
    (t_due_date t) (t_customer_contact t) (t_customer t) (t_site t)
    (t_customer_product t) (t_time_before_first_answer t) (t_merged_to t)
    (t_generic_incident t).
Definition set_resolution (v : option string) (t : Ticket) : Ticket :=
  mkTicket (t_id t) (t_title t) (t_queue t) (t_created t) (t_modified t)
    (t_resolved t) (t_closed t) (t_submitter_email t) (t_assigned_to t)
    (t_status t) (t_category t) (t_type t) (t_billing t) v (t_priority t)
    (t_due_date t) (t_customer_contact t) (t_customer t) (t_site t)
    (t_customer_product t) (t_time_before_first_answer t) (t_merged_to t)
    (t_generic_incident t).
Definition set_priority (v : Z) (t : Ticket) : Ticket :=
  mkTicket (t_id t) (t_title t) (t_queue t) (t_created t) (t_modified t)
    (t_resolved t) (t_closed t) (t_submitter_email t) (t_assigned_to t)
    (t_status t) (t_category t) (t_type t) (t_billing t) (t_resolution t) v
    (t_due_date t) (t_customer_contact t) (t_customer t) (t_site t)
    (t_customer_product t) (t_time_before_first_answer t) (t_merged_to t)
    (t_generic_incident t).
Definition set_due_date (v : option Z) (t : Ticket) : Ticket :=
  mkTicket (t_id t) (t_title t) (t_queue t) (t_created t) (t_modified t)
    (t_resolved t) (t_closed t) (t_submitter_email t) (t_assigned_to t)
    (t_status t) (t_category t) (t_type t) (t_billing t) (t_resolution t)
    (t_priority t) v (t_customer_contact t) (t_customer t) (t_site t)
    (t_customer_product t) (t_time_before_first_answer t) (t_merged_to t)
    (t_generic_incident t).
Definition set_customer_contact (v : option Z) (t : Ticket) : Ticket :=
  mkTicket (t_id t) (t_title t) (t_queue t) (t_created t) (t_modified t)
    (t_resolved t) (t_closed t) (t_submitter_email t) (t_assigned_to t)
    (t_status t) (t_category t) (t_type t) (t_billing t) (t_resolution t)
    (t_priority t) (t_due_date t) v (t_customer t) (t_site t)
    (t_customer_product t) (t_time_before_first_answer t) (t_merged_to t)
    (t_generic_incident t).
Definition set_customer (v : option Z) (t : Ticket) : Ticket :=
  mkTicket (t_id t) (t_title t) (t_queue t) (t_created t) (t_modified t)
    (t_resolved t) (t_closed t) (t_submitter_email t) (t_assigned_to t)
    (t_status t) (t_category t) (t_type t) (t_billing t) (t_resolution t)
    (t_priority t) (t_due_date t) (t_customer_contact t) v (t_site t)
    (t_customer_product t) (t_time_before_first_answer t) (t_merged_to t)
    (t_generic_incident t).
Definition set_site (v : option Z) (t : Ticket) : Ticket :=
  mkTicket (t_id t) (t_title t) (t_queue t) (t_created t) (t_modified t)
    (t_resolved t) (t_closed t) (t_submitter_email t) (t_assigned_to t)
    (t_status t) (t_category t) (t_type t) (t_billing t) (t_resolution t)
    (t_priority t) (t_due_date t) (t_customer_contact t) (t_customer t) v
    (t_customer_product t) (t_time_before_first_answer t) (t_merged_to t)
    (t_generic_incident t).
Definition set_customer_product (v : option Z) (t : Ticket) : Ticket :=
  mkTicket (t_id t) (t_title t) (t_queue t) (t_created t) (t_modified t)
    (t_resolved t) (t_closed t) (t_submitter_email t) (t_assigned_to t)
    (t_status t) (t_category t) (t_type t) (t_billing t) (t_resolution t)
    (t_priority t) (t_due_date t) (t_customer_contact t) (t_customer t)
    (t_site t) v (t_time_before_first_answer t) (t_merged_to t)
    (t_generic_incident t).
Definition set_time_before_first_answer (v : option Z) (t : Ticket) : Ticket :=
  mkTicket (t_id t) (t_title t) (t_queue t) (t_created t) (t_modified t)
    (t_resolved t) (t_closed t) (t_submitter_email t) (t_assigned_to t)
    (t_status t) (t_category t) (t_type t) (t_billing t) (t_resolution t)
    (t_priority t) (t_due_date t) (t_customer_contact t) (t_customer t)
    (t_site t) (t_customer_product t) v (t_merged_to t)
    (t_generic_incident t).
Definition set_merged_to (v : option Z) (t : Ticket) : Ticket :=
  mkTicket (t_id t) (t_title t) (t_queue t) (t_created t) (t_modified t)
    (t_resolved t) (t_closed t) (t_submitter_email t) (t_assigned_to t)
    (t_status t) (t_category t) (t_type t) (t_billing t) (t_resolution t)
    (t_priority t) (t_due_date t) (t_customer_contact t) (t_customer t)
    (t_site t) (t_customer_product t) (t_time_before_first_answer t) v
    (t_generic_incident t).
Definition set_generic_incident (v : option Z) (t : Ticket) : Ticket :=
  mkTicket (t_id t) (t_title t) (t_queue t) (t_created t) (t_modified t)
    (t_resolved t) (t_closed t) (t_submitter_email t) (t_assigned_to t)
    (t_status t) (t_category t) (t_type t) (t_billing t) (t_resolution t)
    (t_priority t) (t_due_date t) (t_customer_contact t) (t_customer t)
    (t_site t) (t_customer_product t) (t_time_before_first_answer t)
    (t_merged_to t) v.

(** [Ticket.OPEN_STATUS] ... [Ticket.DUPLICATE_STATUS]. *)
Definition OPEN_STATUS : Z := 1.
Definition REOPENED_STATUS : Z := 2.
Definition RESOLVED_STATUS : Z := 3.
Definition CLOSED_STATUS : Z := 4.
Definition DUPLICATE_STATUS : Z := 5.

Definition STATUS_CHOICES : list (Z * string) :=
  [ (OPEN_STATUS, "Open"); (REOPENED_STATUS, "Reopened");
    (RESOLVED_STATUS, "Resolved"); (CLOSED_STATUS, "Closed");
    (DUPLICATE_STATUS, "Duplicate") ].

(** [str(n)] for a Python [int]. *)
Definition str_int (n : Z) : string := pretty n.

Fixpoint assoc_Z {A} (k : Z) (l : list (Z * A)) : option A :=
  match l with
  | [] => None
  | (k', v) :: l' => if bool_decide (k = k') then Some v else assoc_Z k l'
  end.

(** [Ticket.get_status_display()]: the label of the choice, or the raw
    value when it is not one of the choices.  The translation catalogue
    [_()] is taken to be the identity on message ids. *)
Definition get_status_display (t : Ticket) : string :=
  match assoc_Z (t_status t) STATUS_CHOICES with
  | Some label => label
  | None => str_int (t_status t)
  end.

(** The user model ([settings.AUTH_USER_MODEL]): [get_username()],
    [str(user)], the e-mail, the flags, and the
    [usersettings_helpdesk.settings] dictionary, [None] when the user has
    no [UserSettings] row. *)
Record User := mkUser {
  u_username : string;
  u_str : string;
  u_email : string;
  u_is_staff : bool;
  u_is_active : bool;
  u_is_superuser : bool;
  u_settings : option (gmap string bool)
}.

Record Queue := mkQueue {
  q_title : string;
  q_email_address : option string;
  q_updated_ticket_cc : option string
}.

Record TicketType := mkTicketType {
  tt_name : string;
  tt_mandatory_facturation : bool
}.

Record TicketCC := mkTicketCC {
  cc_ticket : Z;
  cc_user : option Z;
  cc_email : option string;
  cc_can_view : bool;
  cc_can_update : bool
}.

Record FollowUp := mkFollowUp {
  f_id : option Z;
  f_ticket : option Z;
  f_date : Z;
  f_title : option string;
  f_comment : string;
  f_public : bool;
  f_user : option Z;
  f_new_status : option Z
}.

Record TicketChange := mkTicketChange {
  tc_followup : option Z;
  tc_field : string;
  tc_old_value : string;
  tc_new_value : string
}.

(** One call of [send_templated_mail]: the template key, the [recipients]
    argument as it was passed, the sender and the attached files. *)
Record Mail := mkMail {
  m_template : string;
  m_recipients : option string;
  m_sender : string;
  m_files : list string
}.

(** The store.  [SimpleUserMail.email] is [unique=True], so that table is
    a map from the e-mail to the nullable customer.  Customers, sites,
    products and categories are kept by their [str()].  [db_flash] collects
    the [messages.info] calls, [db_outbox] the dispatched mails,
    [db_clock] is the reading [timezone.now()] returns next and
    [db_followup_seq] the key the database gives the next follow-up: a
    sequence, so that the key of a deleted row is not drawn again. *)
Record DB := mkDB {
  db_tickets : gmap Z Ticket;
  db_users : gmap Z User;
  db_queues : gmap Z Queue;
  db_customers : gmap Z string;
  db_sites : gmap Z string;
  db_customer_products : gmap Z string;
  db_categories : gmap Z string;
  db_ticket_types : gmap Z TicketType;
  db_simple_user_mails : gmap string (option Z);
  db_ticketccs : list TicketCC;
  db_followups : list FollowUp;
  db_ticketchanges : list TicketChange;
  db_outbox : list Mail;
  db_flash : list string;
  db_clock : Z;
  db_followup_seq : Z
}.

Definition with_tickets (v : gmap Z Ticket) (d : DB) : DB :=
  mkDB v (db_users d) (db_queues d) (db_customers d) (db_sites d)
    (db_customer_products d) (db_categories d) (db_ticket_types d)
    (db_simple_user_mails d) (db_ticketccs d) (db_followups d)
    (db_ticketchanges d) (db_outbox d) (db_flash d) (db_clock d)
    (db_followup_seq d).
Definition with_simple_user_mails (v : gmap string (option Z)) (d : DB) : DB :=
  mkDB (db_tickets d) (db_users d) (db_queues d) (db_customers d) (db_sites d)
    (db_customer_products d) (db_categories d) (db_ticket_types d) v
    (db_ticketccs d) (db_followups d) (db_ticketchanges d) (db_outbox d)
    (db_flash d) (db_clock d) (db_followup_seq d).
Definition with_ticketccs (v : list TicketCC) (d : DB) : DB :=
  mkDB (db_tickets d) (db_users d) (db_queues d) (db_customers d) (db_sites d)
    (db_customer_products d) (db_categories d) (db_ticket_types d)
    (db_simple_user_mails d) v (db_followups d) (db_ticketchanges d)
    (db_outbox d) (db_flash d) (db_clock d) (db_followup_seq d).
Definition with_followups (v : list FollowUp) (d : DB) : DB :=
  mkDB (db_tickets d) (db_users d) (db_queues d) (db_customers d) (db_sites d)
    (db_customer_products d) (db_categories d) (db_ticket_types d)
    (db_simple_user_mails d) (db_ticketccs d) v (db_ticketchanges d)
    (db_outbox d) (db_flash d) (db_clock d) (db_followup_seq d).
Definition with_ticketchanges (v : list TicketChange) (d : DB) : DB :=
  mkDB (db_tickets d) (db_users d) (db_queues d) (db_customers d) (db_sites d)
    (db_customer_products d) (db_categories d) (db_ticket_types d)
    (db_simple_user_mails d) (db_ticketccs d) (db_followups d) v
    (db_outbox d) (db_flash d) (db_clock d) (db_followup_seq d).
Definition with_outbox (v : list Mail) (d : DB) : DB :=
  mkDB (db_tickets d) (db_users d) (db_queues d) (db_customers d) (db_sites d)
    (db_customer_products d) (db_categories d) (db_ticket_types d)
    (db_simple_user_mails d) (db_ticketccs d) (db_followups d)
    (db_ticketchanges d) v (db_flash d) (db_clock d) (db_followup_seq d).
Definition with_flash (v : list string) (d : DB) : DB :=
  mkDB (db_tickets d) (db_users d) (db_queues d) (db_customers d) (db_sites d)
    (db_customer_products d) (db_categories d) (db_ticket_types d)
    (db_simple_user_mails d) (db_ticketccs d) (db_followups d)
    (db_ticketchanges d) (db_outbox d) v (db_clock d) (db_followup_seq d).
Definition with_clock (v : Z) (d : DB) : DB :=
  mkDB (db_tickets d) (db_users d) (db_queues d) (db_customers d) (db_sites d)
    (db_customer_products d) (db_categories d) (db_ticket_types d)
    (db_simple_user_mails d) (db_ticketccs d) (db_followups d)
    (db_ticketchanges d) (db_outbox d) (db_flash d) v (db_followup_seq d).
Definition with_followup_seq (v : Z) (d : DB) : DB :=
  mkDB (db_tickets d) (db_users d) (db_queues d) (db_customers d) (db_sites d)
    (db_customer_products d) (db_categories d) (db_ticket_types d)
    (db_simple_user_mails d) (db_ticketccs d) (db_followups d)
    (db_ticketchanges d) (db_outbox d) (db_flash d) (db_clock d) v.

(** ** Exceptions and the store monad *)

(** [IntegrityError] stands for the error with which the database
    refuses a row: a foreign key that names no row, a value outside the
    range of its column.  [InvalidTimeError] is the one of [pytz] for a
    local time that does not exist or is ambiguous. *)
Inductive Exn :=
  | Http404 | DoesNotExist | RelatedObjectDoesNotExist | ValueError
  | KeyError | AttributeError | TemplateSyntaxError | DatabaseError
  | IntegrityError | ValidationError | InvalidTimeError.

#[global] Instance Exn_eq_dec : EqDecision Exn.
Proof. solve_decision. Defined.

Inductive Res (A : Type) :=
  | Ok (a : A)
  | Raise (e : Exn).
Arguments Ok {A} a.
Arguments Raise {A} e.

Definition M (A : Type) : Type := DB -> Res A * DB.

Definition ret {A} (a : A) : M A := fun d => (Ok a, d).
Definition raise {A} (e : Exn) : M A := fun d => (Raise e, d).
Definition bind {A B} (c : M A) (k : A -> M B) : M B :=
  fun d => match c d with
           | (Ok a, d') => k a d'
           | (Raise e, d') => (Raise e, d')
           end.
Definition get_db : M DB := fun d => (Ok d, d).
Definition modify (g : DB -> DB) : M unit := fun d => (Ok tt, g d).

(** [try: c except e: h] for one exception class. *)
Definition try_except {A} (c : M A) (e : Exn) (h : M A) : M A :=
  fun d => match c d with
           | (Raise e', d') => if bool_decide (e' = e) then h d' else (Raise e', d')
           | r => r
           end.

#[global] Instance M_ret : MRet M := @ret.
#[global] Instance M_bind : MBind M := fun A B k c => bind c k.

Definition when (b : bool) (c : M unit) : M unit := if b then c else ret tt.

(** Python truthiness of the values the code tests. *)
Definition truthy_str (s : string) : bool := negb (bool_decide (s = "")).
Definition truthy_ostr (o : option string) : bool :=
  match o with Some s => truthy_str s | None => false end.
Definition is_some {A} (o : option A) : bool :=
  match o with Some _ => true | None => false end.
(** A [timedelta] is falsy when it is zero. *)
Definition truthy_duration (o : option Z) : bool :=
  match o with Some d => negb (bool_decide (d = 0)) | None => false end.

(** [timezone.now()]: the clock is a logical counter, every reading
    advances it. *)
Definition timezone_now : M Z :=
  fun d => (Ok (db_clock d), with_clock (db_clock d + 1) d).

(** [Model.objects.get(id=k)]. *)
Definition objects_get {A} (table : DB -> gmap Z A) (k : Z) : M A :=
  fun d => match table d !! k with
           | Some a => (Ok a, d)
           | None => (Raise DoesNotExist, d)
           end.

(** [related.attr] through a nullable foreign key: the referenced row,
    which the database is asked for. *)
Definition deref {A} (table : DB -> gmap Z A) (fk : option Z)
  : M (option (Z * A)) :=
  match fk with
  | None => mret None
  | Some k => a ← objects_get table k ; mret (Some (k, a))
  end.

(** [x.id if x else None] for a related object [x]. *)
Definition related_id {A} (table : DB -> gmap Z A) (fk : option Z)
  : M (option Z) :=
  r ← deref table fk ; mret (fst <$> r).

(** The row a nullable foreign key names is there. *)
Definition fk_ok {A} (table : gmap Z A) (fk : option Z) : bool :=
  match fk with
  | Some k => is_some (table !! k)
  | None => true
  end.

(** The related objects an instance holds.  Reading [self.<name>] for a
    foreign key fetches the row the column names and keeps the object on
    the instance; assigning the column, [self.<name>_id = k], leaves
    that object where it is.  A [Cache] lists the foreign keys whose
    object was kept before the column was assigned, each with the key
    of that object ([None] when the column was null at the time).  An
    instance fresh from the database, or one whose related objects were
    only read or assigned as objects, has the empty cache. *)
Definition Cache : Type := list (string * option Z).

Definition cached (cache : Cache) (name : string) : option (option Z) :=
  snd <$> List.find (fun p => bool_decide (p.1 = name)) cache.

(** [self.<name>] for the foreign key [name] whose column holds [fk]:
    the object kept on the instance, or else the row fetched; the result
    is [x.id if x else None] of that object. *)
Definition related {A} (cache : Cache) (name : string)
    (table : DB -> gmap Z A) (fk : option Z) : M (option Z) :=
  match cached cache name with
  | Some obj => mret obj
  | None => related_id table fk
  end.

(** ** [Ticket.save] *)

(** Every column of [class Ticket], with [true] for a [ForeignKey]
    (whose attribute [<name>_id] holds the key). *)
Definition ticket_fields : list (string * bool) :=
  [ ("id", false); ("title", false); ("queue", true); ("created", false);
    ("modified", false); ("resolved", false); ("closed", false);
    ("submitter_email", false); ("assigned_to", true); ("status", false);
    ("category", true); ("type", true); ("billing", false);
    ("on_hold", false); ("description", false); ("resolution", false);
    ("priority", false); ("due_date", false); ("last_escalation", false);
    ("link_open", false); ("customer_contact", true);
    ("contact_phone_number", false); ("customer", true); ("site", true);
    ("customer_product", true); ("quick_comment", false);
    ("time_before_first_answer", false); ("merged_to", true);
    ("generic_incident", true) ].

Definition is_ticket_field (name : string) : bool :=
  existsb (fun p => bool_decide (p.1 = name)) ticket_fields.

(** The foreign key whose attribute name ([<name>_id]) is [name]. *)
Definition foreign_key_of_attname (name : string) : option string :=
  fst <$> List.find (fun p => p.2 && bool_decide (p.1 +:+ "_id" = name))
            ticket_fields.

(** The names [update_fields] may hold: every column but the primary
    key, a foreign key under its attribute name as well. *)
Definition is_update_field (name : string) : bool :=
  (is_ticket_field name && negb (bool_decide (name = "id")))
  || is_some (foreign_key_of_attname name).

(** The column [name] of [row] takes the value it has in [self]: what an
    [UPDATE] restricted to [update_fields=[name]] writes.  Columns that
    the record does not keep leave it unchanged. *)
Definition copy_field (name : string) (self row : Ticket) : Ticket :=
  let name := default name (foreign_key_of_attname name) in
  if bool_decide (name = "title") then set_title (t_title self) row
  else if bool_decide (name = "queue") then set_queue (t_queue self) row
  else if bool_decide (name = "created") then set_created (t_created self) row
  else if bool_decide (name = "modified") then set_modified (t_modified self) row
  else if bool_decide (name = "resolved") then set_resolved (t_resolved self) row
  else if bool_decide (name = "closed") then set_closed (t_closed self) row
  else if bool_decide (name = "submitter_email")
    then set_submitter_email (t_submitter_email self) row
  else if bool_decide (name = "assigned_to")
    then set_assigned_to (t_assigned_to self) row
  else if bool_decide (name = "status") then set_status (t_status self) row
  else if bool_decide (name = "category") then set_category (t_category self) row
  else if bool_decide (name = "type") then set_type (t_type self) row
  else if bool_decide (name = "billing") then set_billing (t_billing self) row
  else if bool_decide (name = "resolution")
    then set_resolution (t_resolution self) row
  else if bool_decide (name = "priority") then set_priority (t_priority self) row
  else if bool_decide (name = "due_date") then set_due_date (t_due_date self) row
  else if bool_decide (name = "customer_contact")
    then set_customer_contact (t_customer_contact self) row
  else if bool_decide (name = "customer") then set_customer (t_customer self) row
  else if bool_decide (name = "site") then set_site (t_site self) row
  else if bool_decide (name = "customer_product")
    then set_customer_product (t_customer_product self) row
  else if bool_decide (name = "time_before_first_answer")
    then set_time_before_first_answer (t_time_before_first_answer self) row
  else if bool_decide (name = "merged_to") then set_merged_to (t_merged_to self) row
  else if bool_decide (name = "generic_incident")
    then set_generic_incident (t_generic_incident self) row
  else row.

(** A primary key no row uses yet. *)
Definition fresh_ticket_id (d : DB) : Z :=
  1 + map_fold (fun k _ acc => Z.max k acc) 0 (db_tickets d).

(** [billing] is a [PositiveSmallIntegerField]: the values from 0 to
    32767. *)
Definition billing_ok (t : Ticket) : bool :=
  match t_billing t with
  | Some b => bool_decide (0 <= b <= 32767)
  | None => true
  end.

(** What the database holds a ticket row to: every foreign key names a
    row of its table and [billing] is in its range.  (The generic
    incidents are not part of the store: their keys are not checked.) *)
Definition row_ok (d : DB) (t : Ticket) : bool :=
  is_some (db_queues d !! t_queue t)
  && fk_ok (db_users d) (t_assigned_to t)
  && fk_ok (db_categories d) (t_category t)
  && fk_ok (db_ticket_types d) (t_type t)
  && billing_ok t
  && fk_ok (db_users d) (t_customer_contact t)
  && fk_ok (db_customers d) (t_customer t)
  && fk_ok (db_sites d) (t_site t)
  && fk_ok (db_customer_products d) (t_customer_product t)
  && fk_ok (db_tickets d) (t_merged_to t).

(** The same for the one column [name]. *)
Definition column_ok (d : DB) (t : Ticket) (name : string) : bool :=
  let name := default name (foreign_key_of_attname name) in
  if bool_decide (name = "queue") then is_some (db_queues d !! t_queue t)
  else if bool_decide (name = "assigned_to")
    then fk_ok (db_users d) (t_assigned_to t)
  else if bool_decide (name = "category")
    then fk_ok (db_categories d) (t_category t)
  else if bool_decide (name = "type") then fk_ok (db_ticket_types d) (t_type t)
  else if bool_decide (name = "billing") then billing_ok t
  else if bool_decide (name = "customer_contact")
    then fk_ok (db_users d) (t_customer_contact t)
  else if bool_decide (name = "customer")
    then fk_ok (db_customers d) (t_customer t)
  else if bool_decide (name = "site") then fk_ok (db_sites d) (t_site t)
  else if bool_decide (name = "customer_product")
    then fk_ok (db_customer_products d) (t_customer_product t)
  else if bool_decide (name = "merged_to")
    then fk_ok (db_tickets d) (t_merged_to t)
  else true.

(** [super(Ticket, self).save]: the framework's [models.Model.save];
    [update_fields] is the keyword the callers pass, if any.  Without it
    the row is inserted (a new key is drawn when [self.id] is unset) or
    overwritten.  With it, naming something that is not a column is a
    [ValueError], an empty list writes nothing, and otherwise only the
    named columns of the stored row are updated ([DatabaseError] if
    there is no such row).  The database refuses, with nothing written,
    a row that breaks one of its constraints. *)
Definition Model_save (update_fields : option (list string)) (self : Ticket)
  : M Ticket :=
  match update_fields with
  | None =>
      d ← get_db ;
      if negb (row_ok d self) then raise IntegrityError
      else
        let pk := match t_id self with
                  | Some k => k
                  | None => fresh_ticket_id d
                  end in
        let self := set_id (Some pk) self in
        modify (fun d => with_tickets (<[pk := self]> (db_tickets d)) d) ;;
        ret self
  | Some fields =>
      if negb (forallb is_update_field fields) then raise ValueError
      else match fields with
      | [] => ret self
      | _ =>
        d ← get_db ;
        match t_id self with
        | None => raise ValueError
        | Some pk =>
          match db_tickets d !! pk with
          | None => raise DatabaseError
          | Some row =>
              if negb (forallb (column_ok d self) fields)
              then raise IntegrityError
              else
                let row' := foldr (fun n r => copy_field n self r) row fields in
                modify (fun d => with_tickets (<[pk := row']> (db_tickets d)) d) ;;
                ret self
          end
        end
      end
  end.

(** The [QuerySet.update] at the end of [Ticket.save]: the values written
    onto one merged ticket.  [values] is the target with each foreign key
    replaced by the key of its related object. *)
Definition override_merged (values row : Ticket) : Ticket :=
  set_assigned_to (t_assigned_to values)
    (set_category (t_category values)
      (set_type (t_type values)
        (set_billing (t_billing values)
          (set_customer (t_customer values)
            (set_site (t_site values)
              (set_customer_product (t_customer_product values) row)))))).

(** The arguments of that [update]: [self.assigned_to],
    [self.category], [self.type], [self.customer], [self.site] and
    [self.customer_product] are related objects, those the instance
    keeps or else fetched through the foreign keys; [customer] is
    [self.customer], which the save has read by then. *)
Definition read_merge_values (cache : Cache) (customer : option Z)
    (self : Ticket) : M Ticket :=
  assigned_to ← related cache "assigned_to" db_users (t_assigned_to self) ;
  category ← related cache "category" db_categories (t_category self) ;
  type ← related cache "type" db_ticket_types (t_type self) ;
  site ← related cache "site" db_sites (t_site self) ;
  customer_product ← related cache "customer_product" db_customer_products
                       (t_customer_product self) ;
  ret (set_assigned_to assigned_to
        (set_category category
          (set_type type
            (set_customer customer
              (set_site site
                (set_customer_product customer_product self)))))).

(** [row.merged_to == self]. *)
Definition merged_into (self row : Ticket) : bool :=
  is_some (t_id self) && bool_decide (t_merged_to row = t_id self).

(** [self.merged_tickets.update(...)]: every row whose [merged_to] is
    [self]. *)
Definition merged_tickets_update (self values : Ticket) : M unit :=
  modify (fun d =>
    with_tickets
      ((fun row => if merged_into self row then override_merged values row
                   else row) <$> db_tickets d) d).

Definition status_in (s : Z) (l : list Z) : bool :=
  existsb (fun x => bool_decide (s = x)) l.

(** [SimpleUserMail.objects.filter(email=email)]: at most one row, the
    e-mail being unique; no row has a null e-mail. *)
Definition simple_user_mail (d : DB) (email : option string)
  : option (option Z) :=
  match email with
  | Some e => db_simple_user_mails d !! e
  | None => None
  end.

(** The block of [Ticket.save] under [if not self.id]: a new ticket gets
    its creation date, and its submitter's address is recorded as a
    [SimpleUserMail] when neither such a row nor a user has it. *)
Definition save_new_ticket (self : Ticket) : M Ticket :=
  if negb (is_some (t_id self)) then
    now ← timezone_now ;
    let self := set_created (Some now) self in
    d ← get_db ;
    when (truthy_ostr (t_submitter_email self)
          && negb (is_some (simple_user_mail d (t_submitter_email self)))
          && negb (bool_decide (map_Exists
                (fun _ u => Some (u_email u) = t_submitter_email self)
                (db_users d))))
      (modify (fun d => with_simple_user_mails
         (<[default "" (t_submitter_email self) := None]>
            (db_simple_user_mails d)) d)) ;;
    ret self
  else ret self.

(** "Update resolved date", "Update closed date when closing or setting
    as duplicate", "If ticket is reopened, remove closed and resolved
    dates": the [if]/[elif]/[elif] chain of [Ticket.save]. *)
Definition save_status_dates (self : Ticket) : M Ticket :=
  if bool_decide (t_status self = RESOLVED_STATUS)
     && negb (is_some (t_resolved self)) then
    now ← timezone_now ;
    let self := set_resolved (Some now) self in
    ret (if is_some (t_closed self) then set_closed None self else self)
  else if status_in (t_status self) [CLOSED_STATUS; DUPLICATE_STATUS]
          && negb (is_some (t_closed self)) then
    now ← timezone_now ;
    ret (set_closed (Some now) self)
  else if status_in (t_status self) [OPEN_STATUS; REOPENED_STATUS]
          && (is_some (t_closed self) || is_some (t_resolved self)) then
    ret (set_resolved None (set_closed None self))
  else ret self.

(** "Update SimpleUserMail when customer is set": the rows with this
    e-mail and no customer take [customer], which is [self.customer]. *)
Definition save_update_simple_user_mail (customer : option Z) (self : Ticket)
  : M unit :=
  when (is_some customer && truthy_ostr (t_submitter_email self))
    (modify (fun d =>
       match t_submitter_email self with
       | Some e =>
           match db_simple_user_mails d !! e with
           | Some None => with_simple_user_mails
                            (<[e := customer]> (db_simple_user_mails d)) d
           | _ => d
           end
       | None => d
       end)).

(** "Set ticket customer if a simple user mail is matching": the
    customer of that row is fetched and assigned.  Returns the ticket
    and [self.customer]. *)
Definition save_match_customer (customer : option Z) (self : Ticket)
  : M (Ticket * option Z) :=
  d ← get_db ;
  match customer, simple_user_mail d (t_submitter_email self) with
  | None, Some (Some c) =>
      _ ← objects_get db_customers c ;
      ret (set_customer (Some c) self, Some c)
  | _, _ => ret (self, customer)
  end.

(** [Ticket.save]; [cache] holds the related objects the instance keeps
    from before its columns were assigned. *)
Definition Ticket_save (update_fields : option (list string)) (cache : Cache)
    (self : Ticket) : M Ticket :=
  self ← save_new_ticket self ;
  let self := if bool_decide (t_priority self = 0) then set_priority 3 self
              else self in
  now ← timezone_now ;
  let self := set_modified (Some now) self in
  self ← save_status_dates self ;
  customer ← related cache "customer" db_customers (t_customer self) ;
  save_update_simple_user_mail customer self ;;
  '(self, customer) ← save_match_customer customer self ;
  self ← Model_save update_fields self ;
  values ← read_merge_values cache customer self ;
  merged_tickets_update self values ;;
  ret self.

(** ** [FollowUp.save] and the e-mail address of a CC entry *)

(** What the views take from their surroundings: builtins of the
    language ([int], [strptime]), the framework's time zone support,
    template engine and date filter, and the project's settings.  A
    [None] is the exception the call raises ([ValueError] for the
    parsers, the error of [pytz] for [make_aware],
    [TemplateSyntaxError] for the engine).  [ticket_attribute] tells
    the names of the attributes of a [Ticket] instance that are no
    columns: its methods, its properties and the reverse relations. *)
Record Env := mkEnv {
  py_int : string -> option Z;
  parse_datetime_local : string -> option Z;
  make_aware : Z -> option Z;
  render_template : DB -> Ticket -> string -> option string;
  date_format : Z -> string;
  localtime : Z -> Z;
  office_time_between : option Z -> Z -> option Z;
  HELPDESK_ALLOW_NON_STAFF_TICKET_UPDATE : bool;
  no_queue_from_address : string;
  ticket_attribute : string -> bool
}.

Section Views.
Context (env : Env).

(** What a [BooleanField] stores for the value assigned to it: Python's
    [False] ([None] here) or a string of the request. *)
Definition BooleanField_to_python (value : option string) : M bool :=
  match value with
  | None => mret false
  | Some s =>
      if bool_decide (s = "t") || bool_decide (s = "True")
         || bool_decide (s = "1") then mret true
      else if bool_decide (s = "f") || bool_decide (s = "False")
              || bool_decide (s = "0") then mret false
      else raise ValidationError
  end.

(** [FollowUp.save] for a follow-up that was never saved.  [self.ticket]
    is the in-memory ticket of the caller, handed back with the changes
    made to it.  [public] is the value the caller assigned to
    [self.public]; [f_public self] is its truthiness, which is what the
    tests of the code see, and the column stores its conversion. *)
Definition FollowUp_save (public : option string) (self : FollowUp)
    (ticket : Ticket) : M (FollowUp * Ticket) :=
  now ← timezone_now ;
  let ticket := set_modified (Some now) ticket in
  first_answer ←
    (if negb (truthy_duration (t_time_before_first_answer ticket))
        && f_public self && is_some (f_user self) then
       u ← deref db_users (f_user self) ;
       mret (match u with Some (_, u) => u_is_staff u | None => false end)
     else mret false) ;
  let ticket :=
    if (first_answer : bool) then
      set_time_before_first_answer
        (office_time_between env (t_created ticket) (f_date self)) ticket
    else ticket in
  ticket ← Ticket_save None [] ticket ;
  stored_public ← BooleanField_to_python public ;
  d ← get_db ;
  let self := mkFollowUp (Some (db_followup_seq d))
                (t_id ticket) (f_date self) (f_title self) (f_comment self)
                stored_public (f_user self) (f_new_status self) in
  modify (fun d => with_followup_seq (db_followup_seq d + 1)
                     (with_followups (db_followups d ++ [self]) d)) ;;
  mret (self, ticket).

(** [TicketCC.email_address]. *)
Definition cc_email_address (cc : TicketCC) : M (option string) :=
  u ← deref db_users (cc_user cc) ;
  mret match u with
       | Some (_, u) => if truthy_str (u_email u) then Some (u_email u)
                        else cc_email cc
       | None => cc_email cc
       end.

(** [Queue.from_address]; the text used when the queue has no address
    depends on [settings.DEFAULT_FROM_EMAIL] alone. *)
Definition from_address (q : Queue) : string :=
  match q_email_address q with
  | Some a => if truthy_str a then q_title q +:+ " <" +:+ a +:+ ">"
              else no_queue_from_address env
  | None => no_queue_from_address env
  end.

(** ** [update_ticket] *)

Record Request := mkRequest {
  r_user_id : option Z;
  r_POST : gmap string string;
  r_FILES : list (string * string);
  r_is_ajax : bool
}.

(** [request.user]: the user of the session, anonymous ([None]) when the
    session names nobody. *)
Definition request_user (d : DB) (req : Request) : option (Z * User) :=
  match r_user_id req with
  | Some uid => match db_users d !! uid with
                | Some u => Some (uid, u)
                | None => None
                end
  | None => None
  end.

Definition user_is_staff (u : option (Z * User)) : bool :=
  match u with Some (_, u) => u_is_staff u | None => false end.
Definition user_is_active (u : option (Z * User)) : bool :=
  match u with Some (_, u) => u_is_active u | None => false end.
Definition user_id (u : option (Z * User)) : option Z :=
  match u with Some (uid, _) => Some uid | None => None end.

Inductive JsonValue :=
  | JBool (b : bool)
  | JString (s : string).

Inductive Response :=
  | RedirectLogin
  | RedirectStaffUrl (ticket_id : option Z)
  | RedirectPublicUrl (ticket_id : option Z)
  | RedirectList
  | Http404Object
  | JsonResponse (payload : list (string * JsonValue)).

(** [return_to_ticket]. *)
Definition return_to_ticket (user : option (Z * User)) (ticket : Ticket)
  : Response :=
  if user_is_staff user || HELPDESK_ALLOW_NON_STAFF_TICKET_UPDATE env
  then RedirectStaffUrl (t_id ticket)
  else RedirectPublicUrl (t_id ticket).

(** The values [update_ticket] reads from [request.POST]; [p_public] is
    [request.POST.get('public', False)], with [None] for [False]. *)
Record Proposed := mkProposed {
  p_comment : string;
  p_new_status : Z;
  p_title : string;
  p_public : option string;
  p_owner : Z;
  p_priority : Z;
  p_due_date : option Z;
  p_customer_contact_id : option Z;
  p_customer_id : option Z;
  p_site_id : option Z;
  p_customer_product_id : option Z
}.

(** [int(x)], a [ValueError] when [x] is no integer literal. *)
Definition int_of (s : string) : M Z :=
  match py_int env s with
  | Some n => mret n
  | None => raise ValueError
  end.

(** [int(request.POST.get(key, default))]. *)
Definition post_int (req : Request) (key : string) (default : Z) : M Z :=
  match r_POST req !! key with
  | Some s => int_of s
  | None => mret default
  end.

(** [int(request.POST.get(key)) if request.POST.get(key) else None]. *)
Definition post_int_or_none (req : Request) (key : string) : M (option Z) :=
  match r_POST req !! key with
  | Some s => if truthy_str s then n ← int_of s ; mret (Some n) else mret None
  | None => mret None
  end.

(** The assignments that open [update_ticket], the due date being
    [make_aware(datetime.strptime(due_date, DATETIME_LOCAL_FORMAT))]. *)
Definition parse_POST (req : Request) (ticket : Ticket) : M Proposed :=
  let comment := default "" (r_POST req !! "comment") in
  new_status ← post_int req "new_status" (t_status ticket) ;
  let title := default "" (r_POST req !! "title") in
  let public := r_POST req !! "public" in
  owner ← post_int req "owner" (-1) ;
  priority ← post_int req "priority" (t_priority ticket) ;
  customer_contact_id ← post_int_or_none req "customer_contact" ;
  customer_id ← post_int_or_none req "customer" ;
  site_id ← post_int_or_none req "site" ;
  customer_product_id ← post_int_or_none req "customer_product" ;
  due_date ←
    match r_POST req !! "due_date" with
    | Some s =>
        if truthy_str s then
          match parse_datetime_local env s with
          | Some naive =>
              match make_aware env naive with
              | Some t => mret (Some t)
              | None => raise InvalidTimeError
              end
          | None => raise ValueError
          end
        else mret None
    | None => mret None
    end ;
  mret (mkProposed comment new_status title public owner priority due_date
          customer_contact_id customer_id site_id customer_product_id).

(** The list handed to [all] when [no_changes] is computed.  Its last
    item is
    [(owner == -1) or (not owner and not ticket.assigned_to) or
     (owner and User.objects.get(id=owner) == ticket.assigned_to)]. *)
Definition no_changes (req : Request) (p : Proposed) (ticket : Ticket)
  : M bool :=
  contact ← related_id db_users (t_customer_contact ticket) ;
  customer ← related_id db_customers (t_customer ticket) ;
  site ← related_id db_sites (t_site ticket) ;
  product ← related_id db_customer_products (t_customer_product ticket) ;
  same_owner ←
    (if bool_decide (p_owner p = -1) then mret true
     else if bool_decide (p_owner p = 0) then
       assigned ← related_id db_users (t_assigned_to ticket) ;
       mret (negb (is_some assigned))
     else
       _ ← objects_get db_users (p_owner p) ;
       assigned ← related_id db_users (t_assigned_to ticket) ;
       mret (bool_decide (Some (p_owner p) = assigned))) ;
  mret (bool_decide (r_FILES req = [])
        && negb (truthy_str (p_comment p))
        && bool_decide (p_new_status p = t_status ticket)
        && bool_decide (p_title p = t_title ticket)
        && bool_decide (p_priority p = t_priority ticket)
        && bool_decide (p_due_date p = t_due_date ticket)
        && bool_decide (p_customer_contact_id p = contact)
        && bool_decide (p_customer_id p = customer)
        && bool_decide (p_site_id p = site)
        && bool_decide (p_customer_product_id p = product)
        && same_owner).

(** [str.replace(old, new)] for a non-empty [old]: occurrences are taken
    from the left and do not overlap; [skip] counts the characters of
    the occurrence being replaced that are still to be dropped. *)
Fixpoint replace_from (old new : string) (skip : nat) (s : string) : string :=
  match s with
  | EmptyString => EmptyString
  | String c s' =>
      match skip with
      | S k => replace_from old new k s'
      | O =>
          if String.prefix old s
          then new +:+ replace_from old new (String.length old - 1) s'
          else String c (replace_from old new 0 s')
      end
  end.

Definition replace (old new s : string) : string := replace_from old new 0 s.

(** The two [comment.replace(...).replace(...)] lines of [update_ticket]
    that wrap every tag opener and closer of the comment in a
    [verbatim] block. *)
Definition neutralize_comment (comment : string) : string :=
  let comment :=
    replace "%}" "X-HELPDESK-COMMENT-ENDVERBATIM"
      (replace "{%" "X-HELPDESK-COMMENT-VERBATIM" comment) in
  replace "X-HELPDESK-COMMENT-ENDVERBATIM" "%}{% endverbatim %}"
    (replace "X-HELPDESK-COMMENT-VERBATIM" "{% verbatim %}{%" comment).

(** [template_func(comment).render(context)]. *)
Definition render_comment (ticket : Ticket) (comment : string) : M string :=
  d ← get_db ;
  match render_template env d ticket (neutralize_comment comment) with
  | Some out => mret out
  | None => raise TemplateSyntaxError
  end.

(** [if owner is -1 and ticket.assigned_to: owner = ticket.assigned_to.id];
    [is] on these small integers is equality. *)
Definition resolve_owner_sentinel (owner : Z) (ticket : Ticket) : M Z :=
  if bool_decide (owner = -1) then
    assigned ← related_id db_users (t_assigned_to ticket) ;
    mret (default owner assigned)
  else mret owner.

Definition with_title (title : string) (f : FollowUp) : FollowUp :=
  mkFollowUp (f_id f) (f_ticket f) (f_date f) (Some title) (f_comment f)
    (f_public f) (f_user f) (f_new_status f).

(** The assignment block of [update_ticket], from [reassigned = False]
    to the [elif] that unassigns.  Returns the ticket, the follow-up,
    [reassigned], [old_owner] and the user now assigned. *)
Definition assign_owner (owner : Z) (ticket : Ticket) (f : FollowUp)
  : M (Ticket * FollowUp * bool * option (Z * User) * option (Z * User)) :=
  old_owner ← deref db_users (t_assigned_to ticket) ;
  if bool_decide (owner = -1) then mret (ticket, f, false, old_owner, old_owner)
  else if negb (bool_decide (owner = 0))
          && negb (bool_decide (fst <$> old_owner = Some owner)) then
    new_user ← objects_get db_users owner ;
    mret (set_assigned_to (Some owner) ticket,
          with_title ("Assigned to " +:+ u_username new_user) f,
          true, old_owner, Some (owner, new_user))
  else if bool_decide (owner = 0) && is_some old_owner then
    mret (set_assigned_to None ticket, with_title "Unassigned" f,
          false, old_owner, None)
  else mret (ticket, f, false, old_owner, old_owner).

(** [if new_status != ticket.status: ...]. *)
Definition change_status (new_status : Z) (ticket : Ticket) (f : FollowUp)
  : M (Ticket * FollowUp) :=
  if negb (bool_decide (new_status = t_status ticket)) then
    ticket ← Ticket_save None [] (set_status new_status ticket) ;
    modify (fun d => with_flash
      (db_flash d ++ ["Le ticket est désormais dans le statut "
                      +:+ get_status_display ticket]) d) ;;
    let title :=
      if truthy_ostr (f_title f)
      then default "" (f_title f) +:+ " and " +:+ get_status_display ticket
      else get_status_display ticket in
    mret (ticket,
          mkFollowUp (f_id f) (f_ticket f) (f_date f) (Some title) (f_comment f)
            (f_public f) (f_user f) (Some new_status))
  else mret (ticket, f).

(** [if not f.title: ...]. *)
Definition default_title (f : FollowUp) : FollowUp :=
  if truthy_ostr (f_title f) then f
  else with_title (if truthy_str (f_comment f) then "Comment" else "Updated") f.

(** [TicketChange.objects.create(followup=f, ...)]. *)
Definition TicketChange_create (f : FollowUp) (field old new : string) : M unit :=
  modify (fun d => with_ticketchanges
    (db_ticketchanges d ++ [mkTicketChange (f_id f) field old new]) d).

(** [str(x) if x else _('Unassigned')] for a related object. *)
Definition str_or_unassigned {A} (str : A -> string) (x : option (Z * A))
  : string :=
  match x with Some (_, a) => str a | None => "Unassigned" end.

(** [try: x = Model.objects.get(id=k) except Model.DoesNotExist: x = None]. *)
Definition get_or_none {A} (table : DB -> gmap Z A) (k : option Z)
  : M (option (Z * A)) :=
  d ← get_db ;
  mret match k with
       | Some k => match table d !! k with
                   | Some a => Some (k, a)
                   | None => None
                   end
       | None => None
       end.

(** "Add Ticket Changes": one row per difference, then the new value on
    the in-memory ticket.  [old_owner], [old_status] and
    [old_status_str] were taken before the assignment and status
    blocks; [assigned] is [ticket.assigned_to]. *)
Definition add_ticket_changes (p : Proposed)
    (old_owner assigned : option (Z * User))
    (old_status : Z) (old_status_str : string) (f : FollowUp)
    (ticket : Ticket) : M Ticket :=
  ticket ←
    (if truthy_str (p_title p) && negb (bool_decide (p_title p = t_title ticket))
     then TicketChange_create f "Title" (t_title ticket) (p_title p) ;;
          mret (set_title (p_title p) ticket)
     else mret ticket) ;
  when (negb (bool_decide (p_new_status p = old_status)))
    (TicketChange_create f "Status" old_status_str (get_status_display ticket)) ;;
  when (negb (bool_decide (fst <$> assigned = fst <$> old_owner)))
    (TicketChange_create f "Owner" (str_or_unassigned u_str old_owner)
       (str_or_unassigned u_str assigned)) ;;
  ticket ←
    (if negb (bool_decide (p_priority p = t_priority ticket))
     then TicketChange_create f "Priority" (str_int (t_priority ticket))
            (str_int (p_priority p)) ;;
          mret (set_priority (p_priority p) ticket)
     else mret ticket) ;
  ticket ←
    (if negb (bool_decide (p_due_date p = t_due_date ticket))
     then TicketChange_create f "Due on"
            (match t_due_date ticket with
             | Some t => date_format env (localtime env t)
             | None => "Non définie"
             end)
            (match p_due_date p with
             | Some t => date_format env t
             | None => "Non définie"
             end) ;;
          mret (set_due_date (p_due_date p) ticket)
     else mret ticket) ;
  old ← deref db_users (t_customer_contact ticket) ;
  ticket ←
    (if negb (bool_decide (p_customer_contact_id p = fst <$> old))
     then new ← get_or_none db_users (p_customer_contact_id p) ;
          TicketChange_create f "Contact client"
            (str_or_unassigned u_str old) (str_or_unassigned u_str new) ;;
          mret (set_customer_contact (fst <$> new) ticket)
     else mret ticket) ;
  old ← deref db_customers (t_customer ticket) ;
  ticket ←
    (if negb (bool_decide (p_customer_id p = fst <$> old))
     then new ← get_or_none db_customers (p_customer_id p) ;
          TicketChange_create f "Client" (str_or_unassigned id old)
            (str_or_unassigned id new) ;;
          mret (set_customer (fst <$> new) ticket)
     else mret ticket) ;
  old ← deref db_sites (t_site ticket) ;
  ticket ←
    (if negb (bool_decide (p_site_id p = fst <$> old))
     then new ← get_or_none db_sites (p_site_id p) ;
          TicketChange_create f "Site" (str_or_unassigned id old)
            (str_or_unassigned id new) ;;
          mret (set_site (fst <$> new) ticket)
     else mret ticket) ;
  old ← deref db_customer_products (t_customer_product ticket) ;
  (if negb (bool_decide (p_customer_product_id p = fst <$> old))
   then new ← get_or_none db_customer_products (p_customer_product_id p) ;
        TicketChange_create f "Produit client" (str_or_unassigned id old)
          (str_or_unassigned id new) ;;
        mret (set_customer_product (fst <$> new) ticket)
   else mret ticket).

(** [if new_status in (RESOLVED, CLOSED): ...]: the resolution text. *)
Definition set_resolution_text (new_status : Z) (comment : string)
    (ticket : Ticket) : Ticket :=
  if status_in new_status [RESOLVED_STATUS; CLOSED_STATUS] then
    if bool_decide (new_status = RESOLVED_STATUS)
       || negb (is_some (t_resolution ticket))
    then set_resolution (Some comment) ticket
    else ticket
  else ticket.

(** ** Notification fan-out *)

(** Modelled from the spec: [helpdesk.lib.send_templated_mail], the
    "templated message dispatch" collaborator, "invoked with a template
    key, a context mapping, one or more recipient addresses, a sender
    address, a fail silently flag, and an optional file list".  The call
    is recorded; with [fail_silently=True] it raises nothing. *)
Definition send_templated_mail (template : string) (recipients : option string)
    (sender : string) (files : list string) : M unit :=
  modify (fun d => with_outbox
    (db_outbox d ++ [mkMail template recipients sender files]) d).

(** A call with [sender=ticket.queue.from_address]. *)
Definition send_from_queue (ticket : Ticket) (template : string)
    (recipients : option string) (files : list string) : M unit :=
  q ← objects_get db_queues (t_queue ticket) ;
  send_templated_mail template recipients (from_address q) files.

(** [ticket.ticketcc_set.all()]. *)
Definition ticketcc_set (d : DB) (ticket : Ticket) : list TicketCC :=
  filter (fun cc => Some (cc_ticket cc) = t_id ticket) (db_ticketccs d).

(** The prefix chosen from [f.new_status]. *)
Definition template_prefix (f : FollowUp) : string :=
  if bool_decide (f_new_status f = Some RESOLVED_STATUS) then "resolved_"
  else if bool_decide (f_new_status f = Some CLOSED_STATUS) then "closed_"
  else "updated_".

(** [for cc in ticket.ticketcc_set.all(): ...]. *)
Fixpoint notify_ccs (ticket : Ticket) (template : string) (files : list string)
    (ccs : list TicketCC) (messages_sent_to : list (option string))
  : M (list (option string)) :=
  match ccs with
  | [] => mret messages_sent_to
  | cc :: ccs =>
      address ← cc_email_address cc ;
      if bool_decide (address ∈ messages_sent_to)
      then notify_ccs ticket template files ccs messages_sent_to
      else send_from_queue ticket template address files ;;
           notify_ccs ticket template files ccs (messages_sent_to ++ [address])
  end.

(** The submitter and the CC entries: the block under
    [if public and (f.comment or f.new_status in (RESOLVED, CLOSED))]. *)
Definition notify_public (public : bool) (ticket : Ticket) (f : FollowUp)
    (files : list string) (messages_sent_to : list (option string))
  : M (list (option string)) :=
  if public && (truthy_str (f_comment f)
                || bool_decide (f_new_status f = Some RESOLVED_STATUS)
                || bool_decide (f_new_status f = Some CLOSED_STATUS)) then
    let template := template_prefix f in
    messages_sent_to ←
      (if truthy_ostr (t_submitter_email ticket) then
         send_from_queue ticket (template +:+ "submitter")
           (t_submitter_email ticket) files ;;
         mret (messages_sent_to ++ [t_submitter_email ticket])
       else mret messages_sent_to) ;
    d ← get_db ;
    notify_ccs ticket (template +:+ "cc") files (ticketcc_set d ticket)
      messages_sent_to
  else mret messages_sent_to.

(** [user.usersettings_helpdesk.settings.get(key, False)]. *)
Definition user_setting (u : User) (key : string) : M bool :=
  match u_settings u with
  | Some settings => mret (default false (settings !! key))
  | None => raise RelatedObjectDoesNotExist
  end.

(** The assignee: the block under [if ticket.assigned_to and ...]. *)
Definition notify_owner (acting : option (Z * User)) (reassigned : bool)
    (assigned : option (Z * User)) (ticket : Ticket) (f : FollowUp)
    (files : list string) (messages_sent_to : list (option string))
  : M (list (option string)) :=
  match assigned with
  | Some (uid, owner) =>
      if negb (bool_decide (user_id acting = Some uid))
         && truthy_str (u_email owner)
         && negb (bool_decide (Some (u_email owner) ∈ messages_sent_to)) then
        let template_staff :=
          if reassigned then "assigned_owner"
          else if bool_decide (f_new_status f = Some RESOLVED_STATUS)
               then "resolved_owner"
          else if bool_decide (f_new_status f = Some CLOSED_STATUS)
               then "closed_owner"
          else "updated_owner" in
        on_assign ←
          (if negb reassigned then mret true
           else user_setting owner "email_on_ticket_assign") ;
        wanted ←
          (if (on_assign : bool) then mret true
           else if negb reassigned
                then user_setting owner "email_on_ticket_change"
                else mret false) ;
        if (wanted : bool) then
          send_from_queue ticket template_staff (Some (u_email owner)) files ;;
          mret (messages_sent_to ++ [Some (u_email owner)])
        else mret messages_sent_to
      else mret messages_sent_to
  | None => mret messages_sent_to
  end.

(** The queue-level CC: the block under
    [if ticket.queue.updated_ticket_cc and ...]. *)
Definition notify_queue_cc (reassigned : bool) (ticket : Ticket) (f : FollowUp)
    (files : list string) (messages_sent_to : list (option string)) : M unit :=
  q ← objects_get db_queues (t_queue ticket) ;
  if truthy_ostr (q_updated_ticket_cc q)
     && negb (bool_decide (q_updated_ticket_cc q ∈ messages_sent_to)) then
    let template_cc :=
      if reassigned then "assigned_cc"
      else if bool_decide (f_new_status f = Some RESOLVED_STATUS)
           then "resolved_cc"
      else if bool_decide (f_new_status f = Some CLOSED_STATUS)
           then "closed_cc"
      else "updated_cc" in
    send_templated_mail template_cc (q_updated_ticket_cc q) (from_address q)
      files
  else mret tt.

(** The fan-out of one invocation, from [messages_sent_to = []] to the
    queue-level CC. *)
Definition notify (acting : option (Z * User)) (public reassigned : bool)
    (assigned : option (Z * User)) (ticket : Ticket) (f : FollowUp)
    (files : list string) : M unit :=
  let messages_sent_to := [] in
  messages_sent_to ← notify_public public ticket f files messages_sent_to ;
  messages_sent_to ←
    notify_owner acting reassigned assigned ticket f files messages_sent_to ;
  notify_queue_cc reassigned ticket f files messages_sent_to.

(** Modelled from the spec: [helpdesk.lib.process_attachments], which
    stores the uploaded files as "file metadata bound to a FollowUp" and
    returns them; the names uploaded under [attachment] stand for the
    files. *)
Definition process_attachments (f : FollowUp) (req : Request) : list string :=
  snd <$> filter (fun kv => kv.1 = "attachment") (r_FILES req).

(** What one run of the workflow went through, kept for the statements
    about it. *)
Record Workflow := mkWorkflow {
  w_ticket : Ticket;
  w_followup : FollowUp;
  w_reassigned : bool
}.

(** [update_ticket] from the rendering of the comment to the last
    [ticket.save()]. *)
Definition update_ticket_body (req : Request) (acting : option (Z * User))
    (p : Proposed) (ticket : Ticket) : M Workflow :=
  comment ← render_comment ticket (p_comment p) ;
  owner ← resolve_owner_sentinel (p_owner p) ticket ;
  now ← timezone_now ;
  let f := mkFollowUp None (t_id ticket) now None comment false None None in
  f ← (if user_is_staff acting || HELPDESK_ALLOW_NON_STAFF_TICKET_UPDATE env
       then match acting with
            | Some (uid, _) =>
                mret (mkFollowUp (f_id f) (f_ticket f) (f_date f) (f_title f)
                        (f_comment f) (f_public f) (Some uid) (f_new_status f))
            | None => raise ValueError
            end
       else mret f) ;
  let f := mkFollowUp (f_id f) (f_ticket f) (f_date f) (f_title f)
             (f_comment f) (truthy_ostr (p_public p)) (f_user f)
             (f_new_status f) in
  '(ticket, f, reassigned, old_owner, assigned) ← assign_owner owner ticket f ;
  let old_status_str := get_status_display ticket in
  let old_status := t_status ticket in
  '(ticket, f) ← change_status (p_new_status p) ticket f ;
  let f := default_title f in
  '(f, ticket) ← FollowUp_save (p_public p) f ticket ;
  let files := process_attachments f req in
  ticket ← add_ticket_changes p old_owner assigned old_status old_status_str
             f ticket ;
  let ticket := set_resolution_text (p_new_status p) comment ticket in
  notify acting (truthy_ostr (p_public p)) reassigned assigned ticket f files ;;
  ticket ← Ticket_save None [] ticket ;
  mret (mkWorkflow ticket f reassigned).

(** The guard that opens [update_ticket]:
    [public or (user.is_authenticated and user.is_active and
     (user.is_staff or HELPDESK_ALLOW_NON_STAFF_TICKET_UPDATE))]. *)
Definition may_update (public : bool) (acting : option (Z * User)) : bool :=
  public
  || (is_some acting && user_is_active acting
      && (user_is_staff acting || HELPDESK_ALLOW_NON_STAFF_TICKET_UPDATE env)).

(** [update_ticket(request, ticket_id, public)], up to the
    auto-subscription of the acting user that precedes the final
    [return] (it only adds a [TicketCC] row). *)
Definition update_ticket_run (req : Request) (ticket_id : Z) (public : bool)
  : M (Response * option Workflow) :=
  d ← get_db ;
  let acting := request_user d req in
  if negb (may_update public acting) then mret (RedirectLogin, None)
  else
    ticket ← try_except (objects_get db_tickets ticket_id) DoesNotExist
               (raise Http404) ;
    p ← parse_POST req ticket ;
    unchanged ← no_changes req p ticket ;
    if (unchanged : bool) then
      modify (fun d => with_flash
        (db_flash d ++ ["Aucune modification n'a été apportée."]) d) ;;
      mret (return_to_ticket acting ticket, None)
    else
      w ← update_ticket_body req acting p ticket ;
      mret (return_to_ticket acting (w_ticket w), Some w).

Definition update_ticket (req : Request) (ticket_id : Z) (public : bool)
  : M Response :=
  r ← update_ticket_run req ticket_id public ; mret r.1.

(** ** [quick_update_ticket] *)

(** The column behind the foreign key [name] of a ticket, and whether
    the row it names is there.  (The generic incidents are not part of
    the store: theirs are taken to be found.) *)
Definition foreign_key (d : DB) (ticket : Ticket) (name : string)
  : option (option Z * bool) :=
  if bool_decide (name = "queue")
    then Some (Some (t_queue ticket), is_some (db_queues d !! t_queue ticket))
  else if bool_decide (name = "assigned_to")
    then Some (t_assigned_to ticket, fk_ok (db_users d) (t_assigned_to ticket))
  else if bool_decide (name = "category")
    then Some (t_category ticket, fk_ok (db_categories d) (t_category ticket))
  else if bool_decide (name = "type")
    then Some (t_type ticket, fk_ok (db_ticket_types d) (t_type ticket))
  else if bool_decide (name = "customer_contact")
    then Some (t_customer_contact ticket,
               fk_ok (db_users d) (t_customer_contact ticket))
  else if bool_decide (name = "customer")
    then Some (t_customer ticket, fk_ok (db_customers d) (t_customer ticket))
  else if bool_decide (name = "site")
    then Some (t_site ticket, fk_ok (db_sites d) (t_site ticket))
  else if bool_decide (name = "customer_product")
    then Some (t_customer_product ticket,
               fk_ok (db_customer_products d) (t_customer_product ticket))
  else if bool_decide (name = "merged_to")
    then Some (t_merged_to ticket, fk_ok (db_tickets d) (t_merged_to ticket))
  else if bool_decide (name = "generic_incident")
    then Some (t_generic_incident ticket, true)
  else None.

(** [hasattr(ticket, field)]: a column, a foreign key under either of
    its names, or another attribute of the instance.  Reading a foreign
    key fetches the related object; a missing row is a [DoesNotExist],
    which [hasattr] lets through since it is no [AttributeError]. *)
Definition hasattr (ticket : Ticket) (field : string) : M bool :=
  d ← get_db ;
  match foreign_key d ticket field with
  | Some (_, found) => if found then mret true else raise DoesNotExist
  | None => mret (is_ticket_field field
                  || is_some (foreign_key_of_attname field)
                  || ticket_attribute env field)
  end.

(** The related object that [hasattr(ticket, field)] has left on the
    instance. *)
Definition kept_by_hasattr (d : DB) (ticket : Ticket) (field : string)
  : Cache :=
  match foreign_key d ticket field with
  | Some (fk, _) => [(field, fk)]
  | None => []
  end.

(** [setattr(ticket, field + ('_id' if field != 'billing' else ''), value)]:
    the attribute assigned is a column for [billing] and for the name of
    a foreign key, whose related object stays as [hasattr] left it; any
    other name gets an attribute that no column reads. *)
Definition setattr_quick (field : string) (value : Z) (ticket : Ticket)
  : Ticket :=
  if bool_decide (field = "billing") then set_billing (Some value) ticket
  else if bool_decide (field = "queue") then set_queue value ticket
  else if bool_decide (field = "assigned_to")
    then set_assigned_to (Some value) ticket
  else if bool_decide (field = "category") then set_category (Some value) ticket
  else if bool_decide (field = "type") then set_type (Some value) ticket
  else if bool_decide (field = "customer_contact")
    then set_customer_contact (Some value) ticket
  else if bool_decide (field = "customer") then set_customer (Some value) ticket
  else if bool_decide (field = "site") then set_site (Some value) ticket
  else if bool_decide (field = "customer_product")
    then set_customer_product (Some value) ticket
  else if bool_decide (field = "merged_to")
    then set_merged_to (Some value) ticket
  else if bool_decide (field = "generic_incident")
    then set_generic_incident (Some value) ticket
  else ticket.

(** [ticket.refresh_from_db()]. *)
Definition refresh_from_db (ticket : Ticket) : M Ticket :=
  match t_id ticket with
  | Some pk => objects_get db_tickets pk
  | None => raise DoesNotExist
  end.

Definition json_error (message : string) : Response :=
  JsonResponse [("success", JBool false); ("error", JString message)].

(** The body of [quick_update_ticket], under its decorators. *)
Definition quick_update_ticket (req : Request) (ticket_id : Z) : M Response :=
  if negb (r_is_ajax req) then mret Http404Object
  else
    ticket ← try_except (objects_get db_tickets ticket_id) DoesNotExist
               (raise Http404) ;
    match r_POST req !! "field" with
    | None => mret (json_error "Le champ du ticket n'est pas spécifié.")
    | Some field =>
      if negb (truthy_str field)
      then mret (json_error "Le champ du ticket n'est pas spécifié.")
      else
        match r_POST req !! "value" with
        | None => mret (json_error "La valeur n'est pas spécifié.")
        | Some s =>
          match py_int env s with
          | None => mret (json_error "Veuillez choisir une option dans la liste.")
          | Some value =>
            d ← get_db ;
            has ← hasattr ticket field ;
            if negb has
            then mret (json_error "Le champ %s n'existe pas sur le ticket.")
            else
              let cache := kept_by_hasattr d ticket field in
              let ticket := setattr_quick field value ticket in
              ticket ← Ticket_save (Some [field]) cache ticket ;
              ticket ← refresh_from_db ticket ;
              if bool_decide (field = "type") then
                ty ← deref db_ticket_types (t_type ticket) ;
                match ty with
                | Some (_, ty) =>
                    if tt_mandatory_facturation ty
                    then mret (JsonResponse
                                 [("success", JBool true);
                                  ("mandatory_facturation", JBool true)])
                    else mret (JsonResponse [("success", JBool true)])
                | None => raise AttributeError
                end
              else mret (JsonResponse [("success", JBool true)])
          end
        end
    end.

End Views.

(** ** Saved queries *)

(** [query_params], the filter specification of [ticket_list]. *)
Record FilterSpec := mkFilterSpec {
  fs_filtering : list (string * list Z);
  fs_sorting : option string;
  fs_sortreverse : bool;
  fs_keyword : option string
}.

(** [helpdesk.models.SavedSearch]. *)
Record SavedSearch := mkSavedSearch {
  ss_user : Z;
  ss_shared : bool;
  ss_query : string
}.

(** Six bits, the most significant first. *)
Definition Sextet : Type := bool * bool * bool * bool * bool * bool.

Definition sextet_index (x : Sextet) : nat :=
  let '(b5, b4, b3, b2, b1, b0) := x in
  let bit (b : bool) (n : nat) : nat := if b then n else 0%nat in
  (bit b5 32 + bit b4 16 + bit b3 8 + bit b2 4 + bit b1 2 + bit b0 1)%nat.

Definition index_sextet (n : nat) : Sextet :=
  (Nat.testbit n 5, Nat.testbit n 4, Nat.testbit n 3, Nat.testbit n 2,
   Nat.testbit n 1, Nat.testbit n 0).

Definition base64_alphabet : string :=
  "ABCDEFGHIJKLMNOPQRSTUVWXYZabcdefghijklmnopqrstuvwxyz0123456789-_".

Fixpoint index_of (c : ascii) (s : string) : option nat :=
  match s with
  | EmptyString => None
  | String c' s' => if bool_decide (c = c') then Some 0%nat
                    else S <$> index_of c s'
  end.

Definition sextet_char (x : Sextet) : ascii :=
  default "A"%char (String.get (sextet_index x) base64_alphabet).

Definition char_sextet (c : ascii) : option Sextet :=
  index_sextet <$> index_of c base64_alphabet.

(** The 24 bits of three bytes as four sextets. *)
Definition encode3 (a b c : ascii) : Sextet * Sextet * Sextet * Sextet :=
  let '(Ascii a0 a1 a2 a3 a4 a5 a6 a7) := a in
  let '(Ascii b0 b1 b2 b3 b4 b5 b6 b7) := b in
  let '(Ascii c0 c1 c2 c3 c4 c5 c6 c7) := c in
  ((a7, a6, a5, a4, a3, a2), (a1, a0, b7, b6, b5, b4),
   (b3, b2, b1, b0, c7, c6), (c5, c4, c3, c2, c1, c0)).

Definition decode4 (x1 x2 x3 x4 : Sextet) : ascii * ascii * ascii :=
  let '(a7, a6, a5, a4, a3, a2) := x1 in
  let '(a1, a0, b7, b6, b5, b4) := x2 in
  let '(b3, b2, b1, b0, c7, c6) := x3 in
  let '(c5, c4, c3, c2, c1, c0) := x4 in
  (Ascii a0 a1 a2 a3 a4 a5 a6 a7, Ascii b0 b1 b2 b3 b4 b5 b6 b7,
   Ascii c0 c1 c2 c3 c4 c5 c6 c7).

Definition zero_byte : ascii := Ascii false false false false false false false false.

(** The sextets of a byte string, the last group cut to the bits it
    holds. *)
Fixpoint to_sextets (s : string) : list Sextet :=
  match s with
  | String a (String b (String c rest)) =>
      let '(x1, x2, x3, x4) := encode3 a b c in
      x1 :: x2 :: x3 :: x4 :: to_sextets rest
  | String a (String b EmptyString) =>
      let '(x1, x2, x3, _) := encode3 a b zero_byte in [x1; x2; x3]
  | String a EmptyString =>
      let '(x1, x2, _, _) := encode3 a zero_byte zero_byte in [x1; x2]
  | EmptyString => []
  end.

Definition padding (s : string) : string :=
  match (String.length s mod 3)%nat with
  | 1%nat => "=="
  | 2%nat => "="
  | _ => ""
  end.

Fixpoint chars_of (xs : list Sextet) : string :=
  match xs with
  | [] => EmptyString
  | x :: xs => String (sextet_char x) (chars_of xs)
  end.

(** Modelled from the spec: [helpdesk.lib.b64encode], the encoder of the
    "base64-encoded string" of the persisted format, with the alphabet
    that is safe in a URL and [=] as padding. *)
Definition b64encode (s : string) : string :=
  chars_of (to_sextets s) +:+ padding s.

(** The characters of the alphabet up to the padding; any other
    character is passed over. *)
Fixpoint sextets (s : string) : list Sextet :=
  match s with
  | EmptyString => []
  | String c s' =>
      if bool_decide (c = "="%char) then []
      else match char_sextet c with
           | Some x => x :: sextets s'
           | None => sextets s'
           end
  end.

Fixpoint decode_sextets (xs : list Sextet) : option string :=
  match xs with
  | x1 :: x2 :: x3 :: x4 :: rest =>
      let '(a, b, c) := decode4 x1 x2 x3 x4 in
      (fun s => String a (String b (String c s))) <$> decode_sextets rest
  | [x1; x2; x3] =>
      let '(a, b, _) := decode4 x1 x2 x3 x3 in Some (String a (String b ""))
  | [x1; x2] => let '(a, _, _) := decode4 x1 x2 x2 x2 in Some (String a "")
  | [_] => None
  | [] => Some EmptyString
  end.

(** Modelled from the spec: [helpdesk.lib.b64decode], the decoder of
    that format; [None] is the [ValueError] it raises on a text that
    holds one character more than whole groups. *)
Definition b64decode (s : string) : option string :=
  decode_sextets (sextets s).

(** [str.lstrip(chars)]. *)
Fixpoint lstrip (chars : list ascii) (s : string) : string :=
  match s with
  | String c s' => if bool_decide (c ∈ chars) then lstrip chars s' else s
  | EmptyString => EmptyString
  end.

Section SavedQueries.
(** [json.dumps(x).encode('UTF-8')], and [json.loads(b.decode())] with
    [None] for the [ValueError] either step raises. *)
Context (json_dumps : FilterSpec -> string)
        (json_loads : string -> option FilterSpec).

(** [urlsafe_query] of [ticket_list]: what is offered for saving. *)
Definition urlsafe_query (query_params : FilterSpec) : string :=
  b64encode (json_dumps query_params).

(** The [try] block of [ticket_list] that reads [saved_query.query]:
    the specification, or the redirect to the list. *)
Definition saved_query_params (saved_query : SavedSearch)
  : Response + FilterSpec :=
  match b64decode (lstrip ["b"; "\"; "'"]%char (ss_query saved_query)) with
  | Some text =>
      match json_loads text with
      | Some query_params => inr query_params
      | None => inl RedirectList
      end
  | None => inl RedirectList
  end.


End SavedQueries.

(** ** Ticket references and recipients *)

(** [str.split(sep)] for a separator of one character. *)
Fixpoint split_char (sep : ascii) (s : string) : list string :=
  match s with
  | EmptyString => [EmptyString]
  | String c s' =>
      if bool_decide (c = sep) then EmptyString :: split_char sep s'
      else match split_char sep s' with
           | part :: parts => String c part :: parts
           | [] => [String c EmptyString]
           end
  end.

(** [sep.join(parts)]. *)
Fixpoint join (sep : string) (parts : list string) : string :=
  match parts with
  | [] => EmptyString
  | part :: parts =>
      match parts with
      | [] => part
      | _ => part +:+ sep +:+ join sep parts
      end
  end.

(** [Ticket.ticket_for_url], from the slug of the queue and the key of
    the ticket. *)
Definition ticket_for_url (slug : string) (id : Z) : string :=
  slug +:+ "-" +:+ str_int id.

(** [Ticket.queue_and_id_from_query]. *)
Definition queue_and_id_from_query (query : string) : string * string :=
  let parts := split_char "-" query in
  (join "-" (removelast parts), List.last parts EmptyString).

(** [Ticket.get_submitter_emails]. *)
Definition get_submitter_emails (self : Ticket) : M (list string) :=
  contact ← deref db_users (t_customer_contact self) ;
  let recipients :=
    match contact with
    | Some (_, u) => if truthy_str (u_email u) then [u_email u] else []
    | None => []
    end in
  mret match t_submitter_email self with
       | Some email =>
           if truthy_str email && negb (bool_decide (email ∈ recipients))
           then recipients ++ [email] else recipients
       | None => recipients
       end.

(** [subscribe_staff_member_to_ticket]; the CC entries of a ticket are
    reached through its key, which an unsaved ticket does not have. *)
Definition subscribe_staff_member_to_ticket (ticket : Ticket) (user : Z)
  : M unit :=
  match t_id ticket with
  | None => raise ValueError
  | Some pk =>
      d ← get_db ;
      when (negb (existsb (fun cc => bool_decide (cc_user cc = Some user))
                    (ticketcc_set d ticket)))
        (modify (fun d => with_ticketccs
           (db_ticketccs d ++ [mkTicketCC pk (Some user) None true true]) d))
  end.

(** Modelled from the spec: the addresses [send_templated_mail] sends a
    message to.  Its [recipients] are "one or more recipient
    addresses"; held in one string they are separated by commas
    ([Queue.updated_ticket_cc]: "Separate multiple addresses with a
    comma"). *)
Definition mail_addresses (m : Mail) : list string :=
  match m_recipients m with
  | Some recipients => split_char "," recipients
  | None => []
  end.

(** ** The template engine *)

(** What the framework's engine does with a template, as far as the
    comment of [update_ticket] goes: the lexer splits the text at the
    matches of [({%.*?%}|{{.*?}}|{#.*?#})], keeps every tag inside a
    [verbatim] block as text, and the parser renders text as it is, a
    [verbatim] block as the text up to its [endverbatim], and fails on
    a block tag that is unknown or left unclosed. *)
Module Template.

Inductive TagKind := KBlock | KVar | KComment.

Inductive Bit :=
  | BText (s : string)
  | BTag (k : TagKind) (inner : string).

Inductive Token :=
  | TText (s : string)
  | TVar (contents : string)
  | TBlock (contents : string)
  | TComment.

Fixpoint drop_chars (n : nat) (s : string) : string :=
  match n, s with
  | S n, String _ s' => drop_chars n s'
  | _, _ => s
  end.

Definition newline : ascii := ascii_of_nat 10.

(** The shortest [.*?] followed by [close] from the start of [s]: the
    text matched by [.*?], which holds no newline, and the rest. *)
Fixpoint find_close (close : string) (s : string) : option (string * string) :=
  match s with
  | EmptyString => None
  | String c s' =>
      if String.prefix close s
      then Some (EmptyString, drop_chars (String.length close) s)
      else if bool_decide (c = newline) then None
      else match find_close close s' with
           | Some (inner, rest) => Some (String c inner, rest)
           | None => None
           end
  end.

(** A match of the tag pattern at the start of [s]: its kind, the text
    between the delimiters and the length of the match. *)
Definition tag_at (s : string) : option (TagKind * string * nat) :=
  match s with
  | String a (String b rest) =>
      if bool_decide (a = "{"%char) then
        let closed k close :=
          match find_close close rest with
          | Some (inner, _) => Some (k, inner, 4 + String.length inner)%nat
          | None => None
          end in
        if bool_decide (b = "%"%char) then closed KBlock "%}"
        else if bool_decide (b = "{"%char) then closed KVar "}}"
        else if bool_decide (b = "#"%char) then closed KComment "#}"
        else None
      else None
  | _ => None
  end.

Definition push_char (c : ascii) (bits : list Bit) : list Bit :=
  match bits with
  | BText t :: bits => BText (String c t) :: bits
  | _ => BText (String c EmptyString) :: bits
  end.

(** [tag_re.split(template_string)], the empty pieces left out; [skip]
    counts the characters of the current match still to be passed. *)
Fixpoint split_bits (skip : nat) (s : string) : list Bit :=
  match s with
  | EmptyString => []
  | String c s' =>
      match skip with
      | S k => split_bits k s'
      | O =>
          match tag_at s with
          | Some (k, inner, len) => BTag k inner :: split_bits (len - 1) s'
          | None => push_char c (split_bits 0 s')
          end
      end
  end.

Definition is_space (c : ascii) : bool :=
  let n := nat_of_ascii c in
  ((9 <=? n) && (n <=? 13) || (28 <=? n) && (n <=? 32))%nat.

Fixpoint lstrip (s : string) : string :=
  match s with
  | String c s' => if is_space c then lstrip s' else s
  | EmptyString => EmptyString
  end.

Definition strip (s : string) : string :=
  String.rev (lstrip (String.rev (lstrip s))).

(** [contents.split()[0]], empty when there is no word. *)
Fixpoint first_word (s : string) : string :=
  match s with
  | String c s' => if is_space c then EmptyString else String c (first_word s')
  | EmptyString => EmptyString
  end.

Definition token_string (k : TagKind) (inner : string) : string :=
  match k with
  | KBlock => "{%" +:+ inner +:+ "%}"
  | KVar => "{{" +:+ inner +:+ "}}"
  | KComment => "{#" +:+ inner +:+ "#}"
  end.

(** [Lexer.create_token] over the pieces; [verbatim] is the content of
    the tag that ends the block being read, if one is. *)
Fixpoint create_tokens (verbatim : option string) (bits : list Bit)
  : list Token :=
  match bits with
  | [] => []
  | BText s :: bits => TText s :: create_tokens verbatim bits
  | BTag k inner :: bits =>
      let content := strip inner in
      let verbatim :=
        match k with
        | KBlock => if bool_decide (verbatim = Some content) then None
                    else verbatim
        | _ => verbatim
        end in
      match verbatim with
      | Some _ => TText (token_string k inner) :: create_tokens verbatim bits
      | None =>
          match k with
          | KVar => TVar content :: create_tokens None bits
          | KComment => TComment :: create_tokens None bits
          | KBlock =>
              let start := String.substring 0 9 content in
              TBlock content ::
              create_tokens
                (if bool_decide (start = "verbatim")
                    || bool_decide (start = "verbatim ")
                 then Some ("end" +:+ content) else None) bits
          end
      end
  end.

Definition tokenize (template : string) : list Token :=
  create_tokens None (split_bits 0 template).

Section Parser.
(** The rendering of a variable tag, and of a block tag other than
    [verbatim] together with what it consumes of the tokens after it;
    [None] when the tag raises. *)
Context (variable : string -> option string)
        (block : string -> list Token -> option (string * list Token)).

Definition prepend (s : string) (r : option (string * list Token))
  : option (string * list Token) :=
  match r with
  | Some (out, ts) => Some (s +:+ out, ts)
  | None => None
  end.

(** [Parser.parse(parse_until)] and the rendering of its nodes: the
    output and the tokens after the closing tag.  An unknown, empty or
    unclosed tag is a [TemplateSyntaxError].  [fuel] bounds the number
    of tokens read. *)
Fixpoint parse_render (fuel : nat) (parse_until : option string)
    (ts : list Token) : option (string * list Token) :=
  match fuel with
  | O => None
  | S fuel =>
      match ts with
      | [] => match parse_until with
              | Some _ => None
              | None => Some (EmptyString, [])
              end
      | TText s :: ts => prepend s (parse_render fuel parse_until ts)
      | TComment :: ts => parse_render fuel parse_until ts
      | TVar v :: ts =>
          if bool_decide (v = "") then None
          else match variable v with
               | Some out => prepend out (parse_render fuel parse_until ts)
               | None => None
               end
      | TBlock b :: ts =>
          let command := first_word b in
          if bool_decide (command = "") then None
          else if bool_decide (parse_until = Some command)
          then Some (EmptyString, ts)
          else if bool_decide (command = "verbatim") then
            match parse_render fuel (Some "endverbatim") ts with
            | Some (inner, ts) =>
                prepend inner (parse_render fuel parse_until ts)
            | None => None
            end
          else
            match block b ts with
            | Some (out, ts) => prepend out (parse_render fuel parse_until ts)
            | None => None
            end
      end
  end.

(** [Template(template).render(context)]. *)
Definition render (template : string) : option string :=
  let ts := tokenize template in
  fst <$> parse_render (S (length ts)) None ts.

End Parser.
End Template.

(** ** Scenarios *)

Definition digit_of (c : ascii) : option Z :=
  let n := Z.of_nat (nat_of_ascii c) in
  if ((48 <=? n) && (n <=? 57))%Z then Some (n - 48) else None.

Fixpoint digits_value (acc : Z) (s : string) : option Z :=
  match s with
  | EmptyString => Some acc
  | String c s' =>
      match digit_of c with
      | Some n => digits_value (10 * acc + n) s'
      | None => None
      end
  end.

(** A decimal literal with an optional sign. *)
Definition decimal (s : string) : option Z :=
  match s with
  | EmptyString => None
  | String c s' =>
      if bool_decide (c = "-"%char)
      then if bool_decide (s' = "") then None else Z.opp <$> digits_value 0 s'
      else if bool_decide (c = "+"%char)
      then if bool_decide (s' = "") then None else digits_value 0 s'
      else digits_value 0 s
  end.

(** An installation: integers and dates (in seconds) are written in
    decimal, the engine knows the ticket's title and no tag library,
    every local time exists once, dates are shown as their number of
    seconds, the office is always open, and only staff may update. *)
Definition scenario_env : Env :=
  mkEnv decimal decimal (fun naive => Some naive)
    (fun _ t template =>
       Template.render
         (fun v => Some (if bool_decide (v = "ticket.title") then t_title t
                         else ""))
         (fun _ _ => None) template)
    str_int (fun t => t)
    (fun created date =>
       match created with Some c => Some (date - c) | None => None end)
    false "noreply@example.com"
    (fun name => bool_decide (name = "get_status_display")
                 || bool_decide (name = "followup_set")
                 || bool_decide (name = "pk")).

Definition alice : User :=
  mkUser "alice" "Alice" "alice@example.com" true true false
    (Some (<["email_on_ticket_change" := false]>
             (<["email_on_ticket_assign" := true]> ∅))).

Definition bob : User :=
  mkUser "bob" "Bob" "bob@example.com" true true false
    (Some (<["email_on_ticket_change" := false]>
             (<["email_on_ticket_assign" := false]> ∅))).

Definition support : Queue :=
  mkQueue "Support" (Some "support@example.com") (Some "alice@example.com").

Definition mkOpenTicket (pk : Z) (title : string) (assigned_to : option Z)
    (merged_to : option Z) : Ticket :=
  mkTicket (Some pk) title 1 (Some 0) (Some 0) None None
    (Some "carol@example.com") assigned_to OPEN_STATUS None None None None 3
    None None None None None None merged_to None.

(** Ticket 1 is Bob's; ticket 2 was merged into it. *)
Definition printer : Ticket := mkOpenTicket 1 "Printer" (Some 2) None.
Definition printer_again : Ticket := mkOpenTicket 2 "Printer again" None (Some 1).

(** The store of the scenarios, with [queue] as queue 1 and [tickets]
    as its tickets: Alice is in copy of ticket 1. *)
Definition store_of (queue : Queue) (tickets : gmap Z Ticket) : DB :=
  mkDB tickets
    (<[1 := alice]> (<[2 := bob]> ∅))
    (<[1 := queue]> ∅)
    (<[1 := "ACME"]> ∅) (<[1 := "Paris"]> ∅) (<[1 := "Laser 3000"]> ∅)
    (<[1 := "Hardware"]> ∅)
    (<[1 := mkTicketType "Incident" false]>
       (<[2 := mkTicketType "Intervention" true]> ∅))
    ∅ [mkTicketCC 1 (Some 1) None true true] [] [] [] [] 10 1.

Definition scenario_db : DB :=
  store_of support (<[1 := printer]> (<[2 := printer_again]> ∅)).

(** A queue whose updates go to Bob and to Alice, and the store with
    it. *)
Definition support_in_copy : Queue :=
  mkQueue "Support" (Some "support@example.com")
    (Some "bob@example.com,alice@example.com").

Definition copied_db : DB :=
  store_of support_in_copy (<[1 := printer]> (<[2 := printer_again]> ∅)).

(** Carol's ticket has no customer and a [SimpleUserMail] gives her
    address to ACME. *)
Definition carol_is_a_customer : DB :=
  with_simple_user_mails (<["carol@example.com" := Some 1]> ∅) scenario_db.

(** A request of Alice with the fields [post]. *)
Definition post_by_alice (post : list (string * string)) : Request :=
  mkRequest (Some 1) (list_to_map post) [] true.

(** A ticket that was resolved at 5 and is being closed. *)
Definition resolved_ticket_being_closed : Ticket :=
  mkTicket (Some 1) "Printer" 1 (Some 0) (Some 5) (Some 5) None
    (Some "ann@example.com") None CLOSED_STATUS None None None None 3 None
    None None None None None None None.



(** * Proofs *)

(** ** Running the store monad *)

Ltac unfold_m :=
  unfold mbind, M_bind, mret, M_ret, bind, ret, raise, get_db, modify, when,
    timezone_now, objects_get in *.

Ltac unfold_set :=
  unfold set_id, set_title, set_queue, set_created, set_modified, set_resolved,
    set_closed, set_submitter_email, set_assigned_to, set_status, set_category,
    set_type, set_billing, set_resolution, set_priority, set_due_date,
    set_customer_contact, set_customer, set_site, set_customer_product,
    set_time_before_first_answer, set_merged_to, set_generic_incident,
    with_tickets, with_simple_user_mails, with_ticketccs, with_followups,
    with_ticketchanges, with_outbox, with_flash, with_clock,
    with_followup_seq in *.

(** What a block of [Ticket.save] leaves alone in the store: everything
    but the tickets, the [SimpleUserMail] table and the clock, which only
    moves forward. *)
Definition same_tables (d d' : DB) : Prop :=
  db_users d' = db_users d /\ db_queues d' = db_queues d /\
  db_customers d' = db_customers d /\ db_sites d' = db_sites d /\
  db_customer_products d' = db_customer_products d /\
  db_categories d' = db_categories d /\
  db_ticket_types d' = db_ticket_types d /\
  db_ticketccs d' = db_ticketccs d /\ db_followups d' = db_followups d /\
  db_ticketchanges d' = db_ticketchanges d /\ db_outbox d' = db_outbox d /\
  db_flash d' = db_flash d /\ db_clock d <= db_clock d' /\
  db_followup_seq d' = db_followup_seq d.

Lemma same_tables_refl d : same_tables d d.
Proof. unfold same_tables. repeat split; lia. Qed.

Lemma same_tables_trans d1 d2 d3 :
  same_tables d1 d2 -> same_tables d2 d3 -> same_tables d1 d3.
Proof.
  unfold same_tables. intros H1 H2.
  destruct H1 as (?&?&?&?&?&?&?&?&?&?&?&?&?&?),
           H2 as (?&?&?&?&?&?&?&?&?&?&?&?&?&?).
  repeat split; try congruence; lia.
Qed.

(** The columns of the in-memory ticket that [Ticket.save] never assigns. *)
Definition same_columns (t t' : Ticket) : Prop :=
  t_title t' = t_title t /\ t_queue t' = t_queue t /\
  t_submitter_email t' = t_submitter_email t /\
  t_assigned_to t' = t_assigned_to t /\ t_status t' = t_status t /\
  t_category t' = t_category t /\ t_type t' = t_type t /\
  t_billing t' = t_billing t /\ t_resolution t' = t_resolution t /\
  t_due_date t' = t_due_date t /\
  t_customer_contact t' = t_customer_contact t /\ t_site t' = t_site t /\
  t_customer_product t' = t_customer_product t /\
  t_merged_to t' = t_merged_to t /\
  t_generic_incident t' = t_generic_incident t.

Lemma same_columns_refl t : same_columns t t.
Proof. unfold same_columns. repeat split. Qed.

Lemma same_columns_trans t1 t2 t3 :
  same_columns t1 t2 -> same_columns t2 t3 -> same_columns t1 t3.
Proof.
  unfold same_columns. intros H1 H2.
  destruct H1 as (?&?&?&?&?&?&?&?&?&?&?&?&?&?&?),
           H2 as (?&?&?&?&?&?&?&?&?&?&?&?&?&?&?).
  repeat split; congruence.
Qed.

Lemma save_new_ticket_run self d :
  exists self' d', save_new_ticket self d = (Ok self', d') /\
    same_tables d d' /\ same_columns self self' /\
    db_tickets d' = db_tickets d /\
    t_id self' = t_id self /\ t_priority self' = t_priority self /\
    t_resolved self' = t_resolved self /\ t_closed self' = t_closed self /\
    t_customer self' = t_customer self /\
    (is_Some (t_id self) -> self' = self /\ d' = d).
Proof.
  unfold save_new_ticket. destruct (t_id self) as [k|] eqn:Hid; simpl.
  - exists self, d. unfold_m. repeat split; auto using same_tables_refl; lia.
  - unfold_m. simpl.
    match goal with |- context [if ?b then _ else _] => destruct b end;
      eexists _, _; (split; [reflexivity|]);
      unfold same_tables, same_columns; unfold_set; simpl;
      repeat split; try lia; auto;
      match goal with H : is_Some None |- _ => by destruct H end.
Qed.

Lemma save_new_ticket_mails self d s1 d1 e :
  save_new_ticket self d = (Ok s1, d1) ->
  db_simple_user_mails d1 !! e = db_simple_user_mails d !! e \/
  (db_simple_user_mails d !! e = None /\ db_simple_user_mails d1 !! e = Some None).
Proof.
  unfold save_new_ticket. destruct (is_some (t_id self)); simpl; unfold_m; simpl.
  { intros [= <- <-]. by left. }
  unfold simple_user_mail.
  destruct (t_submitter_email self) as [e0|] eqn:He; simpl.
  2:{ intros [= <- <-]. by left. }
  destruct (truthy_str e0); simpl.
  2:{ intros [= <- <-]. by left. }
  destruct (db_simple_user_mails d !! e0) as [o|] eqn:Hl; simpl.
  { intros [= <- <-]. by left. }
  match goal with |- context [if ?b then _ else _] => destruct b end;
    intros [= <- <-]; unfold_set; simpl; [|by left].
  destruct (decide (e0 = e)) as [->|Hne].
  - right. by rewrite lookup_insert_eq.
  - left. by rewrite lookup_insert_ne.
Qed.

Lemma save_status_dates_run self d :
  exists self' d', save_status_dates self d = (Ok self', d') /\
    same_tables d d' /\ same_columns self self' /\
    db_tickets d' = db_tickets d /\
    db_simple_user_mails d' = db_simple_user_mails d /\
    t_id self' = t_id self /\ t_priority self' = t_priority self /\
    t_customer self' = t_customer self /\
    (t_status self = RESOLVED_STATUS ->
       match t_resolved self with
       | None => (exists now, db_clock d <= now < db_clock d' /\
                              t_resolved self' = Some now) /\
                 t_closed self' = None
       | Some r => t_resolved self' = Some r /\ t_closed self' = t_closed self
       end) /\
    (t_status self = CLOSED_STATUS \/ t_status self = DUPLICATE_STATUS ->
       t_resolved self' = t_resolved self /\
       match t_closed self with
       | None => exists now, db_clock d <= now < db_clock d' /\
                             t_closed self' = Some now
       | Some c => t_closed self' = Some c
       end) /\
    (t_status self = OPEN_STATUS \/ t_status self = REOPENED_STATUS ->
       t_resolved self' = None /\ t_closed self' = None).
Proof.
  unfold save_status_dates, status_in, RESOLVED_STATUS, CLOSED_STATUS,
    DUPLICATE_STATUS, OPEN_STATUS, REOPENED_STATUS.
  destruct (t_resolved self) as [r|] eqn:Hr, (t_closed self) as [c|] eqn:Hc;
    simpl; repeat case_bool_decide; simpl; unfold_m; simpl;
    eexists _, _; (split; [reflexivity|]);
    unfold same_tables, same_columns; unfold_set; simpl;
    rewrite ?Hr, ?Hc;
    repeat split; try lia; auto; try (intros [?|?]; lia); try (intros; lia);
    try (exists (db_clock d); split; [lia|reflexivity]).
Qed.

Lemma related_id_run {A} (table : DB -> gmap Z A) fk d :
  related_id table fk d =
  (if fk_ok (table d) fk then Ok fk else Raise DoesNotExist, d).
Proof.
  unfold related_id, deref, objects_get. unfold_m.
  destruct fk as [k|]; simpl; [|done]. by destruct (table d !! k).
Qed.

#[local] Arguments related_id : simpl never.
#[local] Arguments merged_tickets_update : simpl never.
#[local] Arguments Model_save : simpl never.
#[local] Arguments read_merge_values : simpl never.

(** Whether reading the related object [name] succeeds, and the key it
    gives. *)
Definition seen_ok {A} (cache : Cache) (name : string) (table : gmap Z A)
    (fk : option Z) : bool :=
  is_some (cached cache name) || fk_ok table fk.

Definition seen_key (cache : Cache) (name : string) (fk : option Z)
  : option Z :=
  default fk (cached cache name).

Lemma related_run {A} cache name (table : DB -> gmap Z A) fk d :
  related cache name table fk d =
  (if seen_ok cache name (table d) fk then Ok (seen_key cache name fk)
   else Raise DoesNotExist, d).
Proof.
  unfold related, seen_ok, seen_key.
  destruct (cached cache name); simpl; [done|apply related_id_run].
Qed.

Lemma save_update_simple_user_mail_run customer self d :
  exists d', save_update_simple_user_mail customer self d = (Ok tt, d') /\
    same_tables d d' /\ db_tickets d' = db_tickets d /\
    db_clock d' = db_clock d /\
    (customer = None -> d' = d) /\
    (forall e c, db_simple_user_mails d !! e = Some (Some c) ->
                 db_simple_user_mails d' !! e = Some (Some c)) /\
    (forall e, t_submitter_email self <> Some e ->
               db_simple_user_mails d' !! e = db_simple_user_mails d !! e).
Proof.
  assert (Hsame : save_update_simple_user_mail customer self d = (Ok tt, d)
          \/ exists e c, t_submitter_email self = Some e /\ customer = Some c /\
               db_simple_user_mails d !! e = Some None /\
               save_update_simple_user_mail customer self d =
                 (Ok tt, with_simple_user_mails
                           (<[e := Some c]> (db_simple_user_mails d)) d)).
  { unfold save_update_simple_user_mail. unfold_m.
    destruct customer as [c|] eqn:Hc; simpl; [|eauto].
    destruct (t_submitter_email self) as [e|] eqn:He; simpl; [|eauto].
    destruct (truthy_str e); simpl; [|eauto].
    destruct (db_simple_user_mails d !! e) as [[c0|]|] eqn:Hl; eauto 10. }
  destruct Hsame as [Hrun | (e & c & He & Hc & Hl & Hrun)].
  - exists d. split; [exact Hrun|].
    split; [apply same_tables_refl|]. repeat split; auto.
  - eexists. split; [exact Hrun|]. unfold_set. simpl.
    split; [unfold same_tables; simpl; repeat split; auto; lia|].
    repeat split; auto.
    + congruence.
    + intros e' c' H'. destruct (decide (e = e')) as [->|Hne]; [congruence|].
      by rewrite lookup_insert_ne.
    + intros e' Hne. rewrite lookup_insert_ne; congruence.
Qed.

(** The customer the ticket has once saved: its own, or the one of the
    [SimpleUserMail] that matches its submitter. *)
Definition matched_customer (d : DB) (t : Ticket) : option Z :=
  match t_customer t, simple_user_mail d (t_submitter_email t) with
  | None, Some (Some c) => Some c
  | cur, _ => cur
  end.

(** The same for an instance whose [customer] object is [customer]. *)
Definition matched_with (d : DB) (customer : option Z) (t : Ticket)
  : option Z :=
  match customer, simple_user_mail d (t_submitter_email t) with
  | None, Some (Some c) => Some c
  | cur, _ => cur
  end.

Lemma save_match_customer_run customer self d :
  save_match_customer customer self d =
  (match customer, simple_user_mail d (t_submitter_email self) with
   | None, Some (Some c) =>
       if is_some (db_customers d !! c)
       then Ok (set_customer (Some c) self, Some c)
       else Raise DoesNotExist
   | _, _ => Ok (self, customer)
   end, d).
Proof.
  unfold save_match_customer. unfold_m.
  destruct customer as [c|]; [done|].
  destruct (simple_user_mail d (t_submitter_email self)) as [[c|]|]; try done.
  by destruct (db_customers d !! c).
Qed.

Lemma Model_save_None_run self d :
  Model_save None self d =
  if row_ok d self then
    let pk := match t_id self with
              | Some k => k
              | None => fresh_ticket_id d
              end in
    (Ok (set_id (Some pk) self),
     with_tickets (<[pk := set_id (Some pk) self]> (db_tickets d)) d)
  else (Raise IntegrityError, d).
Proof. unfold Model_save. unfold_m. by destruct (row_ok d self). Qed.

Lemma Model_save_Some_run fields self d :
  Model_save (Some fields) self d =
  if negb (forallb is_update_field fields) then (Raise ValueError, d)
  else match fields with
       | [] => (Ok self, d)
       | _ =>
         match t_id self with
         | None => (Raise ValueError, d)
         | Some pk =>
           match db_tickets d !! pk with
           | None => (Raise DatabaseError, d)
           | Some row =>
               if forallb (column_ok d self) fields
               then (Ok self,
                     with_tickets
                       (<[pk := foldr (fun n r => copy_field n self r) row
                                  fields]> (db_tickets d)) d)
               else (Raise IntegrityError, d)
           end
         end
       end.
Proof.
  unfold Model_save. destruct (negb (forallb is_update_field fields)); [done|].
  destruct fields as [|f fs]; [done|]. unfold_m.
  destruct (t_id self) as [pk|]; [|done].
  destruct (db_tickets d !! pk) as [row|]; [|done].
  by destruct (forallb (column_ok d self) (f :: fs)).
Qed.

(** What the framework's save does whatever it is asked to write. *)
Lemma Model_save_frame uf self d r d' :
  Model_save uf self d = (r, d') ->
  same_tables d d' /\ db_simple_user_mails d' = db_simple_user_mails d /\
  (forall e, r = Raise e -> d' = d) /\
  (forall s', r = Ok s' -> s' = self \/ exists pk, s' = set_id (Some pk) self).
Proof.
  assert (Hraise : forall e, r = Raise e -> d' = d ->
    same_tables d d' /\ db_simple_user_mails d' = db_simple_user_mails d /\
    (forall e, r = Raise e -> d' = d) /\
    (forall s', r = Ok s' -> s' = self \/
                exists pk, s' = set_id (Some pk) self)).
  { intros e -> ->. split; [apply same_tables_refl|]. by repeat split. }
  destruct uf as [fields|].
  - rewrite Model_save_Some_run.
    destruct (negb (forallb is_update_field fields)).
    { intros [= <- <-]. by eapply Hraise. }
    destruct fields as [|f fs].
    { intros [= <- <-]. split; [apply same_tables_refl|].
      split; [done|]. split; [done|]. intros s' [= <-]. by left. }
    destruct (t_id self) as [pk|].
    2:{ intros [= <- <-]. by eapply Hraise. }
    destruct (db_tickets d !! pk) as [row|].
    2:{ intros [= <- <-]. by eapply Hraise. }
    destruct (forallb (column_ok d self) (f :: fs)).
    2:{ intros [= <- <-]. by eapply Hraise. }
    intros [= <- <-].
    split; [unfold same_tables; unfold_set; simpl; repeat split; auto; lia|].
    split; [done|]. split; [done|]. intros s' [= <-]. by left.
  - rewrite Model_save_None_run. destruct (row_ok d self).
    2:{ intros [= <- <-]. by eapply Hraise. }
    intros [= <- <-].
    split; [unfold same_tables; unfold_set; simpl; repeat split; auto; lia|].
    split; [done|]. split; [done|]. intros s' [= <-]. right. eauto.
Qed.

(** The seven columns the merge target imposes on the tickets merged
    into it. *)
Definition overwritten_fields (t : Ticket) :=
  (t_assigned_to t, t_category t, t_type t, t_billing t, t_customer t,
   t_site t, t_customer_product t).

Lemma overwritten_fields_override values row :
  overwritten_fields (override_merged values row) = overwritten_fields values.
Proof. reflexivity. Qed.



(** The [values] are on every ticket merged into [self]. *)
Definition propagated (values self : Ticket) (d : DB) : Prop :=
  forall k row, db_tickets d !! k = Some row -> merged_into self row = true ->
    overwritten_fields row = overwritten_fields values.

Lemma merged_tickets_update_propagated self values d :
  propagated values self (merged_tickets_update self values d).2.
Proof.
  unfold propagated, merged_tickets_update. unfold_m. unfold_set. simpl.
  intros k row. rewrite lookup_fmap.
  destruct (db_tickets d !! k) as [row0|]; simpl; [|discriminate].
  intros [= <-]. destruct (merged_into self row0) eqn:Hm.
  - intros _. apply overwritten_fields_override.
  - rewrite Hm. discriminate.
Qed.

Lemma merged_tickets_update_same_tables self values d :
  same_tables d (merged_tickets_update self values d).2 /\
  db_simple_user_mails (merged_tickets_update self values d).2
  = db_simple_user_mails d /\
  db_clock (merged_tickets_update self values d).2 = db_clock d /\
  (merged_tickets_update self values d).1 = Ok tt.
Proof.
  unfold merged_tickets_update. unfold_m. unfold_set. simpl.
  split; [|auto]. unfold same_tables. simpl. repeat split; auto. lia.
Qed.


Lemma override_merged_self self : override_merged self self = self.
Proof. by destruct self. Qed.

(** The values handed to the merged tickets: the columns of the
    instance, but for a foreign key whose related object the instance
    keeps, the key of that object; [customer] is [self.customer]. *)
Definition merge_values (cache : Cache) (customer : option Z) (self : Ticket)
  : Ticket :=
  set_assigned_to (seen_key cache "assigned_to" (t_assigned_to self))
    (set_category (seen_key cache "category" (t_category self))
      (set_type (seen_key cache "type" (t_type self))
        (set_customer customer
          (set_site (seen_key cache "site" (t_site self))
            (set_customer_product
               (seen_key cache "customer_product" (t_customer_product self))
               self))))).

(** The related objects the propagation fetches are there. *)
Definition merge_values_ok (cache : Cache) (d : DB) (t : Ticket) : bool :=
  seen_ok cache "assigned_to" (db_users d) (t_assigned_to t)
  && seen_ok cache "category" (db_categories d) (t_category t)
  && seen_ok cache "type" (db_ticket_types d) (t_type t)
  && seen_ok cache "site" (db_sites d) (t_site t)
  && seen_ok cache "customer_product" (db_customer_products d)
       (t_customer_product t).

Lemma read_merge_values_run cache customer self d :
  read_merge_values cache customer self d =
  (if merge_values_ok cache d self then Ok (merge_values cache customer self)
   else Raise DoesNotExist, d).
Proof.
  unfold read_merge_values, merge_values_ok, merge_values.
  unfold mbind, M_bind, bind. rewrite !related_run.
  repeat (match goal with
          | |- context [seen_ok ?c ?n ?t ?k] => destruct (seen_ok c n t k)
          end; simpl; [|done]).
  done.
Qed.

Lemma merge_values_nil self : merge_values [] (t_customer self) self = self.
Proof. by destruct self. Qed.

Lemma row_ok_merge_values_ok cache d t :
  row_ok d t = true -> merge_values_ok cache d t = true.
Proof.
  unfold row_ok, merge_values_ok, seen_ok. intros H.
  repeat (apply andb_true_iff in H as [H ?]).
  repeat (apply andb_true_intro; split); apply orb_true_iff; by right.
Qed.

(** ** [Ticket.save], block after block *)

(** The status rules of a save, from the ticket [self] and the store
    [d] it starts from to the ticket [self'] and the store [d'] it has
    reached. *)
Definition status_dates (self : Ticket) (d : DB) (self' : Ticket) (d' : DB)
  : Prop :=
  (t_status self = RESOLVED_STATUS ->
     match t_resolved self with
     | None => (exists now, db_clock d <= now < db_clock d' /\
                            t_resolved self' = Some now) /\
               t_closed self' = None
     | Some r => t_resolved self' = Some r /\ t_closed self' = t_closed self
     end) /\
  (t_status self = CLOSED_STATUS \/ t_status self = DUPLICATE_STATUS ->
     t_resolved self' = t_resolved self /\
     match t_closed self with
     | None => exists now, db_clock d <= now < db_clock d' /\
                           t_closed self' = Some now
     | Some c => t_closed self' = Some c
     end) /\
  (t_status self = OPEN_STATUS \/ t_status self = REOPENED_STATUS ->
     t_resolved self' = None /\ t_closed self' = None).

(** [Ticket.save] from the reading of [self.customer] on. *)
Definition save_rest (update_fields : option (list string)) (cache : Cache)
    (self : Ticket) : M Ticket :=
  customer ← related cache "customer" db_customers (t_customer self) ;
  save_update_simple_user_mail customer self ;;
  '(self, customer) ← save_match_customer customer self ;
  self ← Model_save update_fields self ;
  values ← read_merge_values cache customer self ;
  merged_tickets_update self values ;;
  ret self.

(** The blocks of a save that come before: the creation date, the
    default priority, the modification date and the status rules.  They
    write no ticket and never raise. *)
Lemma Ticket_save_prepare self d :
  exists s d1,
    (forall uf cache, Ticket_save uf cache self d = save_rest uf cache s d1) /\
    same_tables d d1 /\ same_columns self s /\ db_tickets d1 = db_tickets d /\
    t_id s = t_id self /\
    t_priority s =
      (if bool_decide (t_priority self = 0) then 3 else t_priority self) /\
    t_customer s = t_customer self /\
    (is_Some (t_id self) ->
       db_simple_user_mails d1 = db_simple_user_mails d) /\
    (forall e,
       db_simple_user_mails d1 !! e = db_simple_user_mails d !! e \/
       (db_simple_user_mails d !! e = None /\
        db_simple_user_mails d1 !! e = Some None)) /\
    status_dates self d s d1.
Proof.
  destruct (save_new_ticket_run self d)
    as (s1 & d1 & E1 & T1 & C1 & K1 & I1 & P1 & R1 & L1 & U1 & N1).
  set (s2 := if bool_decide (t_priority s1 = 0) then set_priority 3 s1 else s1).
  set (s3 := set_modified (Some (db_clock d1)) s2).
  set (d2 := with_clock (db_clock d1 + 1) d1).
  destruct (save_status_dates_run s3 d2)
    as (s4 & d3 & E4 & T4 & C4 & K4 & M4 & I4 & P4 & U4 & Hres & Hclo & Hopen).
  exists s4, d3.
  assert (Hs2 : same_columns s1 s2 /\ t_id s2 = t_id s1 /\
                t_resolved s2 = t_resolved s1 /\ t_closed s2 = t_closed s1 /\
                t_customer s2 = t_customer s1 /\
                t_priority s2 = if bool_decide (t_priority s1 = 0) then 3
                                else t_priority s1).
  { subst s2. case_bool_decide; unfold same_columns; unfold_set; simpl;
      repeat split; auto. }
  destruct Hs2 as (C2 & I2 & R2 & L2 & U2 & P2).
  assert (Hs3 : same_columns s2 s3 /\ t_id s3 = t_id s2 /\
                t_resolved s3 = t_resolved s2 /\ t_closed s3 = t_closed s2 /\
                t_customer s3 = t_customer s2 /\ t_priority s3 = t_priority s2).
  { subst s3. unfold same_columns; unfold_set; simpl. repeat split; auto. }
  destruct Hs3 as (C3 & I3 & R3 & L3 & U3 & P3).
  assert (Hd2 : same_tables d1 d2 /\ db_tickets d2 = db_tickets d1 /\
                db_simple_user_mails d2 = db_simple_user_mails d1 /\
                db_clock d2 = db_clock d1 + 1).
  { subst d2. unfold same_tables; unfold_set; simpl. repeat split; auto; lia. }
  destruct Hd2 as (T2 & K2 & M2 & Hck2).
  assert (Hst : t_status s3 = t_status self).
  { destruct C1 as (_&_&_&_&H1&_), C2 as (_&_&_&_&H2&_), C3 as (_&_&_&_&H3&_).
    congruence. }
  split.
  { intros uf cache. unfold Ticket_save, save_rest, mbind, M_bind, bind.
    rewrite E1. fold s2. unfold timezone_now at 1. fold s3 d2. by rewrite E4. }
  split.
  { eapply same_tables_trans; [exact T1|]. eapply same_tables_trans; eassumption. }
  split.
  { eapply same_columns_trans; [exact C1|]. eapply same_columns_trans; [exact C2|].
    eapply same_columns_trans; eassumption. }
  split; [congruence|]. split; [congruence|].
  split; [by rewrite P4, P3, P2, P1|]. split; [congruence|].
  split.
  { intros Hid. rewrite M4, M2. by destruct (N1 Hid) as [_ ->]. }
  split.
  { intros e. rewrite M4, M2. exact (save_new_ticket_mails _ _ _ _ e E1). }
  assert (Hck : db_clock d <= db_clock d2).
  { destruct T1 as (_&_&_&_&_&_&_&_&_&_&_&_&?&_). lia. }
  assert (Hr3 : t_resolved s3 = t_resolved self) by congruence.
  assert (Hl3 : t_closed s3 = t_closed self) by congruence.
  split; [|split].
  - intros Hs. rewrite <- Hst in Hs. specialize (Hres Hs). rewrite Hr3, Hl3 in Hres.
    destruct (t_resolved self); [exact Hres|].
    destruct Hres as [(now & Hnow & ->) ->]. split; [|reflexivity].
    exists now. split; [lia|reflexivity].
  - intros Hs. rewrite <- Hst in Hs. specialize (Hclo Hs). rewrite Hr3, Hl3 in Hclo.
    destruct Hclo as [-> Hclo]. split; [reflexivity|].
    destruct (t_closed self); [exact Hclo|].
    destruct Hclo as (now & Hnow & ->). exists now. split; [lia|reflexivity].
  - intros Hs. rewrite <- Hst in Hs. exact (Hopen Hs).
Qed.

(** The customer that the block "Set ticket customer if a simple user
    mail is matching" assigns, if it assigns one. *)
Definition assigned_customer (d : DB) (customer : option Z) (t : Ticket)
  : option Z :=
  match customer, simple_user_mail d (t_submitter_email t) with
  | None, Some (Some c) => Some c
  | _, _ => None
  end.

Definition with_assigned (c : option Z) (t : Ticket) : Ticket :=
  match c with Some c => set_customer (Some c) t | None => t end.

(** The ways through the rest of a save: [self.customer] is missing,
    the customer of the matching [SimpleUserMail] is missing, the
    framework refuses the row, a related object of the propagation is
    missing, or the save returns. *)
Lemma save_rest_inv uf cache s d r d' :
  save_rest uf cache s d = (r, d') ->
  let customer := seen_key cache "customer" (t_customer s) in
  exists d4,
    save_update_simple_user_mail customer s d = (Ok tt, d4) /\
    let assigned := assigned_customer d4 customer s in
    let s5 := with_assigned assigned s in
    let customer' := match assigned with Some c => Some c | None => customer end in
    (seen_ok cache "customer" (db_customers d) (t_customer s) = false /\
     r = Raise DoesNotExist /\ d' = d) \/
    (seen_ok cache "customer" (db_customers d) (t_customer s) = true /\
     fk_ok (db_customers d4) assigned = false /\
     r = Raise DoesNotExist /\ d' = d4) \/
    (seen_ok cache "customer" (db_customers d) (t_customer s) = true /\
     fk_ok (db_customers d4) assigned = true /\
     exists r6 d5, Model_save uf s5 d4 = (r6, d5) /\
       match r6 with
       | Raise e => r = Raise e /\ d' = d5
       | Ok s6 =>
           if merge_values_ok cache d5 s6
           then r = Ok s6 /\
                d' = (merged_tickets_update s6
                        (merge_values cache customer' s6) d5).2
           else r = Raise DoesNotExist /\ d' = d5
       end).
Proof.
  intros Hrun customer.
  destruct (save_update_simple_user_mail_run customer s d) as (d4 & E5 & _).
  exists d4. split; [exact E5|]. simpl.
  revert Hrun. unfold save_rest, mbind, M_bind, bind. rewrite related_run.
  fold customer.
  destruct (seen_ok cache "customer" (db_customers d) (t_customer s)).
  2:{ intros [= <- <-]. by left. }
  rewrite E5, save_match_customer_run. unfold assigned_customer.
  assert (Hfinish : forall (c' : option Z) (s5 : Ticket),
    (let (r2, d'2) := Model_save uf s5 d4 in
     match r2 with
     | Ok a1 =>
         let (r3, d'3) := read_merge_values cache c' a1 d'2 in
         match r3 with
         | Ok a2 =>
             let (r4, d'4) := merged_tickets_update a1 a2 d'3 in
             match r4 with
             | Ok _ => ret a1 d'4
             | Raise e => (Raise e, d'4)
             end
         | Raise e => (Raise e, d'3)
         end
     | Raise e => (Raise e, d'2)
     end) = (r, d') ->
    exists r6 d5, Model_save uf s5 d4 = (r6, d5) /\
      match r6 with
      | Raise e => r = Raise e /\ d' = d5
      | Ok s6 =>
          if merge_values_ok cache d5 s6
          then r = Ok s6 /\
               d' = (merged_tickets_update s6 (merge_values cache c' s6) d5).2
          else r = Raise DoesNotExist /\ d' = d5
      end).
  { intros c' s5 Hrun.
    destruct (Model_save uf s5 d4) as [r6 d5] eqn:E6. exists r6, d5.
    split; [done|].
    destruct r6 as [s6|e]; [|by injection Hrun as <- <-].
    rewrite read_merge_values_run in Hrun.
    destruct (merge_values_ok cache d5 s6); [|by injection Hrun as <- <-].
    destruct (merged_tickets_update_same_tables s6
                (merge_values cache c' s6) d5) as (_ & _ & _ & E8).
    destruct (merged_tickets_update s6 _ d5) as [r8 d6] eqn:E9.
    simpl in *. subst r8. unfold ret in Hrun. by injection Hrun as <- <-. }
  destruct customer as [c|].
  { intros Hrun. right. right. split; [done|]. split; [done|].
    by apply (Hfinish (Some c) s). }
  destruct (simple_user_mail d4 (t_submitter_email s)) as [[c|]|] eqn:Hm.
  - cbn [fk_ok with_assigned].
    destruct (db_customers d4 !! c) eqn:Hc; cbn [is_some].
    2:{ intros [= <- <-]. right. by left. }
    intros Hrun. right. right. split; [done|]. split; [done|].
    by apply (Hfinish (Some c) _).
  - intros Hrun. right. right. split; [done|]. split; [done|].
    by apply (Hfinish None s).
  - intros Hrun. right. right. split; [done|]. split; [done|].
    by apply (Hfinish None s).
Qed.

Lemma status_dates_mono self d s d1 s' d' :
  status_dates self d s d1 ->
  t_resolved s' = t_resolved s -> t_closed s' = t_closed s ->
  db_clock d1 <= db_clock d' ->
  status_dates self d s' d'.
Proof.
  intros (Hres & Hclo & Hopen) Hr Hc Hck. rewrite <- Hr, <- Hc in *.
  split; [|split; [|exact Hopen]].
  - intros Hs. specialize (Hres Hs). destruct (t_resolved self); [exact Hres|].
    destruct Hres as [(now & Hnow & Hn) Hcl]. split; [|exact Hcl].
    exists now. split; [lia|exact Hn].
  - intros Hs. destruct (Hclo Hs) as [Hr' Hcl]. split; [exact Hr'|].
    destruct (t_closed self); [exact Hcl|].
    destruct Hcl as (now & Hnow & Hn). exists now. split; [lia|exact Hn].
Qed.

Lemma same_tables_clock d d' : same_tables d d' -> db_clock d <= db_clock d'.
Proof. by intros (_&_&_&_&_&_&_&_&_&_&_&_&?&_). Qed.

(** What the instance is after the framework's save, from what it was
    before the customer of a matching [SimpleUserMail] was assigned. *)
Lemma Model_save_instance uf assigned s d4 s' d5 :
  Model_save uf (with_assigned assigned s) d4 = (Ok s', d5) ->
  same_columns s s' /\ t_resolved s' = t_resolved s /\
  t_closed s' = t_closed s /\ t_priority s' = t_priority s /\
  t_customer s' = match assigned with Some c => Some c | None => t_customer s end.
Proof.
  intros E. destruct (Model_save_frame _ _ _ _ _ E) as (_ & _ & _ & Hs).
  destruct (Hs s' eq_refl) as [->|[pk ->]]; destruct assigned as [c|];
    unfold same_columns; unfold_set; simpl; by repeat split.
Qed.

(** Whatever its outcome, a save leaves the tables of [same_tables] as
    they were. *)
Lemma save_rest_frame uf cache s d r d' :
  save_rest uf cache s d = (r, d') -> same_tables d d'.
Proof.
  intros Hrun.
  destruct (save_rest_inv _ _ _ _ _ _ Hrun) as (d4 & E5 & Hcases).
  destruct (save_update_simple_user_mail_run
              (seen_key cache "customer" (t_customer s)) s d)
    as (d4' & E5' & T5 & _).
  rewrite E5 in E5'. injection E5' as <-.
  destruct Hcases as [(_ & _ & ->)|[(_ & _ & _ & ->)|(_ & _ & r6 & d5 & E6 & H6)]];
    [apply same_tables_refl|exact T5|].
  destruct (Model_save_frame _ _ _ _ _ E6) as (T6 & _).
  eapply same_tables_trans; [exact T5|].
  destruct r6 as [s6|e]; [|by destruct H6 as [_ ->]].
  destruct (merge_values_ok cache d5 s6); destruct H6 as [_ ->]; [|exact T6].
  eapply same_tables_trans; [exact T6|apply merged_tickets_update_same_tables].
Qed.

Lemma Ticket_save_frame uf cache self d :
  same_tables d (Ticket_save uf cache self d).2.
Proof.
  destruct (Ticket_save_prepare self d) as (s & d1 & Heq & T1 & _).
  rewrite Heq. eapply same_tables_trans; [exact T1|].
  destruct (save_rest uf cache s d1) as [r d'] eqn:E.
  exact (save_rest_frame _ _ _ _ _ _ E).
Qed.


Lemma row_ok_ext d t d' t' :
  same_tables d d' -> db_tickets d' = db_tickets d -> same_columns t t' ->
  t_customer t' = t_customer t -> row_ok d' t' = row_ok d t.
Proof.
  intros (Hu&Hq&Hc&Hs&Hp&Hca&Hty&_) Hk
         (_&Hqu&_&Ha&_&Hcat&Htype&Hb&_&_&Hcc&Hsi&Hpr&Hm&_) Hcu.
  unfold row_ok, billing_ok.
  by rewrite Hu, Hq, Hc, Hs, Hp, Hca, Hty, Hk, Hqu, Ha, Hcat, Htype, Hb, Hcc,
       Hsi, Hpr, Hm, Hcu.
Qed.

Lemma set_customer_same t : set_customer (t_customer t) t = t.
Proof. by destruct t. Qed.

(** A ticket can be saved: the row it would become, with the customer
    of a matching [SimpleUserMail] if it has none, is one the database
    takes. *)
Definition save_ok (d : DB) (t : Ticket) : bool :=
  row_ok d (set_customer (matched_customer d t) t).

(** Every outcome of a save without [update_fields] of an instance that
    keeps no related object from before an assignment: it returns when
    the database takes the row, and has then written it; otherwise it
    raises with no ticket written. *)
Lemma Ticket_save_None_outcome self d :
  exists r d',
    Ticket_save None [] self d = (r, d') /\ same_tables d d' /\
    match r with
    | Ok self' =>
        save_ok d self = true /\
        exists pk,
          same_columns self self' /\ t_id self' = Some pk /\
          (forall k, t_id self = Some k -> pk = k) /\
          db_tickets d' !! pk = Some self' /\
          propagated self' self' d' /\
          t_priority self' =
            (if bool_decide (t_priority self = 0) then 3 else t_priority self) /\
          t_customer self' = matched_customer d self /\
          (is_Some (t_id self) -> t_customer self = None ->
             db_simple_user_mails d' = db_simple_user_mails d) /\
          status_dates self d self' d'
    | Raise e =>
        save_ok d self = false /\ db_tickets d' = db_tickets d /\
        (e = DoesNotExist \/ e = IntegrityError)
    end.
Proof.
  destruct (Ticket_save_prepare self d)
    as (s & d1 & Heq & T1 & C1 & K1 & I1 & P1 & U1 & N1 & M1 & Hdates).
  rewrite Heq.
  destruct (save_rest None [] s d1) as [r d'] eqn:Hrun. exists r, d'.
  split; [done|].
  pose proof (save_rest_frame _ _ _ _ _ _ Hrun) as T2.
  split; [by eapply same_tables_trans|].
  destruct (save_rest_inv _ _ _ _ _ _ Hrun) as (d4 & E5 & Hcases).
  change (seen_key [] "customer" (t_customer s)) with (t_customer s) in *.
  change (seen_ok [] "customer" (db_customers d1) (t_customer s))
    with (fk_ok (db_customers d1) (t_customer s)) in *.
  destruct (save_update_simple_user_mail_run (t_customer s) s d1)
    as (d4' & E5' & T5 & K5 & _ & N5 & _).
  rewrite E5 in E5'. injection E5' as <-.
  assert (Hem : t_submitter_email s = t_submitter_email self) by apply C1.
  (* the customer the ticket is saved with *)
  assert (Hmatch : match assigned_customer d4 (t_customer s) s with
                   | Some c => Some c
                   | None => t_customer s
                   end = matched_customer d self).
  { unfold assigned_customer, matched_customer. rewrite U1, Hem.
    destruct (t_customer self) as [c|] eqn:Hcust; [done|].
    rewrite (N5 U1).
    unfold simple_user_mail. destruct (t_submitter_email self) as [e|]; [|done].
    destruct (M1 e) as [->|[-> ->]]; [|done]. by repeat case_match. }
  assert (Hcu1 : db_customers d1 = db_customers d) by apply T1.
  assert (Hcu4 : db_customers d4 = db_customers d).
  { destruct T5 as (_&_&->&_). exact Hcu1. }
  assert (Hrow : forall t', same_columns self t' ->
                   t_customer t' = matched_customer d self ->
                   row_ok d4 t' = save_ok d self).
  { intros t' HC HU. unfold save_ok. apply row_ok_ext.
    - by eapply same_tables_trans.
    - by rewrite K5, K1.
    - destruct HC as (?&?&?&?&?&?&?&?&?&?&?&?&?&?&?).
      unfold same_columns; unfold_set; simpl. by repeat split.
    - by rewrite HU. }
  assert (Hcustomer_ok : save_ok d self = true ->
                         fk_ok (db_customers d) (matched_customer d self) = true).
  { unfold save_ok, row_ok. intros H.
    repeat (apply andb_true_iff in H as [H ?]).
    match goal with H : fk_ok (db_customers d) _ = true |- _ => exact H end. }
  destruct Hcases as [(Hno & -> & ->)|[(_ & Hno & -> & ->)|
                      (_ & _ & r6 & d5 & E6 & H6)]].
  - (* [self.customer] is missing *)
    split; [|split; [done|by left]].
    destruct (save_ok d self) eqn:Hok; [|done].
    specialize (Hcustomer_ok eq_refl). rewrite <- Hmatch in Hcustomer_ok.
    rewrite Hcu1 in Hno.
    destruct (t_customer s) as [c|]; [|done].
    unfold assigned_customer in Hcustomer_ok. congruence.
  - (* the customer of the matching row is missing *)
    split; [|split; [by rewrite K5|by left]].
    destruct (save_ok d self) eqn:Hok; [|done].
    specialize (Hcustomer_ok eq_refl). rewrite <- Hmatch in Hcustomer_ok.
    rewrite Hcu4 in Hno.
    destruct (assigned_customer d4 (t_customer s) s); [congruence|done].
  - set (s5 := with_assigned (assigned_customer d4 (t_customer s) s) s) in *.
    assert (HC5 : same_columns self s5 /\
                  t_customer s5 = matched_customer d self /\
                  t_id s5 = t_id self /\ t_priority s5 = t_priority s /\
                  t_resolved s5 = t_resolved s /\ t_closed s5 = t_closed s).
    { rewrite <- Hmatch, <- I1. subst s5.
      destruct (assigned_customer d4 (t_customer s) s);
        destruct C1 as (?&?&?&?&?&?&?&?&?&?&?&?&?&?&?);
        unfold same_columns; unfold_set; simpl; by repeat split. }
    destruct HC5 as (C5 & U5 & I5 & P5 & R5 & L5).
    rewrite Model_save_None_run, (Hrow s5 C5 U5) in E6.
    destruct (save_ok d self) eqn:Hok.
    2:{ injection E6 as <- <-. destruct H6 as [-> ->].
        split; [done|]. split; [by rewrite K5|by right]. }
    cbv zeta in E6. injection E6 as <- <-.
    set (pk := match t_id s5 with Some k => k | None => fresh_ticket_id d4 end)
      in *.
    set (s6 := set_id (Some pk) s5) in *.
    set (d5 := with_tickets (<[pk := s6]> (db_tickets d4)) d4) in *.
    assert (Hmv : merge_values_ok [] d5 s6 = true).
    { change (merge_values_ok [] d5 s6) with (merge_values_ok [] d4 s5).
      apply row_ok_merge_values_ok. by rewrite (Hrow s5 C5 U5). }
    rewrite Hmv in H6. destruct H6 as [-> ->].
    assert (Hvalues :
      merge_values [] (match assigned_customer d4 (t_customer s) s with
                       | Some c => Some c
                       | None => t_customer s
                       end) s6 = s6).
    { rewrite Hmatch, <- U5. apply (merge_values_nil s6). }
    rewrite Hvalues.
    split; [done|]. exists pk.
    split.
    { eapply same_columns_trans; [exact C5|].
      subst s6. unfold same_columns; unfold_set; simpl. by repeat split. }
    split; [done|].
    split.
    { intros k Hk. subst pk. by rewrite I5, Hk. }
    split.
    { unfold merged_tickets_update. unfold_m. subst d5. unfold_set. simpl.
      rewrite lookup_fmap, lookup_insert_eq. simpl.
      destruct (merged_into s6 s6); [|reflexivity].
      by rewrite override_merged_self. }
    split; [apply merged_tickets_update_propagated|].
    split; [by subst s6; simpl; rewrite P5, P1|].
    split; [by subst s6; simpl|].
    split.
    { intros Hid Hcust.
      destruct (merged_tickets_update_same_tables s6 s6 d5) as (_ & -> & _).
      subst d5. simpl. rewrite (N5 (eq_trans U1 Hcust)). by apply N1. }
    eapply status_dates_mono; [exact Hdates|by subst s6; simpl..|].
    apply same_tables_clock. exact T2.
Qed.

(** What a save that returns has made of the priority and of the
    customer of the instance. *)
Lemma Ticket_save_defaults uf cache self d self' d' :
  Ticket_save uf cache self d = (Ok self', d') ->
  t_priority self' =
    (if bool_decide (t_priority self = 0) then 3 else t_priority self) /\
  (cached cache "customer" = None ->
   t_customer self' = matched_customer d self).
Proof.
  destruct (Ticket_save_prepare self d)
    as (s & d1 & Heq & T1 & C1 & K1 & I1 & P1 & U1 & N1 & M1 & _).
  rewrite Heq. intros Hrun.
  destruct (save_rest_inv _ _ _ _ _ _ Hrun) as (d4 & E5 & Hcases).
  destruct Hcases as [(_ & [=] & _)|[(_ & _ & [=] & _)|(_ & _ & r6 & d5 & E6 & H6)]].
  destruct r6 as [s6|e]; [|by destruct H6 as [[=] _]].
  destruct (merge_values_ok cache d5 s6); [|by destruct H6 as [[=] _]].
  destruct H6 as [[= <-] _].
  destruct (Model_save_instance _ _ _ _ _ _ E6) as (_ & _ & _ & P6 & U6).
  split; [congruence|]. intros Hcache. rewrite U6.
  unfold seen_key in *. rewrite Hcache in *. simpl in *.
  destruct (save_update_simple_user_mail_run (t_customer s) s d1)
    as (d4' & E5' & _ & _ & _ & N5 & _).
  rewrite E5 in E5'. injection E5' as <-.
  assert (Hem : t_submitter_email s = t_submitter_email self) by apply C1.
  unfold assigned_customer, matched_customer. rewrite U1, Hem.
  destruct (t_customer self) as [c|] eqn:Hcust; [done|].
  rewrite (N5 U1).
  unfold simple_user_mail. destruct (t_submitter_email self) as [e|]; [|done].
  destruct (M1 e) as [->|[-> ->]]; [|done]. by repeat case_match.
Qed.

(** ** The status dates and the merge propagation *)










(** ** The update workflow *)

(** The foreign keys of the ticket name existing rows. *)
Definition refs_ok (d : DB) (t : Ticket) : bool :=
  fk_ok (db_users d) (t_assigned_to t)
  && fk_ok (db_users d) (t_customer_contact t)
  && fk_ok (db_customers d) (t_customer t)
  && fk_ok (db_sites d) (t_site t)
  && fk_ok (db_customer_products d) (t_customer_product t)
  && is_some (db_queues d !! t_queue t).

Lemma deref_fk_ok {A} (table : DB -> gmap Z A) fk d :
  fk_ok (table d) fk = true ->
  exists r, deref table fk d = (Ok r, d) /\ fst <$> r = fk.
Proof.
  destruct fk as [k|]; simpl; [|by eexists].
  unfold deref, objects_get. unfold_m.
  destruct (table d !! k); [|discriminate]. by eexists.
Qed.

Lemma related_id_fk_ok {A} (table : DB -> gmap Z A) fk d :
  fk_ok (table d) fk = true -> related_id table fk d = (Ok fk, d).
Proof.
  intros H. destruct (deref_fk_ok table fk d H) as (r & E & Hr).
  unfold related_id. unfold mbind, M_bind, bind. rewrite E. by rewrite <- Hr.
Qed.

(** The proposed owner is the current one: the field was omitted, or it
    unassigns a ticket that has no assignee, or it names the assignee. *)
Definition owner_unchanged (p : Proposed) (t : Ticket) : Prop :=
  p_owner p = -1 \/ (p_owner p = 0 /\ t_assigned_to t = None) \/
  (p_owner p <> 0 /\ t_assigned_to t = Some (p_owner p)).


(** ** A weakest-precondition reading of the store monad

    [wp c Q d]: running [c] in [d] ends in a result and a store that
    satisfy [Q], whether it returns or raises. *)
Definition wp {A} (c : M A) (Q : Res A -> DB -> Prop) (d : DB) : Prop :=
  Q (c d).1 (c d).2.

Lemma wp_ret {A} (a : A) Q d : Q (Ok a) d -> wp (mret a) Q d.
Proof. done. Qed.

Lemma wp_raise {A} e (Q : Res A -> DB -> Prop) d :
  Q (Raise e) d -> wp (raise e) Q d.
Proof. done. Qed.

Lemma wp_bind {A B} (c : M A) (k : A -> M B) Q d :
  wp c (fun r d1 => match r with
                    | Ok a => wp (k a) Q d1
                    | Raise e => Q (Raise e) d1
                    end) d ->
  wp (c ≫= k) Q d.
Proof.
  unfold wp, mbind, M_bind, bind. by destruct (c d) as [[a|e] d1].
Qed.

Lemma wp_mono {A} (c : M A) (Q Q' : Res A -> DB -> Prop) d :
  wp c Q d -> (forall r d', Q r d' -> Q' r d') -> wp c Q' d.
Proof. unfold wp. auto. Qed.

Lemma wp_get_db Q d : Q (Ok d) d -> wp get_db Q d.
Proof. done. Qed.

Lemma wp_modify g Q d : Q (Ok tt) (g d) -> wp (modify g) Q d.
Proof. done. Qed.

Lemma wp_timezone_now Q d :
  Q (Ok (db_clock d)) (with_clock (db_clock d + 1) d) -> wp timezone_now Q d.
Proof. done. Qed.

Lemma wp_run {A} (c : M A) Q d r d' : wp c Q d -> c d = (r, d') -> Q r d'.
Proof. unfold wp. intros H E. by rewrite E in H. Qed.

Lemma wp_eq {A} (c : M A) d : wp c (fun r d' => c d = (r, d')) d.
Proof. unfold wp. by destruct (c d). Qed.

(** Reading a related object or a row leaves the store alone. *)
Lemma wp_objects_get {A} (table : DB -> gmap Z A) k (Q : Res A -> DB -> Prop) d :
  (forall a, table d !! k = Some a -> Q (Ok a) d) ->
  (table d !! k = None -> Q (Raise DoesNotExist) d) ->
  wp (objects_get table k) Q d.
Proof.
  unfold wp, objects_get. destruct (table d !! k); simpl; auto.
Qed.

(** [lookup_obj table fk]: the related object behind a foreign key. *)
Definition lookup_obj {A} (table : gmap Z A) (fk : option Z) : option (Z * A) :=
  match fk with
  | Some k => match table !! k with Some a => Some (k, a) | None => None end
  | None => None
  end.

Lemma wp_deref {A} (table : DB -> gmap Z A) fk
    (Q : Res (option (Z * A)) -> DB -> Prop) d :
  (fst <$> lookup_obj (table d) fk = fk -> Q (Ok (lookup_obj (table d) fk)) d) ->
  Q (Raise DoesNotExist) d ->
  wp (deref table fk) Q d.
Proof.
  unfold wp, deref, objects_get, lookup_obj.
  destruct fk as [k|]; simpl; auto. unfold_m.
  destruct (table d !! k); simpl; auto.
Qed.

Lemma wp_get_or_none {A} (table : DB -> gmap Z A) k
    (Q : Res (option (Z * A)) -> DB -> Prop) d :
  Q (Ok (lookup_obj (table d) k)) d -> wp (get_or_none table k) Q d.
Proof. done. Qed.


Section Workflow.
Context (env : Env).

Lemma no_changes_unchanged req p t d :
  refs_ok d t = true ->
  r_FILES req = [] -> p_comment p = "" ->
  p_new_status p = t_status t -> p_title p = t_title t ->
  p_priority p = t_priority t -> p_due_date p = t_due_date t ->
  p_customer_contact_id p = t_customer_contact t ->
  p_customer_id p = t_customer t -> p_site_id p = t_site t ->
  p_customer_product_id p = t_customer_product t ->
  owner_unchanged p t ->
  no_changes req p t d = (Ok true, d).
Proof.
  unfold refs_ok. intros Hrefs HF Hc Hs Ht Hp Hd Hcc Hcu Hsi Hpr Ho.
  repeat (apply andb_prop in Hrefs as [Hrefs ?]).
  unfold no_changes. unfold mbind, M_bind, bind.
  rewrite !related_id_fk_ok by assumption.
  assert (Hown :
    (if bool_decide (p_owner p = -1) then mret true
     else if bool_decide (p_owner p = 0)
          then assigned ← related_id db_users (t_assigned_to t) ;
               mret (negb (is_some assigned))
          else _ ← objects_get db_users (p_owner p) ;
               assigned ← related_id db_users (t_assigned_to t) ;
               mret (bool_decide (Some (p_owner p) = assigned))) d
    = (Ok true, d)).
  { destruct Ho as [Ho|[[Ho Ha]|[Ho Ha]]].
    - rewrite Ho. reflexivity.
    - rewrite Ho, Ha. reflexivity.
    - case_bool_decide; [reflexivity|].
      rewrite bool_decide_eq_false_2 by assumption.
      unfold mbind, M_bind, bind.
      pose proof Hrefs as Hu. rewrite Ha in Hu. simpl in Hu. unfold objects_get.
      destruct (db_users d !! p_owner p); [|discriminate].
      rewrite related_id_fk_ok by assumption.
      rewrite Ha. by rewrite bool_decide_eq_true_2. }
  unfold mbind, M_bind, bind in Hown. rewrite Hown.
  rewrite HF, Hc, Hs, Ht, Hp, Hd, Hcc, Hcu, Hsi, Hpr.
  rewrite !bool_decide_eq_true_2 by reflexivity. reflexivity.
Qed.

(** *** The blocks of the workflow *)

Lemma wp_render_comment ticket comment (Q : Res string -> DB -> Prop) d :
  (forall out, render_template env d ticket (neutralize_comment comment) = Some out ->
     Q (Ok out) d) ->
  (render_template env d ticket (neutralize_comment comment) = None ->
     Q (Raise TemplateSyntaxError) d) ->
  wp (render_comment env ticket comment) Q d.
Proof.
  intros HOk HRaise. unfold wp, render_comment. unfold_m.
  destruct (render_template env d ticket (neutralize_comment comment)); simpl; auto.
Qed.

Lemma wp_related_id {A} (table : DB -> gmap Z A) fk
    (Q : Res (option Z) -> DB -> Prop) d :
  (fk_ok (table d) fk = true -> Q (Ok fk) d) ->
  Q (Raise DoesNotExist) d ->
  wp (related_id table fk) Q d.
Proof.
  intros HOk HRaise. unfold related_id. apply wp_bind, wp_deref; [|done].
  intros Hfk. apply wp_ret. rewrite Hfk. apply HOk.
  destruct fk as [k|]; [|done]. simpl in *.
  by destruct (table d !! k).
Qed.

(** The owner the assignment block works with, once the sentinel is
    resolved. *)
Definition resolved_owner (owner : Z) (t : Ticket) : Z :=
  if bool_decide (owner = -1) then default owner (t_assigned_to t) else owner.

Lemma wp_resolve_owner_sentinel owner ticket (Q : Res Z -> DB -> Prop) d :
  Q (Ok (resolved_owner owner ticket)) d ->
  Q (Raise DoesNotExist) d ->
  wp (resolve_owner_sentinel owner ticket) Q d.
Proof.
  intros HOk HRaise. unfold resolve_owner_sentinel, resolved_owner in *.
  case_bool_decide; [|by apply wp_ret].
  apply wp_bind, wp_related_id; [|done]. intros _. by apply wp_ret.
Qed.

(** The assignee after the assignment block. *)
Definition new_assignee (owner : Z) (t : Ticket) : option Z :=
  if bool_decide (owner = -1) then t_assigned_to t
  else if bool_decide (owner = 0) then None
  else Some owner.

(** [reassigned] after the assignment block. *)
Definition is_reassigned (owner : Z) (t : Ticket) : bool :=
  negb (bool_decide (owner = -1)) && negb (bool_decide (owner = 0))
  && negb (bool_decide (t_assigned_to t = Some owner)).

Lemma set_assigned_to_same t : set_assigned_to (t_assigned_to t) t = t.
Proof. by destruct t. Qed.

Lemma wp_assign_owner owner ticket f
    (Q : Res (Ticket * FollowUp * bool * option (Z * User) * option (Z * User))
         -> DB -> Prop) d :
  (forall f',
     fk_ok (db_users d) (t_assigned_to ticket) = true ->
     fk_ok (db_users d) (new_assignee owner ticket) = true ->
     (is_reassigned owner ticket = false ->
      new_assignee owner ticket = t_assigned_to ticket -> f' = f) ->
     Q (Ok (set_assigned_to (new_assignee owner ticket) ticket, f',
            is_reassigned owner ticket,
            lookup_obj (db_users d) (t_assigned_to ticket),
            lookup_obj (db_users d) (new_assignee owner ticket))) d) ->
  Q (Raise DoesNotExist) d ->
  wp (assign_owner owner ticket f) Q d.
Proof.
  intros HOk HRaise. unfold assign_owner.
  apply wp_bind, wp_deref; [|done]. intros Hold.
  assert (Hfk : fk_ok (db_users d) (t_assigned_to ticket) = true).
  { destruct (t_assigned_to ticket) as [k|]; [|done]. simpl in *.
    by destruct (db_users d !! k). }
  assert (Hsome : is_some (lookup_obj (db_users d) (t_assigned_to ticket))
                  = is_some (t_assigned_to ticket)).
  { rewrite <- Hold at 2. by destruct (lookup_obj _ _). }
  rewrite Hold, Hsome. unfold new_assignee, is_reassigned in *.
  destruct (bool_decide (owner = -1)) eqn:H1; simpl.
  { apply wp_ret. rewrite <- (set_assigned_to_same ticket) at 1. by apply HOk. }
  destruct (bool_decide (owner = 0)) eqn:H0; simpl.
  - destruct (is_some (t_assigned_to ticket)) eqn:Ha; simpl.
    + apply wp_ret. apply HOk; auto. intros _ Hn. by rewrite <- Hn in Ha.
    + apply wp_ret.
      assert (Hn : t_assigned_to ticket = None)
        by by destruct (t_assigned_to ticket).
      specialize (HOk f). rewrite <- Hn, set_assigned_to_same in HOk.
      by apply HOk.
  - destruct (bool_decide (t_assigned_to ticket = Some owner)) eqn:Hs; simpl.
    + apply bool_decide_eq_true in Hs.
      apply wp_ret. specialize (HOk f).
      rewrite <- Hs, set_assigned_to_same in HOk. by apply HOk.
    + apply wp_bind, wp_objects_get; [|done]. intros u Hu. apply wp_ret.
      specialize (HOk (with_title ("Assigned to " +:+ u_username u) f)).
      simpl in HOk. rewrite Hu in HOk. apply HOk; auto. discriminate.
Qed.

(** What a save does to an in-memory ticket whose key is [k] and to the
    store: the row is written, the priority gets its default, and a
    ticket without customer takes the one of a matching
    [SimpleUserMail]. *)
Definition saved (k : Z) (t : Ticket) (d : DB) (t' : Ticket) (d' : DB) : Prop :=
  same_tables d d' /\ same_columns t t' /\ t_id t' = Some k /\
  db_tickets d' !! k = Some t' /\
  t_priority t' = (if bool_decide (t_priority t = 0) then 3 else t_priority t) /\
  t_customer t' =
    match t_customer t, simple_user_mail d (t_submitter_email t) with
    | None, Some (Some c) => Some c
    | cur, _ => cur
    end /\
  (t_customer t = None -> db_simple_user_mails d' = db_simple_user_mails d).

(** What a save that raises has done to the store: no ticket was
    written. *)
Definition refused (d d' : DB) : Prop :=
  same_tables d d' /\ db_tickets d' = db_tickets d.

Lemma wp_Ticket_save_saved k t (Q : Res Ticket -> DB -> Prop) d :
  t_id t = Some k ->
  (forall t' d', saved k t d t' d' -> Q (Ok t') d') ->
  (forall e d', refused d d' -> Q (Raise e) d') ->
  wp (Ticket_save None [] t) Q d.
Proof.
  intros Hid HOk HRaise.
  destruct (Ticket_save_None_outcome t d) as (r & d' & E & HT & Hr).
  unfold wp. rewrite E. simpl. destruct r as [t'|e].
  - destruct Hr as (_ & pk & HC & Hid' & Hpk & Hrow & _ & Hprio & Hcust & Hsum
                    & _).
    rewrite (Hpk _ Hid) in *. apply HOk.
    split; [done|]. split; [done|]. split; [done|]. split; [done|].
    split; [done|]. split; [done|]. intros Hn. apply Hsum; [by rewrite Hid|done].
  - destruct Hr as (_ & HK & _). by apply HRaise.
Qed.

Lemma wp_change_status k new_status ticket f
    (Q : Res (Ticket * FollowUp) -> DB -> Prop) d :
  t_id ticket = Some k ->
  (new_status = t_status ticket -> Q (Ok (ticket, f)) d) ->
  (forall t' d',
     new_status <> t_status ticket ->
     saved k (set_status new_status ticket) d t' d' ->
     Q (Ok (t', mkFollowUp (f_id f) (f_ticket f) (f_date f)
                  (Some (if truthy_ostr (f_title f)
                         then default "" (f_title f) +:+ " and "
                              +:+ get_status_display t'
                         else get_status_display t'))
                  (f_comment f) (f_public f) (f_user f) (Some new_status)))
       (with_flash (db_flash d' ++ ["Le ticket est désormais dans le statut "
                                    +:+ get_status_display t']) d')) ->
  (forall e d', refused d d' -> Q (Raise e) d') ->
  wp (change_status new_status ticket f) Q d.
Proof.
  intros Hid Hsame Hdiff HRaise. unfold change_status.
  case_bool_decide as Hs; simpl; [by apply wp_ret, Hsame|].
  apply wp_bind, (wp_Ticket_save_saved k); [done| |done].
  intros t' d' Hsaved.
  apply wp_bind, wp_modify, wp_ret. by apply Hdiff.
Qed.

(** What the [public] column takes for the value assigned to the
    attribute, [None] when the field refuses it. *)
Definition public_column (public : option string) : option bool :=
  match public with
  | None => Some false
  | Some s =>
      if bool_decide (s = "t") || bool_decide (s = "True")
         || bool_decide (s = "1") then Some true
      else if bool_decide (s = "f") || bool_decide (s = "False")
              || bool_decide (s = "0") then Some false
      else None
  end.

Lemma BooleanField_to_python_run public d :
  BooleanField_to_python public d =
  (match public_column public with
   | Some b => Ok b
   | None => Raise ValidationError
   end, d).
Proof.
  unfold BooleanField_to_python, public_column.
  destruct public as [s|]; [|done]. by repeat case_match.
Qed.

(** The follow-up as [FollowUp.save] stores it. *)
Definition stored_followup (f : FollowUp) (public : bool) (k : Z) (d : DB)
  : FollowUp :=
  mkFollowUp (Some (db_followup_seq d)) (Some k)
    (f_date f) (f_title f) (f_comment f) public (f_user f) (f_new_status f).

(** The store once the follow-up [f] is in it. *)
Definition followed (d : DB) (f : FollowUp) : DB :=
  with_followup_seq (db_followup_seq d + 1)
    (with_followups (db_followups d ++ [f]) d).

Lemma wp_FollowUp_save k public f ticket
    (Q : Res (FollowUp * Ticket) -> DB -> Prop) d :
  t_id ticket = Some k ->
  (forall t' d' b, saved k ticket d t' d' -> public_column public = Some b ->
     Q (Ok (stored_followup f b k d', t'))
       (followed d' (stored_followup f b k d'))) ->
  Q (Raise DoesNotExist) (with_clock (db_clock d + 1) d) ->
  (forall e d', refused d d' -> Q (Raise e) d') ->
  (forall t' d', saved k ticket d t' d' -> public_column public = None ->
     Q (Raise ValidationError) d') ->
  wp (FollowUp_save env public f ticket) Q d.
Proof.
  intros Hid HOk HRaise HRaise' HInvalid. unfold FollowUp_save.
  apply wp_bind, wp_timezone_now.
  set (d1 := with_clock (db_clock d + 1) d).
  set (t1 := set_modified (Some (db_clock d)) ticket).
  assert (Hsaved : forall first_answer : bool,
    wp (ticket0 ← Ticket_save None []
          (if first_answer
           then set_time_before_first_answer
                  (office_time_between env (t_created t1) (f_date f)) t1
           else t1) ;
        stored_public ← BooleanField_to_python public ;
        d0 ← get_db ;
        modify (fun d2 => with_followup_seq (db_followup_seq d2 + 1)
          (with_followups (db_followups d2 ++
            [mkFollowUp (Some (db_followup_seq d0))
               (t_id ticket0) (f_date f) (f_title f) (f_comment f)
               stored_public (f_user f) (f_new_status f)]) d2)) ;;
        mret (mkFollowUp (Some (db_followup_seq d0))
                (t_id ticket0) (f_date f) (f_title f) (f_comment f)
                stored_public (f_user f) (f_new_status f), ticket0)) Q d1).
  { intros fa. set (t2 := if fa then _ else t1).
    assert (Ht2 : same_columns ticket t2 /\ t_id t2 = Some k /\
                  t_priority t2 = t_priority ticket /\
                  t_customer t2 = t_customer ticket).
    { subst t2 t1. destruct fa; unfold same_columns; unfold_set; simpl;
        repeat split; auto. }
    destruct Ht2 as (HC2 & Hid2 & Hp2 & Hc2).
    assert (Hd1 : same_tables d d1 /\
                  db_simple_user_mails d1 = db_simple_user_mails d /\
                  db_tickets d1 = db_tickets d).
    { subst d1. unfold same_tables; unfold_set; simpl. repeat split; auto; lia. }
    destruct Hd1 as (HT1 & HS1 & HK1).
    assert (Hrel : forall t' d', saved k t2 d1 t' d' -> saved k ticket d t' d').
    { intros t' d' (HT & HC & Hid' & Hrow & Hprio & Hcust & Hsum).
      assert (Hem : t_submitter_email t2 = t_submitter_email ticket)
        by apply HC2.
      split; [eapply same_tables_trans; eassumption|].
      split; [eapply same_columns_trans; eassumption|].
      split; [done|]. split; [done|].
      split; [by rewrite Hprio, Hp2|].
      split.
      - rewrite Hcust, Hc2, Hem. unfold simple_user_mail. by rewrite HS1.
      - intros Hn. rewrite <- HS1. apply Hsum. congruence. }
    apply wp_bind, (wp_Ticket_save_saved k); [done| |].
    2:{ intros e d' [HT HK]. apply HRaise'.
        split; [by eapply same_tables_trans|congruence]. }
    intros t' d' Hs. pose proof Hs as (_ & _ & Hid' & _).
    apply wp_bind. unfold wp at 1. rewrite BooleanField_to_python_run.
    destruct (public_column public) as [b|] eqn:Hb; simpl.
    2:{ apply (HInvalid t'); [by apply Hrel|done]. }
    apply wp_bind, wp_get_db, wp_bind, wp_modify, wp_ret.
    rewrite Hid'. apply HOk; [by apply Hrel|done]. }
  destruct (negb (truthy_duration (t_time_before_first_answer t1))
            && f_public f && is_some (f_user f)).
  - apply wp_bind, wp_bind, wp_deref; [|exact HRaise]. intros _.
    apply wp_ret. apply Hsaved.
  - apply wp_bind, wp_ret. apply (Hsaved false).
Qed.

(** *** The change log *)

Definition opt_row (b : bool) (r : TicketChange) : list TicketChange :=
  if b then [r] else [].

Definition due_date_str (localised : bool) (o : option Z) : string :=
  match o with
  | Some t => date_format env (if localised then localtime env t else t)
  | None => "Non définie"
  end.

(** The rows "Add Ticket Changes" is to create for a ticket [t] entering
    the block, each with the value [t] holds and the value applied. *)
Definition changes_of (p : Proposed) (old_owner assigned : option (Z * User))
    (old_status : Z) (old_status_str : string) (f : FollowUp) (t : Ticket)
    (d : DB) : list TicketChange :=
  opt_row (truthy_str (p_title p) && negb (bool_decide (p_title p = t_title t)))
    (mkTicketChange (f_id f) "Title" (t_title t) (p_title p)) ++
  opt_row (negb (bool_decide (p_new_status p = old_status)))
    (mkTicketChange (f_id f) "Status" old_status_str (get_status_display t)) ++
  opt_row (negb (bool_decide (fst <$> assigned = fst <$> old_owner)))
    (mkTicketChange (f_id f) "Owner" (str_or_unassigned u_str old_owner)
       (str_or_unassigned u_str assigned)) ++
  opt_row (negb (bool_decide (p_priority p = t_priority t)))
    (mkTicketChange (f_id f) "Priority" (str_int (t_priority t))
       (str_int (p_priority p))) ++
  opt_row (negb (bool_decide (p_due_date p = t_due_date t)))
    (mkTicketChange (f_id f) "Due on" (due_date_str true (t_due_date t))
       (due_date_str false (p_due_date p))) ++
  opt_row (negb (bool_decide (p_customer_contact_id p = t_customer_contact t)))
    (mkTicketChange (f_id f) "Contact client"
       (str_or_unassigned u_str (lookup_obj (db_users d) (t_customer_contact t)))
       (str_or_unassigned u_str
          (lookup_obj (db_users d) (p_customer_contact_id p)))) ++
  opt_row (negb (bool_decide (p_customer_id p = t_customer t)))
    (mkTicketChange (f_id f) "Client"
       (str_or_unassigned id (lookup_obj (db_customers d) (t_customer t)))
       (str_or_unassigned id (lookup_obj (db_customers d) (p_customer_id p)))) ++
  opt_row (negb (bool_decide (p_site_id p = t_site t)))
    (mkTicketChange (f_id f) "Site"
       (str_or_unassigned id (lookup_obj (db_sites d) (t_site t)))
       (str_or_unassigned id (lookup_obj (db_sites d) (p_site_id p)))) ++
  opt_row (negb (bool_decide (p_customer_product_id p = t_customer_product t)))
    (mkTicketChange (f_id f) "Produit client"
       (str_or_unassigned id
          (lookup_obj (db_customer_products d) (t_customer_product t)))
       (str_or_unassigned id
          (lookup_obj (db_customer_products d) (p_customer_product_id p)))).

(** The store with [rows] appended to the change log. *)
Definition logged (d : DB) (rows : list TicketChange) : DB :=
  with_ticketchanges (db_ticketchanges d ++ rows) d.

Lemma logged_nil d : logged d [] = d.
Proof. unfold logged. rewrite app_nil_r. by destruct d. Qed.

Lemma logged_logged d a b : logged (logged d a) b = logged d (a ++ b).
Proof. unfold logged. unfold_set. simpl. by rewrite app_assoc. Qed.

Lemma wp_TicketChange_create f field old new (Q : Res unit -> DB -> Prop) d acc :
  Q (Ok tt) (logged d (acc ++ [mkTicketChange (f_id f) field old new])) ->
  wp (TicketChange_create f field old new) Q (logged d acc).
Proof.
  intros H. unfold TicketChange_create. apply wp_modify.
  by rewrite <- logged_logged in H.
Qed.

(** One step of the block: a row if the condition holds, and the ticket
    that goes on. *)
Lemma wp_change_step (c : bool) f field old new (t t' : Ticket)
    (Q : Res Ticket -> DB -> Prop) d acc :
  Q (Ok (if c then t' else t))
    (logged d (acc ++ opt_row c (mkTicketChange (f_id f) field old new))) ->
  wp (if c then TicketChange_create f field old new ;; mret t' else mret t) Q
    (logged d acc).
Proof.
  destruct c; simpl.
  - intros H. by apply wp_bind, wp_TicketChange_create, wp_ret.
  - rewrite app_nil_r. intros H. by apply wp_ret.
Qed.

Lemma wp_change_when (c : bool) f field old new
    (Q : Res unit -> DB -> Prop) d acc :
  Q (Ok tt)
    (logged d (acc ++ opt_row c (mkTicketChange (f_id f) field old new))) ->
  wp (when c (TicketChange_create f field old new)) Q (logged d acc).
Proof.
  destruct c; simpl.
  - intros H. by apply wp_TicketChange_create.
  - rewrite app_nil_r. intros H. by apply wp_ret.
Qed.

(** A step on a related object, once the stored one is read: a proposed
    key that names no row unsets the field. *)
Lemma wp_change_related {A} (table : DB -> gmap Z A) (str : A -> string)
    (setter : option Z -> Ticket -> Ticket) fk proposed f field (t : Ticket)
    (Q : Res Ticket -> DB -> Prop) d acc :
  (forall d1 rows, table (logged d1 rows) = table d1) ->
  fst <$> lookup_obj (table d) fk = fk ->
  (let c := negb (bool_decide (proposed = fk)) in
   Q (Ok (if c then setter (fst <$> lookup_obj (table d) proposed) t else t))
     (logged d (acc ++ opt_row c
        (mkTicketChange (f_id f) field
           (str_or_unassigned str (lookup_obj (table d) fk))
           (str_or_unassigned str (lookup_obj (table d) proposed)))))) ->
  wp (if negb (bool_decide (proposed = fst <$> lookup_obj (table d) fk))
      then new ← get_or_none table proposed ;
           TicketChange_create f field
             (str_or_unassigned str (lookup_obj (table d) fk))
             (str_or_unassigned str new) ;;
           mret (setter (fst <$> new) t)
      else mret t) Q (logged d acc).
Proof.
  intros Htable Hold HOk. simpl in HOk. rewrite Hold.
  destruct (negb (bool_decide (proposed = fk))); simpl in *.
  - apply wp_bind, wp_get_or_none. rewrite Htable.
    by apply wp_bind, wp_TicketChange_create, wp_ret.
  - apply wp_ret. by rewrite app_nil_r in HOk.
Qed.

(** What the block keeps of the ticket: it assigns title, priority, due
    date, contact, customer, site and product only. *)
Definition kept (t t' : Ticket) : Prop :=
  t_id t' = t_id t /\ t_queue t' = t_queue t /\
  t_assigned_to t' = t_assigned_to t /\ t_status t' = t_status t /\
  t_submitter_email t' = t_submitter_email t /\
  t_resolution t' = t_resolution t /\ t_merged_to t' = t_merged_to t.

Lemma logged_tables d rows :
  db_users (logged d rows) = db_users d /\
  db_customers (logged d rows) = db_customers d /\
  db_sites (logged d rows) = db_sites d /\
  db_customer_products (logged d rows) = db_customer_products d.
Proof. done. Qed.

(** The block creates exactly the rows of [changes_of], in that order;
    when a related object of the ticket is missing it raises after a
    prefix of them. *)
Lemma wp_add_ticket_changes p old_owner assigned old_status old_status_str f t
    (Q : Res Ticket -> DB -> Prop) d :
  (forall t', kept t t' ->
     Q (Ok t')
       (logged d (changes_of p old_owner assigned old_status old_status_str
                    f t d))) ->
  (forall rows,
     rows `prefix_of` changes_of p old_owner assigned old_status
                        old_status_str f t d ->
     Q (Raise DoesNotExist) (logged d rows)) ->
  wp (add_ticket_changes env p old_owner assigned old_status old_status_str f t)
    Q d.
Proof.
  intros HOk HRaise. unfold add_ticket_changes, changes_of in *.
  rewrite <- (logged_nil d) at 1.
  (* title *)
  apply wp_bind.
  apply (wp_change_step _ f "Title" (t_title t) (p_title p) t
           (set_title (p_title p) t)).
  set (c1 := truthy_str (p_title p) && negb (bool_decide (p_title p = t_title t))).
  set (t1 := if c1 then set_title (p_title p) t else t).
  assert (H1 : kept t t1 /\ t_priority t1 = t_priority t /\
               t_due_date t1 = t_due_date t /\
               t_customer_contact t1 = t_customer_contact t /\
               t_customer t1 = t_customer t /\ t_site t1 = t_site t /\
               t_customer_product t1 = t_customer_product t).
  { subst t1. by destruct c1. }
  destruct H1 as (K1 & Hp1 & Hd1 & Hcc1 & Hcu1 & Hs1 & Hpr1).
  assert (Hdisp : get_status_display t1 = get_status_display t).
  { unfold get_status_display. destruct K1 as (_&_&_&->&_). done. }
  rewrite Hdisp. clearbody t1. simpl app at 1.
  (* status, owner *)
  apply wp_bind, wp_change_when, wp_bind, wp_change_when.
  (* priority *)
  apply wp_bind. rewrite Hp1. apply wp_change_step.
  set (c4 := negb (bool_decide (p_priority p = t_priority t))).
  set (t4 := if c4 then set_priority (p_priority p) t1 else t1).
  assert (H4 : kept t1 t4 /\ t_due_date t4 = t_due_date t1 /\
               t_customer_contact t4 = t_customer_contact t1 /\
               t_customer t4 = t_customer t1 /\ t_site t4 = t_site t1 /\
               t_customer_product t4 = t_customer_product t1).
  { subst t4. by destruct c4. }
  destruct H4 as (K4 & Hd4 & Hcc4 & Hcu4 & Hs4 & Hpr4). clearbody t4.
  (* due date *)
  apply wp_bind.
  rewrite Hd4, Hd1.
  apply (wp_change_step _ f "Due on" (due_date_str true (t_due_date t))
           (due_date_str false (p_due_date p)) t4
           (set_due_date (p_due_date p) t4)).
  set (c5 := negb (bool_decide (p_due_date p = t_due_date t))).
  set (t5 := if c5 then set_due_date (p_due_date p) t4 else t4).
  assert (H5 : kept t4 t5 /\
               t_customer_contact t5 = t_customer_contact t4 /\
               t_customer t5 = t_customer t4 /\ t_site t5 = t_site t4 /\
               t_customer_product t5 = t_customer_product t4).
  { subst t5. by destruct c5. }
  destruct H5 as (K5 & Hcc5 & Hcu5 & Hs5 & Hpr5). clearbody t5.
  (* contact *)
  apply wp_bind. rewrite Hcc5, Hcc4, Hcc1.
  apply wp_deref; [|apply HRaise; eexists; rewrite <- !app_assoc; reflexivity].
  change (db_users (logged d ?r)) with (db_users d). intros Hold. apply wp_bind.
  apply (wp_change_related db_users u_str set_customer_contact); [done|done|].
  clear Hold. intros c6.
  set (t6 := if c6 then set_customer_contact _ t5 else t5).
  assert (H6 : kept t5 t6 /\
               t_customer t6 = t_customer t5 /\ t_site t6 = t_site t5 /\
               t_customer_product t6 = t_customer_product t5).
  { subst t6. by destruct c6. }
  destruct H6 as (K6 & Hcu6 & Hs6 & Hpr6). clearbody t6.
  (* customer *)
  apply wp_bind. rewrite Hcu6, Hcu5, Hcu4, Hcu1.
  apply wp_deref; [|apply HRaise; eexists; rewrite <- !app_assoc; reflexivity].
  change (db_customers (logged d ?r)) with (db_customers d). intros Hold. apply wp_bind.
  apply (wp_change_related db_customers id set_customer); [done|done|].
  clear Hold. intros c7.
  set (t7 := if c7 then set_customer _ t6 else t6).
  assert (H7 : kept t6 t7 /\ t_site t7 = t_site t6 /\
               t_customer_product t7 = t_customer_product t6).
  { subst t7. by destruct c7. }
  destruct H7 as (K7 & Hs7 & Hpr7). clearbody t7.
  (* site *)
  apply wp_bind. rewrite Hs7, Hs6, Hs5, Hs4, Hs1.
  apply wp_deref; [|apply HRaise; eexists; rewrite <- !app_assoc; reflexivity].
  change (db_sites (logged d ?r)) with (db_sites d). intros Hold. apply wp_bind.
  apply (wp_change_related db_sites id set_site); [done|done|].
  clear Hold. intros c8.
  set (t8 := if c8 then set_site _ t7 else t7).
  assert (H8 : kept t7 t8 /\ t_customer_product t8 = t_customer_product t7).
  { subst t8. by destruct c8. }
  destruct H8 as (K8 & Hpr8). clearbody t8.
  (* product *)
  rewrite Hpr8, Hpr7, Hpr6, Hpr5, Hpr4, Hpr1.
  apply wp_bind.
  apply wp_deref; [|apply HRaise; eexists; rewrite <- !app_assoc; reflexivity].
  change (db_customer_products (logged d ?r)) with (db_customer_products d). intros Hold.
  apply (wp_change_related db_customer_products id set_customer_product);
    [done|done|].
  clear Hold. intros c9.
  set (t9 := if c9 then set_customer_product _ t8 else t8).
  assert (K9 : kept t8 t9).
  { subst t9. by destruct c9. }
  clearbody t9.
  rewrite <- !app_assoc. simpl app. apply HOk.
  unfold kept in *.
  destruct K1 as (?&?&?&?&?&?&?), K4 as (?&?&?&?&?&?&?), K5 as (?&?&?&?&?&?&?),
    K6 as (?&?&?&?&?&?&?), K7 as (?&?&?&?&?&?&?), K8 as (?&?&?&?&?&?&?),
    K9 as (?&?&?&?&?&?&?).
  repeat split; congruence.
Qed.

(** *** The fan-out only sends mail *)

Definition mailed (d : DB) (mails : list Mail) : DB :=
  with_outbox (db_outbox d ++ mails) d.

Lemma mailed_nil d : mailed d [] = d.
Proof. unfold mailed. rewrite app_nil_r. by destruct d. Qed.

Lemma mailed_mailed d a b : mailed (mailed d a) b = mailed d (a ++ b).
Proof. unfold mailed. unfold_set. simpl. by rewrite app_assoc. Qed.

(** [c] changes nothing but the outbox, whatever its outcome. *)
Definition only_mails {A} (c : M A) : Prop :=
  forall d, exists mails, (c d).2 = mailed d mails.

Lemma only_mails_ret {A} (a : A) : only_mails (mret a).
Proof. intros d. exists []. by rewrite mailed_nil. Qed.

Lemma only_mails_raise {A} e : only_mails (raise (A:=A) e).
Proof. intros d. exists []. by rewrite mailed_nil. Qed.

Lemma only_mails_bind {A B} (c : M A) (k : A -> M B) :
  only_mails c -> (forall a, only_mails (k a)) -> only_mails (c ≫= k).
Proof.
  intros Hc Hk d. unfold mbind, M_bind, bind.
  destruct (Hc d) as [m1 E1]. destruct (c d) as [[a|e] d1]; simpl in *; subst d1.
  - destruct (Hk a (mailed d m1)) as [m2 E2]. exists (m1 ++ m2).
    by rewrite E2, mailed_mailed.
  - by exists m1.
Qed.

Lemma only_mails_get_db : only_mails get_db.
Proof. intros d. exists []. by rewrite mailed_nil. Qed.

Lemma only_mails_objects_get {A} (table : DB -> gmap Z A) k :
  only_mails (objects_get table k).
Proof.
  intros d. exists []. rewrite mailed_nil. unfold objects_get.
  by destruct (table d !! k).
Qed.

Lemma only_mails_deref {A} (table : DB -> gmap Z A) fk :
  only_mails (deref table fk).
Proof.
  destruct fk; simpl; [|apply only_mails_ret].
  apply only_mails_bind; [apply only_mails_objects_get|].
  intros; apply only_mails_ret.
Qed.

Lemma only_mails_send template recipients sender files :
  only_mails (send_templated_mail template recipients sender files).
Proof. intros d. by eexists. Qed.

Lemma only_mails_send_from_queue ticket template recipients files :
  only_mails (send_from_queue env ticket template recipients files).
Proof.
  apply only_mails_bind; [apply only_mails_objects_get|].
  intros; apply only_mails_send.
Qed.

Lemma only_mails_cc_email_address cc : only_mails (cc_email_address cc).
Proof.
  apply only_mails_bind; [apply only_mails_deref|]. intros; apply only_mails_ret.
Qed.

Lemma only_mails_notify_ccs ticket template files ccs sent :
  only_mails (notify_ccs env ticket template files ccs sent).
Proof.
  revert sent. induction ccs as [|cc ccs IH]; intros sent; simpl.
  - apply only_mails_ret.
  - apply only_mails_bind; [apply only_mails_cc_email_address|].
    intros address. case_bool_decide; [apply IH|].
    apply only_mails_bind; [apply only_mails_send_from_queue|]. intros; apply IH.
Qed.

Lemma only_mails_notify_public public ticket f files sent :
  only_mails (notify_public env public ticket f files sent).
Proof.
  unfold notify_public.
  destruct (public && _); [|apply only_mails_ret].
  apply only_mails_bind.
  - destruct (truthy_ostr _); [|apply only_mails_ret].
    apply only_mails_bind; [apply only_mails_send_from_queue|].
    intros; apply only_mails_ret.
  - intros sent'. apply only_mails_bind; [apply only_mails_get_db|].
    intros; apply only_mails_notify_ccs.
Qed.

Lemma only_mails_user_setting u key : only_mails (user_setting u key).
Proof.
  unfold user_setting. destruct (u_settings u);
    [apply only_mails_ret|apply only_mails_raise].
Qed.

Lemma only_mails_notify_owner acting reassigned assigned ticket f files sent :
  only_mails (notify_owner env acting reassigned assigned ticket f files sent).
Proof.
  unfold notify_owner. destruct assigned as [[uid owner]|]; [|apply only_mails_ret].
  destruct (_ && _); [|apply only_mails_ret].
  apply only_mails_bind.
  { destruct (negb reassigned);
      [apply only_mails_ret|apply only_mails_user_setting]. }
  intros on_assign. apply only_mails_bind.
  { destruct on_assign; [apply only_mails_ret|].
    destruct (negb reassigned);
      [apply only_mails_user_setting|apply only_mails_ret]. }
  intros [|]; [|apply only_mails_ret].
  apply only_mails_bind; [apply only_mails_send_from_queue|].
  intros; apply only_mails_ret.
Qed.

Lemma only_mails_notify_queue_cc reassigned ticket f files sent :
  only_mails (notify_queue_cc env reassigned ticket f files sent).
Proof.
  unfold notify_queue_cc.
  apply only_mails_bind; [apply only_mails_objects_get|].
  intros q. destruct (_ && _); [apply only_mails_send|apply only_mails_ret].
Qed.

Lemma only_mails_notify acting public reassigned assigned ticket f files :
  only_mails (notify env acting public reassigned assigned ticket f files).
Proof.
  unfold notify.
  apply only_mails_bind; [apply only_mails_notify_public|]. intros sent.
  apply only_mails_bind; [apply only_mails_notify_owner|]. intros sent'.
  apply only_mails_notify_queue_cc.
Qed.

Lemma wp_notify acting public reassigned assigned ticket f files
    (Q : Res unit -> DB -> Prop) d :
  (forall r mails, Q r (mailed d mails)) ->
  wp (notify env acting public reassigned assigned ticket f files) Q d.
Proof.
  intros HQ. unfold wp.
  destruct (only_mails_notify acting public reassigned assigned ticket f files d)
    as [mails ->].
  apply HQ.
Qed.

(** *** Reading the request leaves the store alone *)

Lemma int_of_state s d : (int_of env s d).2 = d.
Proof. unfold int_of. by destruct (py_int env s). Qed.

Lemma bind_state {A B} (c : M A) (k : A -> M B) d :
  (c d).2 = d -> (forall a, (k a d).2 = d) -> ((c ≫= k) d).2 = d.
Proof.
  unfold mbind, M_bind, bind. destruct (c d) as [[a|e] d1]; simpl; intros ->; auto.
Qed.

Lemma post_int_state req key dflt d : (post_int env req key dflt d).2 = d.
Proof.
  unfold post_int. destruct (r_POST req !! key); [apply int_of_state|done].
Qed.

Lemma post_int_or_none_state req key d : (post_int_or_none env req key d).2 = d.
Proof.
  unfold post_int_or_none. destruct (r_POST req !! key) as [s|]; [|done].
  destruct (truthy_str s); [|done].
  apply bind_state; [apply int_of_state|done].
Qed.

Lemma parse_POST_state req ticket d : (parse_POST env req ticket d).2 = d.
Proof.
  unfold parse_POST.
  repeat (apply bind_state;
          [first [apply post_int_state | apply post_int_or_none_state | idtac]
          |intros ?]); try done.
  destruct (r_POST req !! "due_date") as [s|]; [|done].
  destruct (truthy_str s); [|done].
  destruct (parse_datetime_local env s) as [naive|]; [|done].
  by destruct (make_aware env naive).
Qed.

Lemma objects_get_state {A} (table : DB -> gmap Z A) k d :
  (objects_get table k d).2 = d.
Proof. unfold objects_get. by destruct (table d !! k). Qed.

Lemma related_id_state {A} (table : DB -> gmap Z A) fk d :
  (related_id table fk d).2 = d.
Proof.
  unfold related_id. apply bind_state; [|done].
  destruct fk; simpl; [|done]. apply bind_state; [apply objects_get_state|done].
Qed.

Lemma no_changes_state req p ticket d : (no_changes req p ticket d).2 = d.
Proof.
  unfold no_changes.
  repeat (apply bind_state; [first [apply related_id_state | idtac]|intros ?]);
    try done.
  case_bool_decide; [done|]. case_bool_decide.
  - apply bind_state; [apply related_id_state|done].
  - apply bind_state; [apply objects_get_state|intros ?].
    apply bind_state; [apply related_id_state|done].
Qed.

(** *** Titles *)

(** A title made by the assignment block: it starts with
    ["Assigned to "] or with ["Unassigned"]. *)
Definition assignment_title (title : option string) : bool :=
  match title with
  | Some s => String.prefix "Assigned to " s || String.prefix "Unassigned" s
  | None => false
  end.

Definition is_digit_or_dash (c : Ascii.ascii) : bool :=
  existsb (fun x => bool_decide (c = x))
    ["0"; "1"; "2"; "3"; "4"; "5"; "6"; "7"; "8"; "9"; "-"]%char.

Lemma pretty_N_go_head x s :
  (0 < x)%N ->
  exists c s', pretty_N_go x s = String c s' /\ is_digit_or_dash c = true.
Proof.
  revert s. induction (N.lt_wf_0 x) as [x _ IH]. intros s Hx.
  rewrite pretty_N_go_step by done.
  destruct (decide (x `div` 10 = 0)%N) as [->|Hne].
  - rewrite pretty_N_go_0. eexists _, _. split; [reflexivity|].
    unfold pretty_N_char. by repeat case_match.
  - apply IH; [apply N.div_lt; lia|by apply N.neq_0_lt_0].
Qed.

Lemma str_int_head z :
  exists c s, str_int z = String c s /\ is_digit_or_dash c = true.
Proof.
  unfold str_int, pretty, pretty_Z. destruct z as [|x|x].
  - by eexists _, _.
  - unfold pretty, pretty_positive, pretty, pretty_N. simpl.
    apply pretty_N_go_head. lia.
  - by eexists _, _.
Qed.

Lemma status_display_no_assignment t :
  assignment_title (Some (get_status_display t)) = false.
Proof.
  unfold get_status_display, STATUS_CHOICES, OPEN_STATUS, REOPENED_STATUS,
    RESOLVED_STATUS, CLOSED_STATUS, DUPLICATE_STATUS. simpl.
  repeat (case_bool_decide; [done|]).
  destruct (str_int_head (t_status t)) as (c & s & -> & Hc).
  cbn [String.prefix].
  destruct (ascii_dec "A" c) as [<-|_]; [by vm_compute in Hc|].
  destruct (ascii_dec "U" c) as [<-|_]; [by vm_compute in Hc|]. done.
Qed.

(** *** The sentinel owner *)

(** What [update_ticket] may have done to the store, as far as the
    assignee of ticket [k] is concerned: the stored assignee is [a], the
    change log grew by rows that are not about the owner, and the
    follow-ups by entries whose title is no assignment title. *)
Definition sentinel_frame (k : Z) (a : option Z) (d0 d : DB) : Prop :=
  t_assigned_to <$> db_tickets d !! k = Some a /\
  (exists rows, db_ticketchanges d = db_ticketchanges d0 ++ rows /\
                Forall (fun c => tc_field c <> "Owner") rows) /\
  (exists fs, db_followups d = db_followups d0 ++ fs /\
              Forall (fun f => assignment_title (f_title f) = false) fs).

Lemma sentinel_frame_init k ticket d :
  db_tickets d !! k = Some ticket ->
  sentinel_frame k (t_assigned_to ticket) d d.
Proof.
  intros H. split; [by rewrite H|].
  split; exists []; by rewrite app_nil_r.
Qed.

Lemma sentinel_frame_same k a d0 d d' :
  sentinel_frame k a d0 d ->
  db_tickets d' = db_tickets d -> db_ticketchanges d' = db_ticketchanges d ->
  db_followups d' = db_followups d ->
  sentinel_frame k a d0 d'.
Proof. unfold sentinel_frame. by intros H -> -> ->. Qed.

Lemma sentinel_frame_saved k a d0 d t t' d' :
  sentinel_frame k a d0 d -> saved k t d t' d' -> t_assigned_to t = a ->
  sentinel_frame k a d0 d'.
Proof.
  intros (_ & Hrows & Hfs) (HT & HC & _ & Hrow & _) Ha.
  destruct HT as (_&_&_&_&_&_&_&_&Hf&Hc&_), HC as (_&_&_&Hassigned&_).
  split; [by rewrite Hrow; simpl; rewrite Hassigned, Ha|].
  by rewrite Hf, Hc.
Qed.

Lemma sentinel_frame_refused k a d0 d d' :
  sentinel_frame k a d0 d -> refused d d' -> sentinel_frame k a d0 d'.
Proof.
  intros H [HT HK]. destruct HT as (_&_&_&_&_&_&_&_&Hf&Hc&_).
  by apply (sentinel_frame_same _ _ _ d).
Qed.

Lemma sentinel_frame_followup k a d0 d f :
  sentinel_frame k a d0 d -> assignment_title (f_title f) = false ->
  sentinel_frame k a d0 (followed d f).
Proof.
  intros (Hrow & Hrows & fs & Hfs & Hall) Hf.
  split; [done|]. split; [done|]. exists (fs ++ [f]). simpl.
  split; [by rewrite Hfs, app_assoc|]. apply Forall_app. by split; [|constructor].
Qed.

Lemma sentinel_frame_logged k a d0 d rows :
  sentinel_frame k a d0 d -> Forall (fun c => tc_field c <> "Owner") rows ->
  sentinel_frame k a d0 (logged d rows).
Proof.
  intros (Hrow & (rows0 & Hrows & Hall) & Hfs) Hnew.
  split; [done|]. split; [|done]. exists (rows0 ++ rows). simpl.
  split; [by rewrite Hrows, app_assoc|]. by apply Forall_app.
Qed.

Lemma changes_of_no_owner p old_owner assigned old_status old_status_str f t d :
  fst <$> assigned = fst <$> old_owner ->
  Forall (fun c => tc_field c <> "Owner")
    (changes_of p old_owner assigned old_status old_status_str f t d).
Proof.
  intros Hsame. unfold changes_of.
  rewrite (bool_decide_eq_true_2 (fst <$> assigned = fst <$> old_owner)) by done.
  repeat (apply Forall_app; split);
    unfold opt_row; case_match;
    first [by constructor | constructor; [simpl; discriminate|by constructor]].
Qed.

Lemma Forall_prefix {A} (P : A -> Prop) (l1 l2 : list A) :
  l1 `prefix_of` l2 -> Forall P l2 -> Forall P l1.
Proof. intros [l ->] H. by apply Forall_app in H as [??]. Qed.

Lemma sentinel_unchanged t :
  t_assigned_to t <> Some 0 ->
  new_assignee (resolved_owner (-1) t) t = t_assigned_to t /\
  is_reassigned (resolved_owner (-1) t) t = false.
Proof.
  intros Hnz. unfold new_assignee, is_reassigned, resolved_owner. simpl.
  destruct (t_assigned_to t) as [a|]; simpl; [|done].
  rewrite (bool_decide_eq_true_2 (Some a = Some a)) by done.
  rewrite andb_false_r. split; [|done].
  case_bool_decide; [done|]. case_bool_decide; [|done]. congruence.
Qed.

Lemma get_ticket_found k ticket d :
  db_tickets d !! k = Some ticket ->
  try_except (objects_get db_tickets k) DoesNotExist (raise Http404) d
  = (Ok ticket, d).
Proof. intros H. unfold try_except, objects_get. by rewrite H. Qed.

Lemma default_title_no_assignment f :
  assignment_title (f_title f) = false ->
  assignment_title (f_title (default_title f)) = false.
Proof.
  unfold default_title. destruct (truthy_ostr (f_title f)); [done|].
  intros _. simpl. by destruct (truthy_str (f_comment f)).
Qed.

Lemma set_resolution_text_kept ns comment t :
  t_id (set_resolution_text ns comment t) = t_id t /\
  t_assigned_to (set_resolution_text ns comment t) = t_assigned_to t.
Proof.
  unfold set_resolution_text. by repeat case_match.
Qed.

Lemma wp_no_changes req p ticket (Q : Res bool -> DB -> Prop) d :
  (forall r, Q r d) -> wp (no_changes req p ticket) Q d.
Proof. intros H. unfold wp. rewrite no_changes_state. apply H. Qed.

Lemma sentinel_body req acting p ticket k d0 d :
  t_id ticket = Some k -> t_assigned_to ticket <> Some 0 ->
  p_owner p = -1 ->
  sentinel_frame k (t_assigned_to ticket) d0 d ->
  wp (update_ticket_body env req acting p ticket)
    (fun r d' =>
       sentinel_frame k (t_assigned_to ticket) d0 d' /\
       forall w, r = Ok w ->
         w_reassigned w = false /\
         t_assigned_to (w_ticket w) = t_assigned_to ticket /\
         assignment_title (f_title (w_followup w)) = false) d.
Proof.
  intros Hid Hnz Ho Hframe. unfold update_ticket_body. rewrite Ho.
  destruct (sentinel_unchanged ticket Hnz) as [Hnew Hre].
  apply wp_bind, wp_render_comment; [|done]. intros comment _.
  apply wp_bind, wp_resolve_owner_sentinel; [|done].
  apply wp_bind, wp_timezone_now.
  set (d1 := with_clock (db_clock d + 1) d).
  assert (Hf1 : sentinel_frame k (t_assigned_to ticket) d0 d1)
    by by apply (sentinel_frame_same _ _ _ d).
  set (f0 := mkFollowUp None (t_id ticket) (db_clock d) None comment false
               None None).
  assert (Hbody : forall user,
    let f1 := mkFollowUp (f_id f0) (f_ticket f0) (f_date f0) (f_title f0)
                (f_comment f0) (truthy_ostr (p_public p)) user
                (f_new_status f0) in
    wp ('(ticket0, f, reassigned, old_owner, assigned) ←
          assign_owner (resolved_owner (-1) ticket) ticket f1 ;
        '(ticket1, f2) ← change_status (p_new_status p) ticket0 f ;
        '(f3, ticket2) ← FollowUp_save env (p_public p) (default_title f2)
                           ticket1 ;
        ticket3 ← add_ticket_changes env p old_owner assigned
                    (t_status ticket0) (get_status_display ticket0) f3 ticket2 ;
        notify env acting (truthy_ostr (p_public p)) reassigned assigned
          (set_resolution_text (p_new_status p) comment ticket3) f3
          (process_attachments f3 req) ;;
        ticket4 ← Ticket_save None []
                    (set_resolution_text (p_new_status p) comment ticket3) ;
        mret (mkWorkflow ticket4 f3 reassigned))
      (fun r d' =>
         sentinel_frame k (t_assigned_to ticket) d0 d' /\
         forall w, r = Ok w ->
           w_reassigned w = false /\
           t_assigned_to (w_ticket w) = t_assigned_to ticket /\
           assignment_title (f_title (w_followup w)) = false) d1).
  { intros user f1.
    apply wp_bind, wp_assign_owner; [|done].
    intros f' _ _ Hf'. rewrite Hre, Hnew. rewrite (Hf' Hre Hnew).
    rewrite set_assigned_to_same. clear f' Hf'. simpl.
    assert (Hstatus : forall t1 f2 d2,
      t_id t1 = Some k -> t_assigned_to t1 = t_assigned_to ticket ->
      assignment_title (f_title f2) = false ->
      sentinel_frame k (t_assigned_to ticket) d0 d2 ->
      wp ('(f3, ticket2) ← FollowUp_save env (p_public p) (default_title f2)
                             t1 ;
          ticket3 ← add_ticket_changes env p
                      (lookup_obj (db_users d1) (t_assigned_to ticket))
                      (lookup_obj (db_users d1) (t_assigned_to ticket))
                      (t_status ticket) (get_status_display ticket) f3 ticket2 ;
          notify env acting (truthy_ostr (p_public p)) false
            (lookup_obj (db_users d1) (t_assigned_to ticket))
            (set_resolution_text (p_new_status p) comment ticket3) f3
            (process_attachments f3 req) ;;
          ticket4 ← Ticket_save None []
                      (set_resolution_text (p_new_status p) comment ticket3) ;
          mret (mkWorkflow ticket4 f3 false))
        (fun r d' =>
           sentinel_frame k (t_assigned_to ticket) d0 d' /\
           forall w, r = Ok w ->
             w_reassigned w = false /\
             t_assigned_to (w_ticket w) = t_assigned_to ticket /\
             assignment_title (f_title (w_followup w)) = false) d2).
    { intros t1 f2 d2 Hid1 Ha1 Htitle Hf2.
      apply wp_bind, (wp_FollowUp_save k); [done| | | |].
      2:{ split; [|done]. by apply (sentinel_frame_same _ _ _ d2). }
      2:{ intros e d3 Href. split; [|done].
          exact (sentinel_frame_refused _ _ _ _ _ Hf2 Href). }
      2:{ intros t2 d3 Hsaved _. split; [|done].
          exact (sentinel_frame_saved _ _ _ _ _ _ _ Hf2 Hsaved Ha1). }
      intros t2 d3 b Hsaved _. simpl.
      pose proof (sentinel_frame_saved _ _ _ _ _ _ _ Hf2 Hsaved Ha1) as Hf3.
      set (f3 := stored_followup (default_title f2) b k d3).
      assert (Htitle3 : assignment_title (f_title f3) = false)
        by by apply default_title_no_assignment.
      pose proof (sentinel_frame_followup _ _ _ _ f3 Hf3 Htitle3) as Hf4.
      destruct Hsaved as (_ & HC2 & Hid2 & _).
      assert (Ha2 : t_assigned_to t2 = t_assigned_to ticket).
      { destruct HC2 as (_&_&_&->&_). exact Ha1. }
      apply wp_bind, wp_add_ticket_changes.
      2:{ intros rows Hpre. split; [|done].
          apply sentinel_frame_logged; [done|].
          eapply Forall_prefix; [exact Hpre|]. by apply changes_of_no_owner. }
      intros t3 (Hid3 & _ & Ha3 & _).
      pose proof (sentinel_frame_logged _ _ _ _ _ Hf4
                    (changes_of_no_owner p _ _ (t_status ticket)
                       (get_status_display ticket) f3 t2 (followed d3 f3)
                       (eq_refl (fst <$> lookup_obj (db_users d1)
                                           (t_assigned_to ticket))))) as Hf5.
      destruct (set_resolution_text_kept (p_new_status p) comment t3)
        as [Hid4 Ha4].
      apply wp_bind, wp_notify. intros r mails.
      assert (Hf6 : forall d6, d6 = mailed
                (logged (followed d3 f3)
                   (changes_of p (lookup_obj (db_users d1) (t_assigned_to ticket))
                      (lookup_obj (db_users d1) (t_assigned_to ticket))
                      (t_status ticket) (get_status_display ticket) f3 t2
                      (followed d3 f3))) mails ->
              sentinel_frame k (t_assigned_to ticket) d0 d6).
      { intros d6 ->. by eapply sentinel_frame_same; [exact Hf5|..]. }
      destruct r as [[]|e]; [|split; [by apply Hf6|done]].
      apply wp_bind, (wp_Ticket_save_saved k); [congruence| |].
      2:{ intros e5 d7 Href. split; [|done].
          eapply sentinel_frame_refused; [by apply Hf6|exact Href]. }
      intros t5 d7 Hsaved. apply wp_ret.
      split.
      - eapply sentinel_frame_saved; [by apply Hf6|exact Hsaved|congruence].
      - intros w [= <-]. simpl. split; [done|]. split; [|done].
        destruct Hsaved as (_ & HC5 & _). destruct HC5 as (_&_&_&->&_).
        congruence. }
    apply wp_bind, (wp_change_status k); [done| | |].
    3:{ intros e d2 Href. split; [|done].
        exact (sentinel_frame_refused _ _ _ _ _ Hf1 Href). }
    - intros _. simpl. by apply Hstatus.
    - intros t1 d2 Hne Hsaved. simpl.
      pose proof Hsaved as (_ & HC & Hid1 & _).
      apply Hstatus; [done| | |].
      + by destruct HC as (_&_&_&->&_).
      + simpl. apply status_display_no_assignment.
      + eapply sentinel_frame_same;
          [eapply (sentinel_frame_saved _ _ _ d1); [exact Hf1|exact Hsaved|done]
          |done..]. }
  destruct (user_is_staff acting || HELPDESK_ALLOW_NON_STAFF_TICKET_UPDATE env).
  - destruct acting as [[uid u]|].
    + apply wp_bind, wp_ret. apply Hbody.
    + apply wp_bind, wp_raise. done.
  - apply wp_bind, wp_ret. apply Hbody.
Qed.

Lemma wp_update_ticket_run req k public ticket p
    (Q : Res (Response * option Workflow) -> DB -> Prop) d :
  db_tickets d !! k = Some ticket ->
  parse_POST env req ticket d = (Ok p, d) ->
  (may_update env public (request_user d req) = false ->
   Q (Ok (RedirectLogin, None)) d) ->
  (may_update env public (request_user d req) = true ->
   wp (unchanged ← no_changes req p ticket ;
       if (unchanged : bool) then
         modify (fun d => with_flash
           (db_flash d ++ ["Aucune modification n'a été apportée."]) d) ;;
         mret (return_to_ticket env (request_user d req) ticket, None)
       else
         w ← update_ticket_body env req (request_user d req) p ticket ;
         mret (return_to_ticket env (request_user d req) (w_ticket w), Some w))
     Q d) ->
  wp (update_ticket_run env req k public) Q d.
Proof.
  intros Hrow Hparse Hdenied Hallowed. unfold update_ticket_run.
  apply wp_bind, wp_get_db.
  destruct (may_update env public (request_user d req)); simpl.
  2:{ by apply wp_ret, Hdenied. }
  apply wp_bind. unfold wp at 1. rewrite (get_ticket_found _ _ _ Hrow). simpl.
  apply wp_bind. unfold wp at 1. rewrite Hparse. simpl. by apply Hallowed.
Qed.

(** *** The rows of one invocation *)

(** The saves of the workflow have nothing to add to the ticket: its
    priority is set and no [SimpleUserMail] holds a customer for it. *)
Definition settled (d : DB) (t : Ticket) : Prop :=
  t_priority t <> 0 /\
  (t_customer t = None ->
   forall c, simple_user_mail d (t_submitter_email t) <> Some (Some c)).

Lemma saved_settled k t d t' d' :
  saved k t d t' d' -> settled d t ->
  t_priority t' = t_priority t /\ t_customer t' = t_customer t /\ settled d' t'.
Proof.
  intros (HT & HC & _ & _ & Hprio & Hcust & Hsum) [Hp Hm].
  rewrite bool_decide_eq_false_2 in Hprio by done.
  assert (Hc : t_customer t' = t_customer t).
  { rewrite Hcust. destruct (t_customer t) as [c|] eqn:Hcu; [done|].
    destruct (simple_user_mail d (t_submitter_email t)) as [[c|]|] eqn:Hl;
      try done.
    by destruct (Hm eq_refl c). }
  split; [done|]. split; [done|]. split; [congruence|].
  intros Hn c. rewrite Hc in Hn.
  assert (Hem : t_submitter_email t' = t_submitter_email t) by apply HC.
  unfold simple_user_mail in *. rewrite Hem, (Hsum Hn). by apply Hm.
Qed.

(** The tables the change log reads, and the change log itself. *)
Definition quiet (d d' : DB) : Prop :=
  db_users d' = db_users d /\ db_customers d' = db_customers d /\
  db_sites d' = db_sites d /\
  db_customer_products d' = db_customer_products d /\
  db_ticketchanges d' = db_ticketchanges d.

Lemma quiet_refl d : quiet d d.
Proof. done. Qed.

Lemma quiet_trans d1 d2 d3 : quiet d1 d2 -> quiet d2 d3 -> quiet d1 d3.
Proof.
  intros (?&?&?&?&?) (?&?&?&?&?). repeat split; congruence.
Qed.

Lemma saved_quiet k t d t' d' : saved k t d t' d' -> quiet d d'.
Proof.
  intros ((Hu&_&Hc&Hs&Hp&_&_&_&_&Hch&_) & _). by repeat split.
Qed.

Lemma changes_of_ext p old new st str f t t' d d' :
  quiet d d' ->
  t_title t' = t_title t -> t_status t' = t_status t ->
  t_priority t' = t_priority t -> t_due_date t' = t_due_date t ->
  t_customer_contact t' = t_customer_contact t ->
  t_customer t' = t_customer t -> t_site t' = t_site t ->
  t_customer_product t' = t_customer_product t ->
  changes_of p old new st str f t' d' = changes_of p old new st str f t d.
Proof.
  intros (Hu & Hc & Hs & Hp & _) Ht Hst Hpr Hd Hcc Hcu Hsi Hpd.
  unfold changes_of, get_status_display.
  by rewrite Hu, Hc, Hs, Hp, Ht, Hst, Hpr, Hd, Hcc, Hcu, Hsi, Hpd.
Qed.

(** The rows an invocation is to create for the stored ticket [t]: the
    old values are those [t] holds, the new ones those proposed. *)
Definition expected_changes (p : Proposed) (t : Ticket) (d : DB)
    (followup : option Z) : list TicketChange :=
  changes_of p (lookup_obj (db_users d) (t_assigned_to t))
    (lookup_obj (db_users d) (new_assignee (p_owner p) t))
    (t_status t) (get_status_display t)
    (mkFollowUp followup None 0 None "" false None None)
    (set_status (p_new_status p) t) d.

Lemma changes_of_followup p old new st str f f' t d :
  f_id f = f_id f' ->
  changes_of p old new st str f t d = changes_of p old new st str f' t d.
Proof. intros H. unfold changes_of. by rewrite H. Qed.

Lemma resolved_new_assignee owner t :
  t_assigned_to t <> Some 0 ->
  new_assignee (resolved_owner owner t) t = new_assignee owner t /\
  (is_reassigned (resolved_owner owner t) t = false ->
   new_assignee owner t = t_assigned_to t \/ new_assignee owner t = None).
Proof.
  intros Hnz. unfold resolved_owner, new_assignee, is_reassigned.
  destruct (decide (owner = -1)) as [->|Ho].
  - rewrite (bool_decide_eq_true_2 (-1 = -1)) by done.
    destruct (t_assigned_to t) as [a|] eqn:Ha; simpl; [|by split; [|left]].
    split; [|by left]. repeat case_bool_decide; try done.
    subst a. by destruct Hnz.
  - rewrite !(bool_decide_eq_false_2 (owner = -1)) by done.
    split; [done|]. simpl.
    case_bool_decide; [by right|]. simpl.
    case_bool_decide; [by left|done].
Qed.

(** The fields the change log compares. *)
Definition tracked_same (t t' : Ticket) : Prop :=
  t_title t' = t_title t /\ t_status t' = t_status t /\
  t_priority t' = t_priority t /\ t_due_date t' = t_due_date t /\
  t_customer_contact t' = t_customer_contact t /\
  t_customer t' = t_customer t /\ t_site t' = t_site t /\
  t_customer_product t' = t_customer_product t.

Lemma tracked_same_trans t1 t2 t3 :
  tracked_same t1 t2 -> tracked_same t2 t3 -> tracked_same t1 t3.
Proof.
  intros (?&?&?&?&?&?&?&?) (?&?&?&?&?&?&?&?). repeat split; congruence.
Qed.

Lemma saved_tracked k t d t' d' :
  saved k t d t' d' -> settled d t ->
  tracked_same t t' /\ settled d' t' /\ t_id t' = Some k.
Proof.
  intros Hsaved Hsettled.
  destruct (saved_settled _ _ _ _ _ Hsaved Hsettled) as (Hp & Hc & Hs').
  destruct Hsaved as (_ & HC & Hid & _).
  destruct HC as (?&?&?&?&?&?&?&?&?&?&?&?&?&?&?).
  split; [by unfold tracked_same|]. by split.
Qed.

Lemma settled_ext d t d' t' :
  db_simple_user_mails d' = db_simple_user_mails d ->
  t_priority t' = t_priority t -> t_customer t' = t_customer t ->
  t_submitter_email t' = t_submitter_email t ->
  settled d t -> settled d' t'.
Proof.
  unfold settled, simple_user_mail. intros -> -> -> ->. done.
Qed.

(** The ticket as the first save of the workflow leaves it: with the
    default priority if it had none, and with the customer of the
    [SimpleUserMail] that matches its submitter if it had no customer. *)
Definition settle (d : DB) (t : Ticket) : Ticket :=
  set_customer (matched_customer d t)
    (if bool_decide (t_priority t = 0) then set_priority 3 t else t).

Lemma settle_kept d t :
  t_id (settle d t) = t_id t /\ t_assigned_to (settle d t) = t_assigned_to t /\
  t_status (settle d t) = t_status t /\ t_title (settle d t) = t_title t /\
  t_due_date (settle d t) = t_due_date t /\
  t_customer_contact (settle d t) = t_customer_contact t /\
  t_site (settle d t) = t_site t /\
  t_customer_product (settle d t) = t_customer_product t /\
  t_customer (settle d t) = matched_customer d t /\
  t_priority (settle d t)
  = (if bool_decide (t_priority t = 0) then 3 else t_priority t).
Proof. unfold settle. by case_bool_decide. Qed.

Lemma saved_settle k t d t' d' :
  saved k t d t' d' ->
  tracked_same (settle d t) t' /\ settled d' t' /\ t_id t' = Some k.
Proof.
  intros (HT & HC & Hid & _ & Hprio & Hcust & Hsum).
  destruct (settle_kept d t) as (_ & _ & Hst & Hti & Hdu & Hcc & Hsi & Hpr &
                                 Hcu & Hp).
  destruct HC as (?&?&Hem&?&?&?&?&?&?&?&?&?&?&?&?).
  split.
  { unfold tracked_same. rewrite Hst, Hti, Hdu, Hcc, Hsi, Hpr, Hcu, Hp.
    by repeat split. }
  split; [|done]. split.
  - rewrite Hprio. by case_bool_decide.
  - intros Hn c. rewrite Hcust in Hn.
    destruct (t_customer t) as [c0|] eqn:Hc0; [done|].
    unfold simple_user_mail in *. rewrite Hem, (Hsum eq_refl).
    destruct (t_submitter_email t) as [e|]; [|done].
    by destruct (db_simple_user_mails d !! e) as [[c1|]|].
Qed.

Lemma expected_changes_settle p t d followup :
  expected_changes p (settle d t) d followup =
  changes_of p (lookup_obj (db_users d) (t_assigned_to t))
    (lookup_obj (db_users d) (new_assignee (p_owner p) t))
    (t_status t) (get_status_display t)
    (mkFollowUp followup None 0 None "" false None None)
    (set_status (p_new_status p) (settle d t)) d.
Proof.
  unfold expected_changes, new_assignee, get_status_display, settle.
  by case_bool_decide.
Qed.

Lemma changes_body req acting p ticket k d :
  t_id ticket = Some k -> t_assigned_to ticket <> Some 0 ->
  wp (update_ticket_body env req acting p ticket)
    (fun r d' =>
       forall w, r = Ok w ->
         db_ticketchanges d' =
         db_ticketchanges d
           ++ expected_changes p (settle d ticket) d (f_id (w_followup w))) d.
Proof.
  intros Hid Hnz. unfold update_ticket_body.
  destruct (resolved_new_assignee (p_owner p) ticket Hnz) as [Hnew _].
  apply wp_bind, wp_render_comment; [|done]. intros comment _.
  apply wp_bind, wp_resolve_owner_sentinel; [|done].
  apply wp_bind, wp_timezone_now.
  set (d1 := with_clock (db_clock d + 1) d).
  set (f0 := mkFollowUp None (t_id ticket) (db_clock d) None comment false
               None None).
  assert (Hbody : forall user,
    let f1 := mkFollowUp (f_id f0) (f_ticket f0) (f_date f0) (f_title f0)
                (f_comment f0) (truthy_ostr (p_public p)) user
                (f_new_status f0) in
    wp ('(ticket0, f, reassigned, old_owner, assigned) ←
          assign_owner (resolved_owner (p_owner p) ticket) ticket f1 ;
        '(ticket1, f2) ← change_status (p_new_status p) ticket0 f ;
        '(f3, ticket2) ← FollowUp_save env (p_public p) (default_title f2)
                           ticket1 ;
        ticket3 ← add_ticket_changes env p old_owner assigned
                    (t_status ticket0) (get_status_display ticket0) f3 ticket2 ;
        notify env acting (truthy_ostr (p_public p)) reassigned assigned
          (set_resolution_text (p_new_status p) comment ticket3) f3
          (process_attachments f3 req) ;;
        ticket4 ← Ticket_save None []
                    (set_resolution_text (p_new_status p) comment ticket3) ;
        mret (mkWorkflow ticket4 f3 reassigned))
      (fun r d' =>
         forall w, r = Ok w ->
           db_ticketchanges d' =
           db_ticketchanges d
             ++ expected_changes p (settle d ticket) d (f_id (w_followup w)))
      d1).
  { intros user f1.
    apply wp_bind, wp_assign_owner; [|done].
    intros f' _ _ _. rewrite Hnew. simpl.
    set (t0 := set_assigned_to (new_assignee (p_owner p) ticket) ticket).
    set (re := is_reassigned (resolved_owner (p_owner p) ticket) ticket).
    set (old := lookup_obj (db_users d1) (t_assigned_to ticket)).
    set (new := lookup_obj (db_users d1) (new_assignee (p_owner p) ticket)).
    set (target := set_status (p_new_status p) (settle d ticket)).
    assert (Ht0 : t_id t0 = Some k /\ t_status t0 = t_status ticket /\
                  tracked_same (settle d ticket) (settle d1 t0)).
    { subst t0. split; [done|]. split; [done|].
      unfold tracked_same, settle, matched_customer. simpl.
      by case_bool_decide. }
    destruct Ht0 as (Hid0 & Hst0 & Htr0).
    assert (Hdisp0 : get_status_display t0 = get_status_display ticket) by done.
    rewrite ?Hdisp0, ?Hst0.
    assert (Hstatus : forall t1 f2 d2,
      t_id t1 = Some k -> quiet d d2 ->
      (forall t2 d3, saved k t1 d2 t2 d3 -> tracked_same target t2) ->
      wp ('(f3, ticket2) ← FollowUp_save env (p_public p) (default_title f2)
                             t1 ;
          ticket3 ← add_ticket_changes env p old new
                      (t_status ticket) (get_status_display ticket) f3 ticket2 ;
          notify env acting (truthy_ostr (p_public p)) re new
            (set_resolution_text (p_new_status p) comment ticket3) f3
            (process_attachments f3 req) ;;
          ticket4 ← Ticket_save None []
                      (set_resolution_text (p_new_status p) comment ticket3) ;
          mret (mkWorkflow ticket4 f3 re))
        (fun r d' =>
           forall w, r = Ok w ->
             db_ticketchanges d' =
             db_ticketchanges d
               ++ expected_changes p (settle d ticket) d (f_id (w_followup w)))
        d2).
    { intros t1 f2 d2 Hid1 Hq2 Htr1.
      apply wp_bind, (wp_FollowUp_save k); [done| |done|done|done].
      intros t2 d3 b Hsaved _. simpl.
      pose proof (Htr1 _ _ Hsaved) as Htr2.
      pose proof (saved_quiet _ _ _ _ _ Hsaved) as Hq3.
      set (f3 := stored_followup (default_title f2) b k d3).
      set (d4 := followed d3 f3).
      assert (Hq4 : quiet d d4).
      { eapply quiet_trans; [exact Hq2|]. eapply quiet_trans; [exact Hq3|done]. }
      apply wp_bind, wp_add_ticket_changes; [|done].
      intros t3 (Hid3 & _).
      apply wp_bind, wp_notify. intros r mails.
      destruct r as [[]|e]; [|done].
      apply wp_bind, (wp_Ticket_save_saved k); [| |done].
      { destruct (set_resolution_text_kept (p_new_status p) comment t3)
          as [-> _]. destruct Hsaved as (_ & _ & Hid2 & _). congruence. }
      intros t5 d7 Hsaved5. apply wp_ret. intros w [= <-]. simpl.
      destruct (saved_quiet _ _ _ _ _ Hsaved5) as (_&_&_&_&->). simpl.
      f_equal; [by destruct Hq4 as (_&_&_&_&?)|].
      rewrite expected_changes_settle. fold target.
      destruct Htr2 as (?&?&?&?&?&?&?&?).
      rewrite (changes_of_ext p old new _ _ f3 target t2 d d4) by done.
      subst old new. change (db_users d1) with (db_users d).
      by apply changes_of_followup. }
    apply wp_bind, (wp_change_status k); [done| | |done].
    - intros Hsame. simpl. apply Hstatus; [done|done|].
      intros t2 d3 Hsaved.
      destruct (saved_settle _ _ _ _ _ Hsaved) as (Htr2 & _).
      eapply tracked_same_trans; [|exact Htr2].
      eapply tracked_same_trans; [|exact Htr0].
      subst target. unfold tracked_same, settle. simpl. rewrite Hsame, Hst0.
      by case_bool_decide.
    - intros t1 d2 Hne Hsaved. simpl.
      destruct (saved_settle _ _ _ _ _ Hsaved) as (Htr1 & Hse1 & Hid1).
      apply Hstatus; [done| |].
      + eapply quiet_trans; [|eapply quiet_trans;
          [exact (saved_quiet _ _ _ _ _ Hsaved)|done]]. done.
      + intros t2 d3 Hsaved2.
        assert (Hse1' : settled
                  (with_flash (db_flash d2 ++
                     ["Le ticket est désormais dans le statut "
                      +:+ get_status_display t1]) d2) t1)
          by by apply (settled_ext d2 t1).
        destruct (saved_tracked _ _ _ _ _ Hsaved2 Hse1') as (Htr2 & _).
        eapply tracked_same_trans; [|exact Htr2].
        eapply tracked_same_trans; [|exact Htr1].
        subst target t0. unfold tracked_same, settle, matched_customer. simpl.
        by case_bool_decide. }
  destruct (user_is_staff acting || HELPDESK_ALLOW_NON_STAFF_TICKET_UPDATE env).
  - destruct acting as [[uid u]|].
    + apply wp_bind, wp_ret. apply Hbody.
    + apply wp_bind, wp_raise. done.
  - apply wp_bind, wp_ret. apply Hbody.
Qed.

End Workflow.

(** ** The no-change abort and the owner sentinel *)

Section UpdateTicketClaims.
Context (env : Env).

(** C2: when the caller may update the ticket, no file is attached, the
    comment is empty and every proposed field (status, title, priority,
    due date, owner, customer, contact, site, product) equals the value
    the ticket holds, [update_ticket] returns to the ticket with the
    message that nothing was modified and without running the
    workflow: the tickets, the follow-ups, the change log and the outbox
    are what they were. *)
Theorem update_ticket_no_changes req ticket_id public d ticket p :
  may_update env public (request_user d req) = true ->
  db_tickets d !! ticket_id = Some ticket ->
  refs_ok d ticket = true ->
  parse_POST env req ticket d = (Ok p, d) ->
  r_FILES req = [] -> p_comment p = "" ->
  p_new_status p = t_status ticket -> p_title p = t_title ticket ->
  p_priority p = t_priority ticket -> p_due_date p = t_due_date ticket ->
  p_customer_contact_id p = t_customer_contact ticket ->
  p_customer_id p = t_customer ticket -> p_site_id p = t_site ticket ->
  p_customer_product_id p = t_customer_product ticket ->
  owner_unchanged p ticket ->
  exists d',
    update_ticket_run env req ticket_id public d =
      (Ok (return_to_ticket env (request_user d req) ticket, None), d') /\
    db_flash d' = db_flash d ++ ["Aucune modification n'a été apportée."] /\
    db_tickets d' = db_tickets d /\ db_followups d' = db_followups d /\
    db_ticketchanges d' = db_ticketchanges d /\ db_outbox d' = db_outbox d.
Proof.
  intros Hmay Hrow Hrefs Hparse HF Hc Hs Ht Hp Hd Hcc Hcu Hsi Hpr Ho.
  exists (with_flash
            (db_flash d ++ ["Aucune modification n'a été apportée."]) d).
  split; [|done].
  unfold update_ticket_run. unfold mbind, M_bind, bind, get_db at 1.
  rewrite Hmay. simpl. rewrite (get_ticket_found _ _ _ Hrow), Hparse.
  rewrite (no_changes_unchanged req p ticket d) by assumption.
  reflexivity.
Qed.

(** C10: when the owner field carries the sentinel -1, whatever the
    outcome of [update_ticket] the stored assignee of the ticket is the
    one it had, no [Owner] row is added to the change log and no
    follow-up with an assignment title is added; when the workflow ran
    to its end, [reassigned] is false, the ticket handed back has the
    same assignee and the follow-up has no assignment title.  (A
    primary key is never 0.) *)
Theorem update_ticket_owner_sentinel req ticket_id public d ticket p r d' :
  db_tickets d !! ticket_id = Some ticket -> t_id ticket = Some ticket_id ->
  t_assigned_to ticket <> Some 0 ->
  parse_POST env req ticket d = (Ok p, d) ->
  p_owner p = -1 ->
  update_ticket_run env req ticket_id public d = (r, d') ->
  sentinel_frame ticket_id (t_assigned_to ticket) d d' /\
  forall response w, r = Ok (response, Some w) ->
    w_reassigned w = false /\
    t_assigned_to (w_ticket w) = t_assigned_to ticket /\
    assignment_title (f_title (w_followup w)) = false.
Proof.
  intros Hrow Hid Hnz Hparse Ho Hrun.
  refine (wp_run _
    (fun r d' =>
       sentinel_frame ticket_id (t_assigned_to ticket) d d' /\
       forall response w, r = Ok (response, Some w) ->
         w_reassigned w = false /\
         t_assigned_to (w_ticket w) = t_assigned_to ticket /\
         assignment_title (f_title (w_followup w)) = false) _ _ _ _ Hrun).
  pose proof (sentinel_frame_init _ _ _ Hrow) as Hframe.
  apply (wp_update_ticket_run env req ticket_id public ticket p);
    [done|done|by split|]. intros _.
  apply wp_bind, wp_no_changes. intros [[|]|e]; [| |by split].
  - apply wp_bind, wp_modify, wp_ret. split; [|done].
    by apply (sentinel_frame_same _ _ _ d).
  - apply wp_bind.
    eapply wp_mono; [by apply (sentinel_body env req _ p ticket ticket_id d)|].
    intros [w|e] d2 [Hf Hw]; [|by split].
    apply wp_ret. split; [done|]. intros resp w' [= _ <-]. by apply Hw.
Qed.

End UpdateTicketClaims.

(** ** The notification fan-out *)

(** [c] run from [d] ends with outcome [r] after handing [mails], in
    this order, to the mailer, whatever the outbox held before: it reads
    no mail sent earlier and changes nothing else. *)
Definition dispatches {A} (c : M A) (Q : Res A -> list Mail -> Prop) (d : DB)
  : Prop :=
  exists r mails,
    Q r mails /\ forall o, c (with_outbox o d) = (r, with_outbox (o ++ mails) d).

Lemma dispatches_ret {A} (a : A) (Q : Res A -> list Mail -> Prop) d :
  Q (Ok a) [] -> dispatches (mret a) Q d.
Proof.
  intros H. exists (Ok a), []. split; [done|]. intros o. by rewrite app_nil_r.
Qed.

Lemma dispatches_raise {A} e (Q : Res A -> list Mail -> Prop) d :
  Q (Raise e) [] -> dispatches (raise e) Q d.
Proof.
  intros H. exists (Raise e), []. split; [done|]. intros o. by rewrite app_nil_r.
Qed.

Lemma dispatches_bind {A B} (c : M A) (k : A -> M B)
    (Q : Res B -> list Mail -> Prop) d :
  dispatches c (fun r m1 =>
    match r with
    | Ok a => dispatches (k a) (fun r2 m2 => Q r2 (m1 ++ m2)) d
    | Raise e => Q (Raise e) m1
    end) d ->
  dispatches (c ≫= k) Q d.
Proof.
  intros (r & m1 & H & Hc). destruct r as [a|e].
  - destruct H as (r2 & m2 & HQ & Hk). exists r2, (m1 ++ m2). split; [done|].
    intros o. unfold mbind, M_bind, bind. rewrite Hc, app_assoc.
    rewrite <- (Hk (o ++ m1)). done.
  - exists (Raise e), m1. split; [done|]. intros o.
    unfold mbind, M_bind, bind. by rewrite Hc.
Qed.

Lemma dispatches_mono {A} (c : M A) (Q Q' : Res A -> list Mail -> Prop) d :
  dispatches c Q d -> (forall r m, Q r m -> Q' r m) -> dispatches c Q' d.
Proof. intros (r & m & H & Hc) HQ. exists r, m. auto. Qed.

(** A table other than the outbox. *)
Definition outbox_free {A} (table : DB -> A) : Prop :=
  forall o d, table (with_outbox o d) = table d.

Lemma outbox_free_users : outbox_free db_users.
Proof. done. Qed.
Lemma outbox_free_queues : outbox_free db_queues.
Proof. done. Qed.

Lemma dispatches_objects_get {A} (table : DB -> gmap Z A) k
    (Q : Res A -> list Mail -> Prop) d :
  outbox_free table ->
  (forall a, table d !! k = Some a -> Q (Ok a) []) ->
  (table d !! k = None -> Q (Raise DoesNotExist) []) ->
  dispatches (objects_get table k) Q d.
Proof.
  intros Hfree HOk HRaise. unfold objects_get.
  destruct (table d !! k) as [a|] eqn:E.
  - exists (Ok a), []. split; [auto|]. intros o.
    by rewrite Hfree, E, app_nil_r.
  - exists (Raise DoesNotExist), []. split; [auto|]. intros o.
    by rewrite Hfree, E, app_nil_r.
Qed.

Lemma dispatches_deref {A} (table : DB -> gmap Z A) fk
    (Q : Res (option (Z * A)) -> list Mail -> Prop) d :
  outbox_free table ->
  (forall r, Q r []) -> dispatches (deref table fk) Q d.
Proof.
  intros Hfree H. unfold deref. destruct fk as [k|]; [|by apply dispatches_ret].
  apply dispatches_bind, dispatches_objects_get; [done| |auto].
  intros a _. by apply dispatches_ret.
Qed.

Lemma dispatches_send template recipients sender files
    (Q : Res unit -> list Mail -> Prop) d :
  Q (Ok tt) [mkMail template recipients sender files] ->
  dispatches (send_templated_mail template recipients sender files) Q d.
Proof.
  intros H. exists (Ok tt), [mkMail template recipients sender files].
  split; [done|]. intros o. reflexivity.
Qed.

Section FanOut.
Context (env : Env).

Lemma dispatches_send_from_queue ticket template recipients files
    (Q : Res unit -> list Mail -> Prop) d :
  (forall sender, Q (Ok tt) [mkMail template recipients sender files]) ->
  Q (Raise DoesNotExist) [] ->
  dispatches (send_from_queue env ticket template recipients files) Q d.
Proof.
  intros HOk HRaise. unfold send_from_queue.
  apply dispatches_bind, dispatches_objects_get;
    [apply outbox_free_queues| |done].
  intros q _. apply dispatches_send, HOk.
Qed.

(** The addresses of the mails sent are those added to
    [messages_sent_to], and no address is there twice. *)
Definition sent_once (sent : list (option string))
    (r : Res (list (option string))) (mails : list Mail) : Prop :=
  NoDup (sent ++ (m_recipients <$> mails)) /\
  forall sent', r = Ok sent' -> sent' = sent ++ (m_recipients <$> mails).

Lemma sent_once_nil sent r :
  NoDup sent -> (forall sent', r = Ok sent' -> sent' = sent) ->
  sent_once sent r [].
Proof.
  intros Hnd H. split; simpl; rewrite app_nil_r; [done|exact H].
Qed.

Lemma NoDup_snoc {A} (l : list A) (a : A) :
  NoDup l -> a ∉ l -> NoDup (l ++ [a]).
Proof.
  intros Hl Ha. apply NoDup_app. split; [done|]. split.
  - intros x Hx Hin. apply list_elem_of_singleton in Hin. by subst.
  - apply NoDup_singleton.
Qed.

Lemma dispatches_cc_email_address cc
    (Q : Res (option string) -> list Mail -> Prop) d :
  (forall r, Q r []) -> dispatches (cc_email_address cc) Q d.
Proof.
  intros H. unfold cc_email_address.
  apply dispatches_bind, dispatches_deref; [apply outbox_free_users|].
  intros [u|e]; [by apply dispatches_ret|done].
Qed.

Lemma dispatches_notify_ccs ticket template files ccs sent d :
  NoDup sent ->
  dispatches (notify_ccs env ticket template files ccs sent)
    (sent_once sent) d.
Proof.
  revert sent. induction ccs as [|cc ccs IH]; intros sent Hnd; simpl.
  - apply dispatches_ret. by apply sent_once_nil; [|intros ? [= <-]].
  - apply dispatches_bind, dispatches_cc_email_address.
    intros [address|e]; [|by apply sent_once_nil].
    case_bool_decide as Hin; [by apply IH|].
    apply dispatches_bind, dispatches_send_from_queue.
    + intros sender.
      eapply dispatches_mono; [apply (IH (sent ++ [address]));
                               by apply NoDup_snoc|].
      intros r m [Hn Hr]. rewrite <- app_assoc in Hn. split; simpl; [exact Hn|].
      intros sent' E. rewrite (Hr _ E). by rewrite <- app_assoc.
    + by apply sent_once_nil.
Qed.

Lemma dispatches_get_db {B} (k : DB -> M B) (Q : Res B -> list Mail -> Prop) d :
  (forall o, k (with_outbox o d) = k d) ->
  dispatches (k d) Q d -> dispatches (get_db ≫= k) Q d.
Proof.
  intros Hk (r & m & HQ & Hc). exists r, m. split; [done|]. intros o.
  unfold mbind, M_bind, bind, get_db. by rewrite Hk, Hc.
Qed.

Lemma dispatches_notify_public public ticket f files d :
  dispatches (notify_public env public ticket f files []) (sent_once []) d.
Proof.
  unfold notify_public.
  destruct (public && _);
    [|by apply dispatches_ret, sent_once_nil; [constructor|intros ? [= <-]]].
  assert (Hccs : forall sent m1,
    NoDup sent -> m_recipients <$> m1 = sent ->
    dispatches
      (d0 ← get_db ;
       notify_ccs env ticket (template_prefix f +:+ "cc") files
         (ticketcc_set d0 ticket) sent)
      (fun r2 m2 => sent_once [] r2 (m1 ++ m2)) d).
  { intros sent m1 Hnd Hm1.
    apply (dispatches_get_db (fun d0 =>
      notify_ccs env ticket (template_prefix f +:+ "cc") files
        (ticketcc_set d0 ticket) sent)); [done|].
    eapply dispatches_mono; [by apply dispatches_notify_ccs|].
    intros r m [Hn Hr]. unfold sent_once. rewrite fmap_app, Hm1. simpl.
    split; [done|]. done. }
  apply dispatches_bind.
  destruct (truthy_ostr (t_submitter_email ticket)) eqn:Hs.
  - apply dispatches_bind, dispatches_send_from_queue;
      [|by apply sent_once_nil; [constructor|]].
    intros sender. apply dispatches_ret.
    refine (Hccs [t_submitter_email ticket]
              [mkMail (template_prefix f +:+ "submitter")
                 (t_submitter_email ticket) sender files] _ _);
      [apply NoDup_singleton|done].
  - apply dispatches_ret. refine (Hccs [] [] _ _); [constructor|done].
Qed.

Lemma dispatches_user_setting u key (Q : Res bool -> list Mail -> Prop) d :
  (forall r, Q r []) -> dispatches (user_setting u key) Q d.
Proof.
  intros H. unfold user_setting.
  destruct (u_settings u); [by apply dispatches_ret|by apply dispatches_raise].
Qed.

Lemma dispatches_notify_owner acting reassigned assigned ticket f files sent d :
  NoDup sent ->
  dispatches (notify_owner env acting reassigned assigned ticket f files sent)
    (sent_once sent) d.
Proof.
  intros Hnd. unfold notify_owner.
  assert (Hsame : forall r, (forall sent', r = Ok sent' -> sent' = sent) ->
                            sent_once sent r []) by by intros; apply sent_once_nil.
  destruct assigned as [[uid owner]|];
    [|by apply dispatches_ret, Hsame; intros ? [= <-]].
  destruct (negb _ && _ && negb (bool_decide (Some (u_email owner) ∈ sent)))
    eqn:Hc; [|by apply dispatches_ret, Hsame; intros ? [= <-]].
  apply andb_true_iff in Hc as [_ Hnew]. apply negb_true_iff in Hnew.
  apply bool_decide_eq_false in Hnew.
  assert (Hsend : forall wanted : bool,
    dispatches
      (if wanted then
         send_from_queue env ticket
           (if reassigned then "assigned_owner"
            else if bool_decide (f_new_status f = Some RESOLVED_STATUS)
                 then "resolved_owner"
            else if bool_decide (f_new_status f = Some CLOSED_STATUS)
                 then "closed_owner"
            else "updated_owner") (Some (u_email owner)) files ;;
         mret (sent ++ [Some (u_email owner)])
       else mret sent) (sent_once sent) d).
  { intros [|]; [|by apply dispatches_ret, Hsame; intros ? [= <-]].
    apply dispatches_bind, dispatches_send_from_queue; [|by apply Hsame].
    intros sender. apply dispatches_ret. split; simpl.
    - by apply NoDup_snoc.
    - by intros ? [= <-]. }
  apply dispatches_bind.
  assert (Hwanted : forall on_assign : bool,
    dispatches
      (wanted ←
         (if on_assign then mret true
          else if negb reassigned
               then user_setting owner "email_on_ticket_change"
               else mret false) ;
       if (wanted : bool) then
         send_from_queue env ticket
           (if reassigned then "assigned_owner"
            else if bool_decide (f_new_status f = Some RESOLVED_STATUS)
                 then "resolved_owner"
            else if bool_decide (f_new_status f = Some CLOSED_STATUS)
                 then "closed_owner"
            else "updated_owner") (Some (u_email owner)) files ;;
         mret (sent ++ [Some (u_email owner)])
       else mret sent) (sent_once sent) d).
  { intros on_assign. apply dispatches_bind.
    destruct on_assign; [apply dispatches_ret; exact (Hsend true)|].
    destruct (negb reassigned); [|apply dispatches_ret; exact (Hsend false)].
    apply dispatches_user_setting.
    intros [w|e]; [exact (Hsend w)|by apply Hsame]. }
  destruct (negb reassigned); [apply dispatches_ret; exact (Hwanted true)|].
  apply dispatches_user_setting.
  intros [w|e]; [exact (Hwanted w)|by apply Hsame].
Qed.

Lemma dispatches_notify_queue_cc reassigned ticket f files sent d :
  NoDup sent ->
  dispatches (notify_queue_cc env reassigned ticket f files sent)
    (fun _ mails => NoDup (sent ++ (m_recipients <$> mails))) d.
Proof.
  intros Hnd. unfold notify_queue_cc.
  apply dispatches_bind, dispatches_objects_get;
    [apply outbox_free_queues| |by rewrite app_nil_r].
  intros q _.
  destruct (truthy_ostr _ && negb (bool_decide (q_updated_ticket_cc q ∈ sent)))
    eqn:Hc; [|by apply dispatches_ret; rewrite app_nil_r].
  apply andb_true_iff in Hc as [_ Hnew]. apply negb_true_iff in Hnew.
  apply bool_decide_eq_false in Hnew.
  apply dispatches_send. simpl. by apply NoDup_snoc.
Qed.

Lemma dispatches_notify acting public reassigned assigned ticket f files d :
  dispatches (notify env acting public reassigned assigned ticket f files)
    (fun _ mails => NoDup (m_recipients <$> mails)) d.
Proof.
  unfold notify.
  apply dispatches_bind.
  eapply dispatches_mono; [apply dispatches_notify_public|].
  intros [sent1|e] m1 [Hn1 Hr1]; [|exact Hn1].
  specialize (Hr1 _ eq_refl). simpl in Hr1, Hn1. subst sent1.
  apply dispatches_bind.
  eapply dispatches_mono; [by apply dispatches_notify_owner|].
  intros [sent2|e] m2 [Hn2 Hr2]; [|by rewrite fmap_app].
  specialize (Hr2 _ eq_refl). subst sent2.
  eapply dispatches_mono; [by apply dispatches_notify_queue_cc|].
  intros r m3 Hn3. simpl in Hn3. by rewrite !fmap_app, app_assoc.
Qed.

End FanOut.

(** *** Nothing but the fan-out sends mail *)

(** [c] leaves the outbox as it is, whatever its outcome. *)
Definition outbox_same {A} (c : M A) : Prop :=
  forall d, db_outbox (c d).2 = db_outbox d.

(** [c] appends mails with pairwise distinct recipients to the outbox. *)
Definition posts_once {A} (c : M A) : Prop :=
  forall d, exists mails,
    db_outbox (c d).2 = db_outbox d ++ mails /\
    NoDup (m_recipients <$> mails).

Lemma outbox_same_ret {A} (a : A) : outbox_same (mret a).
Proof. done. Qed.
Lemma outbox_same_raise {A} e : outbox_same (raise (A:=A) e).
Proof. done. Qed.
Lemma outbox_same_get_db : outbox_same get_db.
Proof. done. Qed.
Lemma outbox_same_timezone_now : outbox_same timezone_now.
Proof. done. Qed.

Lemma outbox_same_bind {A B} (c : M A) (k : A -> M B) :
  outbox_same c -> (forall a, outbox_same (k a)) -> outbox_same (c ≫= k).
Proof.
  intros Hc Hk d. unfold mbind, M_bind, bind. specialize (Hc d).
  destruct (c d) as [[a|e] d1]; simpl in *; [|done]. by rewrite Hk.
Qed.

Lemma outbox_same_objects_get {A} (table : DB -> gmap Z A) k :
  outbox_same (objects_get table k).
Proof. intros d. unfold objects_get. by destruct (table d !! k). Qed.

Lemma outbox_same_try_except {A} (c h : M A) e :
  outbox_same c -> outbox_same h -> outbox_same (try_except c e h).
Proof.
  intros Hc Hh d. unfold try_except. specialize (Hc d).
  destruct (c d) as [[a|e'] d1]; simpl in *; [done|].
  case_bool_decide; [by rewrite Hh|done].
Qed.

Lemma outbox_same_modify (g : DB -> DB) :
  (forall d, db_outbox (g d) = db_outbox d) -> outbox_same (modify g).
Proof. intros H d. apply H. Qed.

Lemma outbox_same_Ticket_save uf cache t :
  outbox_same (Ticket_save uf cache t).
Proof.
  intros d. by destruct (Ticket_save_frame uf cache t d)
    as (_&_&_&_&_&_&_&_&_&_&->&_).
Qed.

Ltac outbox :=
  repeat first
    [ apply outbox_same_ret | apply outbox_same_raise | apply outbox_same_get_db
    | apply outbox_same_timezone_now | apply outbox_same_objects_get
    | apply outbox_same_Ticket_save
    | apply outbox_same_modify; reflexivity
    | apply outbox_same_bind; [|intros]
    | match goal with
      | |- outbox_same (if ?b then _ else _) => destruct b
      | |- outbox_same (match ?x with _ => _ end) => destruct x
      end ].

Lemma outbox_same_deref {A} (table : DB -> gmap Z A) fk :
  outbox_same (deref table fk).
Proof. unfold deref. outbox. Qed.

Lemma outbox_same_related_id {A} (table : DB -> gmap Z A) fk :
  outbox_same (related_id table fk).
Proof. unfold related_id. apply outbox_same_bind; [apply outbox_same_deref|done]. Qed.

Lemma outbox_same_get_or_none {A} (table : DB -> gmap Z A) k :
  outbox_same (get_or_none table k).
Proof. unfold get_or_none. outbox. Qed.

Lemma outbox_same_TicketChange_create f field old new :
  outbox_same (TicketChange_create f field old new).
Proof. unfold TicketChange_create. outbox. Qed.

Ltac outbox' :=
  repeat first
    [ apply outbox_same_deref | apply outbox_same_related_id
    | apply outbox_same_get_or_none | apply outbox_same_TicketChange_create
    | progress outbox ].

Lemma posts_once_bind_l {A B} (c : M A) (k : A -> M B) :
  outbox_same c -> (forall a, posts_once (k a)) -> posts_once (c ≫= k).
Proof.
  intros Hc Hk d. unfold mbind, M_bind, bind. specialize (Hc d).
  destruct (c d) as [[a|e] d1]; simpl in *.
  - destruct (Hk a d1) as (mails & E & Hn). exists mails. by rewrite E, Hc.
  - exists []. rewrite Hc, app_nil_r. split; [done|constructor].
Qed.

Lemma posts_once_bind_r {A B} (c : M A) (k : A -> M B) :
  posts_once c -> (forall a, outbox_same (k a)) -> posts_once (c ≫= k).
Proof.
  intros Hc Hk d. unfold mbind, M_bind, bind.
  destruct (Hc d) as (mails & E & Hn). exists mails.
  destruct (c d) as [[a|e] d1]; simpl in *; [|done]. by rewrite Hk.
Qed.

Lemma posts_once_same {A} (c : M A) : outbox_same c -> posts_once c.
Proof.
  intros Hc d. exists []. rewrite Hc, app_nil_r. split; [done|constructor].
Qed.

Section Invocation.
Context (env : Env).

Lemma posts_once_notify acting public reassigned assigned ticket f files :
  posts_once (notify env acting public reassigned assigned ticket f files).
Proof.
  intros d.
  destruct (dispatches_notify env acting public reassigned assigned ticket f
              files d) as (r & mails & Hn & E).
  exists mails. split; [|done].
  specialize (E (db_outbox d)).
  replace (with_outbox (db_outbox d) d) with d in E by by destruct d.
  by rewrite E.
Qed.

Lemma outbox_same_parse_POST req ticket : outbox_same (parse_POST env req ticket).
Proof. intros d. by rewrite parse_POST_state. Qed.

Lemma outbox_same_no_changes req p ticket : outbox_same (no_changes req p ticket).
Proof. intros d. by rewrite no_changes_state. Qed.

Lemma outbox_same_FollowUp_save public f ticket :
  outbox_same (FollowUp_save env public f ticket).
Proof. unfold FollowUp_save, BooleanField_to_python. outbox'. Qed.

Lemma outbox_same_add_ticket_changes p old_owner assigned st str f ticket :
  outbox_same (add_ticket_changes env p old_owner assigned st str f ticket).
Proof. unfold add_ticket_changes, when. outbox'. Qed.

Lemma posts_once_update_ticket_body req acting p ticket :
  posts_once (update_ticket_body env req acting p ticket).
Proof.
  unfold update_ticket_body.
  apply posts_once_bind_l; [unfold render_comment; outbox'|]. intros comment.
  apply posts_once_bind_l; [unfold resolve_owner_sentinel; outbox'|]. intros owner.
  apply posts_once_bind_l; [outbox'|]. intros now.
  apply posts_once_bind_l; [outbox'|]. intros f.
  apply posts_once_bind_l; [unfold assign_owner; outbox'|].
  intros [[[[t0 f0] re] old] new].
  apply posts_once_bind_l; [unfold change_status; outbox'|]. intros [t1 f1].
  apply posts_once_bind_l; [apply outbox_same_FollowUp_save|]. intros [f2 t2].
  apply posts_once_bind_l; [apply outbox_same_add_ticket_changes|]. intros t3.
  apply posts_once_bind_r; [apply posts_once_notify|]. intros _.
  outbox'.
Qed.

Lemma posts_once_update_ticket_run req ticket_id public :
  posts_once (update_ticket_run env req ticket_id public).
Proof.
  unfold update_ticket_run.
  apply posts_once_bind_l; [outbox'|]. intros d0.
  destruct (negb _); [apply posts_once_same; outbox'|].
  apply posts_once_bind_l.
  { apply outbox_same_try_except; outbox'. }
  intros ticket.
  apply posts_once_bind_l; [apply outbox_same_parse_POST|]. intros p.
  apply posts_once_bind_l; [apply outbox_same_no_changes|]. intros [|].
  - apply posts_once_same. outbox'.
  - apply posts_once_bind_r; [apply posts_once_update_ticket_body|].
    intros w. outbox'.
Qed.

(** X19: the fan-out of one invocation hands the mailer messages whose
    [recipients] arguments are pairwise distinct, whatever its outcome
    and whichever audiences share an address, and the messages are the
    same whatever the outbox held before: what was sent by an earlier
    invocation is not remembered.  No other step of [update_ticket]
    sends mail, so no two messages of one invocation have the same
    [recipients] argument.  (The argument of the queue-level copy is
    the whole field [updated_ticket_cc], a list of addresses.) *)
Theorem notification_deduplication :
  (forall acting public reassigned assigned ticket f files d,
     exists r mails,
       NoDup (m_recipients <$> mails) /\
       forall o,
         notify env acting public reassigned assigned ticket f files
           (with_outbox o d)
         = (r, with_outbox (o ++ mails) d)) /\
  (forall req ticket_id public d,
     exists mails,
       db_outbox (update_ticket_run env req ticket_id public d).2
       = db_outbox d ++ mails /\
       NoDup (m_recipients <$> mails)).
Proof.
  split.
  - intros. apply (dispatches_notify env).
  - intros. apply posts_once_update_ticket_run.
Qed.

End Invocation.

(** C4 (code bug): the queue sends a copy of its updates to Bob and to
    Alice, as [updated_ticket_cc] allows ("Separate multiple addresses
    with a comma").  Alice comments on Bob's ticket: Bob is sent the
    owner's message, and the copy for the queue goes out to the whole
    list, Bob included, because the addresses already written to are
    compared with the field as a whole. *)
Lemma queue_copy_repeats_the_assignee :
  let req := post_by_alice [("comment", "hello")] in
  exists response w d',
    update_ticket_run scenario_env req 1 false copied_db
      = (Ok (response, Some w), d') /\
    db_outbox d' =
      [mkMail "updated_owner" (Some "bob@example.com")
         "Support <support@example.com>" [];
       mkMail "updated_cc" (Some "bob@example.com,alice@example.com")
         "Support <support@example.com>" []] /\
    mail_addresses <$> db_outbox d' =
      [["bob@example.com"]; ["bob@example.com"; "alice@example.com"]].
Proof. eexists _, _, _. vm_compute. repeat split. Qed.

(** ** The change log of one invocation *)

Section ChangeLog.
Context (env : Env).

(** The fields an invocation logs, in the order of the rows: the title
    when a non-empty one is proposed that differs, the status, the
    priority, the due date and the four related objects when the
    proposed value differs, the owner when the assignment block changed
    the assignee. *)
Definition changed_fields (p : Proposed) (t : Ticket) (d : DB) : list string :=
  (if truthy_str (p_title p) && negb (bool_decide (p_title p = t_title t))
   then ["Title"] else []) ++
  (if negb (bool_decide (p_new_status p = t_status t)) then ["Status"] else []) ++
  (if negb (bool_decide
       (fst <$> lookup_obj (db_users d) (new_assignee (p_owner p) t)
        = fst <$> lookup_obj (db_users d) (t_assigned_to t)))
   then ["Owner"] else []) ++
  (if negb (bool_decide (p_priority p = t_priority t))
   then ["Priority"] else []) ++
  (if negb (bool_decide (p_due_date p = t_due_date t)) then ["Due on"] else []) ++
  (if negb (bool_decide (p_customer_contact_id p = t_customer_contact t))
   then ["Contact client"] else []) ++
  (if negb (bool_decide (p_customer_id p = t_customer t))
   then ["Client"] else []) ++
  (if negb (bool_decide (p_site_id p = t_site t)) then ["Site"] else []) ++
  (if negb (bool_decide (p_customer_product_id p = t_customer_product t))
   then ["Produit client"] else []).

Lemma opt_row_field b r :
  tc_field <$> opt_row b r = if b then [tc_field r] else [].
Proof. by destruct b. Qed.

Lemma opt_row_followup b r f :
  tc_followup r = f -> Forall (fun c => tc_followup c = f) (opt_row b r).
Proof. intros H. destruct b; repeat constructor. done. Qed.

Lemma expected_changes_fields p t d followup :
  tc_field <$> expected_changes env p t d followup = changed_fields p t d.
Proof.
  unfold expected_changes, changes_of, changed_fields.
  rewrite !fmap_app, !opt_row_field. reflexivity.
Qed.

Lemma expected_changes_followup p t d followup :
  Forall (fun c => tc_followup c = followup)
    (expected_changes env p t d followup).
Proof.
  unfold expected_changes, changes_of.
  repeat (apply Forall_app; split); by apply opt_row_followup.
Qed.

(** C3 (amended): an invocation that goes through the workflow appends
    to the change log exactly the rows of [expected_changes]: one row,
    bound to the follow-up of the invocation, for each of the
    [changed_fields], with the value the ticket displayed and the value
    proposed.  The ticket these are taken from is the stored one as its
    first save in the workflow leaves it ([settle]): priority 3 if it
    had none, and the customer of the [SimpleUserMail] that matches its
    submitter if it had no customer; that save comes before the
    comparisons.  The title is logged only when the one proposed is not
    empty; a related object is logged when the proposed key differs
    from the one the ticket holds, with [Unassigned] as the new value
    when the key names no row.  (A primary key is never 0.) *)
Theorem update_ticket_change_rows req ticket_id public d ticket p response w d' :
  db_tickets d !! ticket_id = Some ticket -> t_id ticket = Some ticket_id ->
  t_assigned_to ticket <> Some 0 ->
  parse_POST env req ticket d = (Ok p, d) ->
  update_ticket_run env req ticket_id public d = (Ok (response, Some w), d') ->
  let compared := settle d ticket in
  let rows := expected_changes env p compared d (f_id (w_followup w)) in
  db_ticketchanges d' = db_ticketchanges d ++ rows /\
  tc_field <$> rows = changed_fields p compared d /\
  length rows = length (changed_fields p compared d) /\
  Forall (fun c => tc_followup c = f_id (w_followup w)) rows.
Proof.
  intros Hrow Hid Hnz Hparse Hrun compared rows.
  split; [|split; [apply expected_changes_fields|split;
    [by rewrite <- (expected_changes_fields p compared d (f_id (w_followup w))),
          length_fmap|apply expected_changes_followup]]].
  refine (wp_run _
    (fun r d' => forall response w, r = Ok (response, Some w) ->
       db_ticketchanges d' =
       db_ticketchanges d
         ++ expected_changes env p (settle d ticket) d (f_id (w_followup w)))
    _ _ _ _ Hrun _ _ eq_refl).
  apply (wp_update_ticket_run env req ticket_id public ticket p);
    [done|done|by intros _ ? ? [=]|]. intros _.
  apply wp_bind, wp_no_changes. intros [[|]|e]; [| |by intros ? ? [=]].
  - apply wp_bind, wp_modify, wp_ret. by intros ? ? [=].
  - apply wp_bind.
    eapply wp_mono; [by apply (changes_body env req _ p ticket ticket_id d)|].
    intros [w0|e] d2 Hw; [|by intros ? ? [=]].
    apply wp_ret. intros resp w' [= _ <-]. by apply Hw.
Qed.

End ChangeLog.

(** C3 (as stated, refuted), twice.  Alice posts no title and the key
    99, which names no user, as the customer contact of a ticket that
    has none: two proposed fields differ from the stored ones and none
    of the ticket's fields changes, yet exactly one row is logged.  And
    Alice only comments on the ticket of Carol, whose address a
    [SimpleUserMail] gives to ACME: no tracked field is changed, yet
    the first save of the workflow gives the ticket that customer, the
    comparison that follows logs the customer as going from ACME to
    nobody, and the row stored at the end has ACME again. *)
Lemma change_rows_not_one_per_difference :
  (let req := post_by_alice [("customer_contact", "99")] in
   exists p response w d' stored,
     parse_POST scenario_env req printer scenario_db = (Ok p, scenario_db) /\
     update_ticket_run scenario_env req 1 false scenario_db
       = (Ok (response, Some w), d') /\
     p_title p <> t_title printer /\
     p_customer_contact_id p <> t_customer_contact printer /\
     db_tickets d' !! 1 = Some stored /\
     t_title stored = t_title printer /\
     t_customer_contact stored = t_customer_contact printer /\
     db_ticketchanges d' =
       [mkTicketChange (Some 1) "Contact client" "Unassigned" "Unassigned"]) /\
  (let req := post_by_alice [("comment", "hello")] in
   exists response w d' stored,
     update_ticket_run scenario_env req 1 false carol_is_a_customer
       = (Ok (response, Some w), d') /\
     db_tickets carol_is_a_customer !! 1 = Some printer /\
     t_customer printer = None /\
     db_ticketchanges d' =
       [mkTicketChange (Some 1) "Client" "ACME" "Unassigned"] /\
     db_tickets d' !! 1 = Some stored /\ t_customer stored = Some 1).
Proof.
  split.
  - eexists _, _, _, _, _. vm_compute. repeat split; discriminate.
  - eexists _, _, _, _. vm_compute. repeat split.
Qed.

(** ** The assignee's preference and the comment template *)

(** C5 (code bug): Bob, the assignee, has [email_on_ticket_change]
    switched off.  Alice comments on his ticket without reassigning it,
    and Bob is sent the [updated_owner] message all the same: the test
    [not reassigned or ...] holds before the preference is looked at. *)
Lemma assignee_notified_against_preference :
  let req := post_by_alice [("comment", "hello")] in
  user_setting bob "email_on_ticket_change" scenario_db
    = (Ok false, scenario_db) /\
  exists response w d',
    update_ticket_run scenario_env req 1 false scenario_db
      = (Ok (response, Some w), d') /\
    t_assigned_to (w_ticket w) = Some 2 /\ w_reassigned w = false /\
    db_users d' !! 2 = Some bob /\
    db_outbox d' =
      [mkMail "updated_owner" (Some "bob@example.com")
         "Support <support@example.com>" [];
       mkMail "updated_cc" (Some "alice@example.com")
         "Support <support@example.com>" []].
Proof. split; [done|]. eexists _, _, _. vm_compute. repeat split. Qed.

(** C6 (code bug): a comment that holds an opener without its closer is
    turned into a template with a [verbatim] block that nothing closes.
    The engine refuses it, and the invocation ends on
    [TemplateSyntaxError] with nothing stored, instead of a follow-up
    showing the opener. *)
Lemma unclosed_opener_is_not_rendered :
  let req := post_by_alice [("comment", "{%")] in
  neutralize_comment "{%" = "{% verbatim %}{%" /\
  Template.tokenize (neutralize_comment "{%")
    = [Template.TBlock "verbatim"; Template.TText "{%"] /\
  update_ticket_run scenario_env req 1 false scenario_db
    = (Raise TemplateSyntaxError, scenario_db).
Proof. vm_compute. repeat split. Qed.

(** A directive with both delimiters comes out as it was written, next
    to the variable the context provides. *)
Lemma closed_directive_is_literal :
  render_comment scenario_env printer "a {% now %} b {{ ticket.title }}"
    scenario_db
  = (Ok "a {% now %} b Printer", scenario_db).
Proof. vm_compute. reflexivity. Qed.

(** ** [quick_update_ticket] *)

#[local] Arguments Model_save : simpl never.
#[local] Arguments read_merge_values : simpl never.
#[local] Arguments merged_tickets_update : simpl never.
#[local] Arguments Ticket_save : simpl never.

(** A save of a stored ticket, by an instance that keeps no customer
    from before an assignment, comes down to the framework's save of
    the ticket [s], run from a store [d4] with the same tickets and
    followed by the propagation to the merged tickets; it raises before
    that when the customer of the ticket is missing. *)
Lemma Ticket_save_stored cache self d k :
  t_id self = Some k -> cached cache "customer" = None ->
  exists s d4,
    (forall update_fields,
       Ticket_save update_fields cache self d =
       if fk_ok (db_customers d) (matched_customer d self)
       then (s' ← Model_save update_fields s ;
             values ← read_merge_values cache (t_customer s) s' ;
             merged_tickets_update s' values ;; ret s') d4
       else (Raise DoesNotExist, d4)) /\
    same_tables d d4 /\ db_tickets d4 = db_tickets d /\
    same_columns self s /\ t_id s = Some k /\
    t_customer s = matched_customer d self.
Proof.
  intros Hid Hcache.
  destruct (Ticket_save_prepare self d)
    as (s3 & d1 & Heq & T1 & C1 & K1 & I1 & _ & U1 & N1 & _).
  assert (Hsum1 : db_simple_user_mails d1 = db_simple_user_mails d)
    by by apply N1; rewrite Hid.
  assert (Hcu1 : db_customers d1 = db_customers d) by apply T1.
  assert (Hem : t_submitter_email s3 = t_submitter_email self) by apply C1.
  assert (Hrest : forall uf,
    save_rest uf cache s3 d1 =
    if fk_ok (db_customers d1) (t_customer s3)
    then (save_update_simple_user_mail (t_customer s3) s3 ;;
          '(self0, customer) ← save_match_customer (t_customer s3) s3 ;
          s' ← Model_save uf self0 ;
          values ← read_merge_values cache customer s' ;
          merged_tickets_update s' values ;; ret s') d1
    else (Raise DoesNotExist, d1)).
  { intros uf. unfold save_rest. unfold mbind, M_bind, bind at 1.
    rewrite related_run. unfold seen_ok, seen_key. rewrite Hcache. simpl.
    by destruct (fk_ok (db_customers d1) (t_customer s3)). }
  destruct (t_customer self) as [c|] eqn:Hcust.
  - (* the ticket has a customer *)
    destruct (save_update_simple_user_mail_run (Some c) s3 d1)
      as (d4 & E5 & T5 & K5 & _).
    assert (Hm : matched_customer d self = Some c)
      by by unfold matched_customer; rewrite Hcust.
    rewrite Hm. cbn [fk_ok].
    destruct (db_customers d !! c) eqn:Hc; cbn [is_some].
    + exists s3, d4. split; [|split; [by eapply same_tables_trans|]].
      2:{ split; [congruence|]. split; [done|]. split; congruence. }
      intros uf. rewrite Heq, Hrest, U1, Hcu1. cbn [fk_ok]. rewrite Hc.
      cbn [is_some]. unfold mbind, M_bind, bind at 1. rewrite E5.
      unfold bind at 1. rewrite save_match_customer_run. done.
    + exists s3, d1. split; [|split; [done|]].
      2:{ split; [done|]. split; [done|]. split; congruence. }
      intros uf. rewrite Heq, Hrest, U1, Hcu1. cbn [fk_ok]. by rewrite Hc.
  - (* it has none *)
    assert (E5 : save_update_simple_user_mail None s3 d1 = (Ok tt, d1)) by done.
    assert (Hm : matched_customer d self
                 = match simple_user_mail d1 (t_submitter_email s3) with
                   | Some (Some c) => Some c
                   | _ => None
                   end).
    { unfold matched_customer, simple_user_mail.
      rewrite Hcust, Hem, Hsum1. by repeat case_match. }
    assert (Hrun : forall uf,
      Ticket_save uf cache self d =
      ('(self0, customer) ← save_match_customer None s3 ;
       s' ← Model_save uf self0 ;
       values ← read_merge_values cache customer s' ;
       merged_tickets_update s' values ;; ret s') d1).
    { intros uf. rewrite Heq, Hrest, U1. cbn [fk_ok].
      unfold mbind, M_bind, bind at 1. by rewrite E5. }
    rewrite Hm.
    destruct (simple_user_mail d1 (t_submitter_email s3)) as [[c|]|] eqn:Hl.
    + exists (set_customer (Some c) s3), d1.
      split; [|split; [done|split; [done|]]].
      2:{ split; [|split; [simpl; congruence|done]].
          destruct C1 as (?&?&?&?&?&?&?&?&?&?&?&?&?&?&?).
          unfold same_columns; unfold_set; simpl. by repeat split. }
      intros uf. rewrite Hrun. unfold mbind, M_bind, bind at 1.
      rewrite save_match_customer_run, Hl, Hcu1. cbn [fk_ok].
      by destruct (db_customers d !! c).
    + exists s3, d1. split; [|split; [done|split; [done|]]].
      2:{ split; [done|]. split; [congruence|congruence]. }
      intros uf. rewrite Hrun. unfold mbind, M_bind, bind at 1.
      by rewrite save_match_customer_run, Hl, U1.
    + exists s3, d1. split; [|split; [done|split; [done|]]].
      2:{ split; [done|]. split; [congruence|congruence]. }
      intros uf. rewrite Hrun. unfold mbind, M_bind, bind at 1.
      by rewrite save_match_customer_run, Hl, U1.
Qed.

Section QuickUpdate.
Context (env : Env).









End QuickUpdate.

(** C8 (code bug): the field [assigned_to] is not one of category, type
    and billing, yet the request is answered with a success payload and
    the ticket, which was Bob's, is now Alice's: the only test on the
    name is [hasattr], which every column passes. *)
Lemma quick_update_accepts_other_fields :
  let req := post_by_alice [("field", "assigned_to"); ("value", "1")] in
  exists d' stored,
    quick_update_ticket scenario_env req 1 scenario_db
      = (Ok (JsonResponse [("success", JBool true)]), d') /\
    db_tickets scenario_db !! 1 = Some printer /\
    t_assigned_to printer = Some 2 /\
    db_tickets d' !! 1 = Some stored /\
    t_assigned_to stored = Some 1.
Proof. eexists _, _. vm_compute. repeat split. Qed.

(** The related object kept by [hasattr] is the one the propagation
    uses: Alice sets the type of ticket 1, which had none, and ticket 2,
    merged into it, is given no type. *)
Lemma quick_update_propagates_the_former_type :
  let req := post_by_alice [("field", "type"); ("value", "2")] in
  exists response d' target merged,
    quick_update_ticket scenario_env req 1 scenario_db = (Ok response, d') /\
    db_tickets d' !! 1 = Some target /\ t_type target = Some 2 /\
    db_tickets d' !! 2 = Some merged /\ t_merged_to merged = Some 1 /\
    t_type merged = None.
Proof. eexists _, _, _, _. vm_compute. repeat split. Qed.

(** ** Saved queries *)

Lemma char_sextet_char x : char_sextet (sextet_char x) = Some x.
Proof. by destruct x as [[[[[[] []] []] []] []] []]. Qed.

Lemma sextet_char_not_pad x : sextet_char x <> "="%char.
Proof. by destruct x as [[[[[[] []] []] []] []] []]. Qed.

Lemma string_app_cons c (s t : string) : String c s +:+ t = String c (s +:+ t).
Proof. reflexivity. Qed.

Lemma string_app_nil (s : string) : s +:+ "" = s.
Proof.
  induction s as [|c s IH]; [done|]. by rewrite string_app_cons, IH.
Qed.

Lemma string_app_assoc (s1 s2 s3 : string) :
  (s1 +:+ s2) +:+ s3 = s1 +:+ (s2 +:+ s3).
Proof.
  induction s1 as [|c s1 IH]; [done|]. by rewrite !string_app_cons, IH.
Qed.

Lemma sextets_chars_of xs tail :
  sextets (chars_of xs +:+ tail) = xs ++ sextets tail.
Proof.
  induction xs as [|x xs IH]; [done|]. simpl.
  rewrite bool_decide_eq_false_2 by apply sextet_char_not_pad.
  by rewrite char_sextet_char, IH.
Qed.

Lemma decode4_encode3 a b c :
  let '(x1, x2, x3, x4) := encode3 a b c in decode4 x1 x2 x3 x4 = (a, b, c).
Proof. by destruct a, b, c. Qed.

Lemma decode_to_sextets s : decode_sextets (to_sextets s) = Some s.
Proof.
  assert (H : forall n s, (String.length s <= n)%nat ->
                          decode_sextets (to_sextets s) = Some s).
  { clear s. induction n as [|n IH]; intros s Hn.
    - destruct s; [done|simpl in Hn; lia].
    - destruct s as [|a [|b [|c rest]]]; [done|by destruct a|by destruct a, b|].
      destruct a, b, c. simpl. rewrite IH; [done|]. simpl in Hn. lia. }
  by apply (H (String.length s)).
Qed.

(** Decoding undoes encoding, also when a quote follows the text. *)
Lemma b64decode_b64encode s tail :
  tail = "" \/ tail = "'" -> b64decode (b64encode s +:+ tail) = Some s.
Proof.
  intros Htail. unfold b64decode, b64encode.
  rewrite string_app_assoc, sextets_chars_of.
  assert (Hpad : sextets (padding s +:+ tail) = []).
  { unfold padding.
    destruct (String.length s mod 3)%nat as [|[|[|n]]];
      destruct Htail as [-> | ->]; done. }
  rewrite Hpad, app_nil_r. apply decode_to_sextets.
Qed.

(** The text of a JSON object is encoded to a text that starts with an
    [e]. *)
Lemma b64encode_object rest :
  exists text, b64encode (String "{" rest) = String "e" text.
Proof.
  unfold b64encode. destruct rest as [|b [|c rest]]; simpl.
  - eauto.
  - destruct b. simpl. eauto.
  - destruct b, c. simpl. eauto.
Qed.

Section SavedQueryClaims.
Context (json_dumps : FilterSpec -> string)
        (json_loads : string -> option FilterSpec).

(** C9: a specification whose JSON text is an object that [json.loads]
    reads back is recovered from the text offered for saving, both as
    it is and within the [b'...'] a byte string is shown with; and
    whatever is stored, reading it yields a specification or the
    redirect to the list, the redirect whenever the text is no base64
    or what it decodes to is no JSON. *)
Theorem saved_query_round_trip query_params rest user shared :
  json_dumps query_params = String "{" rest ->
  json_loads (json_dumps query_params) = Some query_params ->
  saved_query_params json_loads
    (mkSavedSearch user shared (urlsafe_query json_dumps query_params))
  = inr query_params /\
  saved_query_params json_loads
    (mkSavedSearch user shared
       ("b'" +:+ urlsafe_query json_dumps query_params +:+ "'"))
  = inr query_params /\
  (forall saved_query,
     match b64decode (lstrip ["b"; "\"; "'"]%char (ss_query saved_query)) with
     | Some text => json_loads text = None
     | None => True
     end ->
     saved_query_params json_loads saved_query = inl RedirectList).
Proof.
  intros Hobj Hloads. unfold saved_query_params, urlsafe_query. simpl.
  destruct (b64encode_object rest) as [text Htext].
  rewrite Hobj, Htext. simpl. rewrite <- Htext, <- Hobj.
  split; [|split].
  - pose proof (b64decode_b64encode (json_dumps query_params) "" (or_introl eq_refl))
      as H.
    rewrite string_app_nil in H. by rewrite H, Hloads.
  - rewrite <- string_app_cons, <- Htext, <- Hobj.
    by rewrite (b64decode_b64encode (json_dumps query_params) "'"
                  (or_intror eq_refl)), Hloads.
  - intros saved_query H.
    destruct (b64decode _) as [text'|]; [|done]. by rewrite H.
Qed.

End SavedQueryClaims.

(** C9 at work: the default query, with a JSON codec that knows its
    text only. *)
Lemma saved_query_round_trip_witness :
  let default_query := mkFilterSpec [("status__in", [1; 2; 3])]
                         (Some "created") true None in
  let dumps (_ : FilterSpec) := "{}" in
  let loads (text : string) :=
    if bool_decide (text = "{}") then Some default_query else None in
  urlsafe_query dumps default_query = "e30=" /\
  saved_query_params loads (mkSavedSearch 1 false "e30=") = inr default_query /\
  saved_query_params loads (mkSavedSearch 1 false "b'e30='")
  = inr default_query.
Proof.
  cbv zeta.
  destruct (saved_query_round_trip (fun _ => "{}")
              (fun text => if bool_decide (text = "{}")
                           then Some (mkFilterSpec [("status__in", [1; 2; 3])]
                                        (Some "created") true None)
                           else None)
              (mkFilterSpec [("status__in", [1; 2; 3])] (Some "created") true
                 None) "}" 1 false) as (H1 & H2 & _);
    [reflexivity|by vm_compute|].
  split; [by vm_compute|]. split; [exact H1|exact H2].
Defined.

(** ** Further properties of [Ticket.save] *)

(** X1: a save writes tickets and [SimpleUserMail] rows only, whichever
    [update_fields] it is given and whatever related objects the
    instance keeps: users, queues, customers, sites, products,
    categories, types, CC entries, follow-ups and their sequence,
    change log, outbox and messages are what they were, and the clock
    has not gone back, whether the save returns or raises. *)
Theorem Ticket_save_writes_tickets_only (update_fields : option (list string))
    (cache : Cache) (self : Ticket) (d : DB) :
  same_tables d (Ticket_save update_fields cache self d).2.
Proof. apply Ticket_save_frame. Qed.

(** X2: the ticket a save returns never has its priority unset (3 is the
    default), whichever [update_fields] the save is given; when the
    instance keeps no customer from before an assignment, its customer
    is its own or, if it had none, the one of the [SimpleUserMail] that
    matches its submitter; and after a save without [update_fields], by
    an instance that keeps no related object, it is the row stored
    under its key. *)
Theorem Ticket_save_fills_defaults update_fields cache self d self' d' :
  Ticket_save update_fields cache self d = (Ok self', d') ->
  t_priority self' <> 0 /\
  (t_priority self <> 0 -> t_priority self' = t_priority self) /\
  (cached cache "customer" = None ->
   t_customer self' = matched_customer d self) /\
  (update_fields = None -> cache = [] ->
   exists pk, t_id self' = Some pk /\ db_tickets d' !! pk = Some self').
Proof.
  intros Hrun.
  destruct (Ticket_save_defaults _ _ _ _ _ _ Hrun) as [Hprio Hcust].
  rewrite Hprio. split; [by case_bool_decide|].
  split; [by intros Hp; rewrite bool_decide_eq_false_2|].
  split; [exact Hcust|]. intros -> ->.
  destruct (Ticket_save_None_outcome self d) as (r & d0 & E & _ & Hr).
  rewrite Hrun in E. injection E as <- <-.
  destruct Hr as (_ & pk & _ & Hid & _ & Hrow & _). eauto.
Qed.

(** X3: the status rules of a save settle the two dates: applied to
    their own result they change nothing and do not read the clock. *)
Theorem save_status_dates_idempotent self d self' d' :
  save_status_dates self d = (Ok self', d') ->
  save_status_dates self' d' = (Ok self', d').
Proof.
  assert (Hcases : t_status self = OPEN_STATUS \/ t_status self = REOPENED_STATUS
                   \/ t_status self = RESOLVED_STATUS
                   \/ t_status self = CLOSED_STATUS
                   \/ t_status self = DUPLICATE_STATUS
                   \/ (t_status self <> OPEN_STATUS
                       /\ t_status self <> REOPENED_STATUS
                       /\ t_status self <> RESOLVED_STATUS
                       /\ t_status self <> CLOSED_STATUS
                       /\ t_status self <> DUPLICATE_STATUS)).
  { unfold OPEN_STATUS, REOPENED_STATUS, RESOLVED_STATUS, CLOSED_STATUS,
      DUPLICATE_STATUS. lia. }
  unfold save_status_dates, status_in, timezone_now, mbind, M_bind, bind, ret.
  cbn [existsb].
  destruct (t_resolved self) as [r|] eqn:Hr, (t_closed self) as [c|] eqn:Hc;
    destruct Hcases as [H|[H|[H|[H|[H|(H1 & H2 & H3 & H4 & H5)]]]]];
    try (rewrite !H);
    try (rewrite !(bool_decide_eq_false_2 (t_status self = _)) by done);
    simpl; intros Heq; injection Heq as <- <-;
    unfold set_resolved, set_closed; simpl;
    rewrite ?Hr, ?Hc; try (rewrite !H);
    try (rewrite !(bool_decide_eq_false_2 (t_status self = _)) by done);
    reflexivity.
Qed.

(** ** Further properties of [update_ticket] *)

Section Requests.
Context (env : Env).

Lemma post_int_run req key dflt d :
  post_int env req key dflt d =
  (match r_POST req !! key with
   | Some s => match py_int env s with
               | Some n => Ok n
               | None => Raise ValueError
               end
   | None => Ok dflt
   end, d).
Proof.
  unfold post_int, int_of. destruct (r_POST req !! key) as [s|]; [|done].
  by destruct (py_int env s).
Qed.

(** X7: a status, an owner or a priority that is no integer ends the
    request on [ValueError] before anything is stored. *)
Theorem update_ticket_rejects_bad_integer req ticket_id public d ticket key s :
  may_update env public (request_user d req) = true ->
  db_tickets d !! ticket_id = Some ticket ->
  key ∈ ["new_status"; "owner"; "priority"] ->
  r_POST req !! key = Some s -> py_int env s = None ->
  update_ticket env req ticket_id public d = (Raise ValueError, d).
Proof.
  intros Hmay Hrow Hkey Hs Hint.
  assert (Hparse : parse_POST env req ticket d = (Raise ValueError, d)).
  { unfold parse_POST. unfold mbind, M_bind, bind. rewrite !post_int_run.
    apply elem_of_cons in Hkey as [->|Hkey]; [by rewrite Hs, Hint|].
    destruct (r_POST req !! "new_status") as [s1|];
      [destruct (py_int env s1); [|done]|].
    all: apply elem_of_cons in Hkey as [->|Hkey]; [by rewrite Hs, Hint|].
    all: destruct (r_POST req !! "owner") as [s2|];
      [destruct (py_int env s2); [|done]|].
    all: apply list_elem_of_singleton in Hkey as ->; by rewrite Hs, Hint. }
  unfold update_ticket, update_ticket_run.
  unfold mbind, M_bind, bind, get_db. rewrite Hmay. simpl.
  by rewrite (get_ticket_found _ _ _ Hrow), Hparse.
Qed.

(** X8: an owner key that names no user ends the request on
    [DoesNotExist] before anything is stored. *)
Theorem update_ticket_unknown_owner req ticket_id public d ticket p :
  may_update env public (request_user d req) = true ->
  db_tickets d !! ticket_id = Some ticket ->
  parse_POST env req ticket d = (Ok p, d) ->
  p_owner p <> -1 -> p_owner p <> 0 -> db_users d !! p_owner p = None ->
  update_ticket env req ticket_id public d = (Raise DoesNotExist, d).
Proof.
  intros Hmay Hrow Hparse H1 H0 Huser.
  assert (Hno : no_changes req p ticket d = (Raise DoesNotExist, d)).
  { unfold no_changes. unfold mbind, M_bind, bind. rewrite !related_id_run.
    repeat (match goal with |- context [fk_ok ?t ?k] => destruct (fk_ok t k) end;
            [|done]).
    rewrite !(bool_decide_eq_false_2 (p_owner p = _)) by done.
    unfold objects_get. by rewrite Huser. }
  unfold update_ticket, update_ticket_run.
  unfold mbind, M_bind, bind, get_db. rewrite Hmay. simpl.
  by rewrite (get_ticket_found _ _ _ Hrow), Hparse, Hno.
Qed.

End Requests.

(** ** Further properties of the workflow *)

Section Workflow2.
Context (env : Env).

(** The follow-ups and their sequence. *)
Definition followups_same (d d' : DB) : Prop :=
  db_followups d' = db_followups d /\
  db_followup_seq d' = db_followup_seq d.

Lemma followups_same_trans d1 d2 d3 :
  followups_same d1 d2 -> followups_same d2 d3 -> followups_same d1 d3.
Proof. intros [? ?] [? ?]. split; congruence. Qed.

Lemma same_tables_followups d d' : same_tables d d' -> followups_same d d'.
Proof. intros (_&_&_&_&_&_&_&_&Hf&_&_&_&_&Hs). by split. Qed.

Lemma saved_followups k t d t' d' :
  saved k t d t' d' -> followups_same d d' /\ t_id t' = Some k.
Proof.
  intros (HT & _ & Hid & _). split; [by apply same_tables_followups|done].
Qed.

(** What an invocation does to the follow-ups: one is added, the one
    handed back, with the key the sequence gives and the [public] value
    converted to a boolean; or the workflow stopped with at most one
    added. *)
Definition one_followup (k : Z) (p : Proposed) (d : DB) (r : Res Workflow)
    (d' : DB) : Prop :=
  match r with
  | Ok w => db_followups d' = db_followups d ++ [w_followup w] /\
            db_followup_seq d' = db_followup_seq d + 1 /\
            f_ticket (w_followup w) = Some k /\
            f_id (w_followup w) = Some (db_followup_seq d) /\
            public_column (p_public p) = Some (f_public (w_followup w))
  | Raise _ => followups_same d d' \/
               exists f, db_followups d' = db_followups d ++ [f]
  end.

Lemma followup_body req acting p ticket k d :
  t_id ticket = Some k ->
  wp (update_ticket_body env req acting p ticket) (one_followup k p d) d.
Proof.
  intros Hid. unfold update_ticket_body.
  apply wp_bind, wp_render_comment; [|by left]. intros comment _.
  apply wp_bind, wp_resolve_owner_sentinel; [|by left].
  apply wp_bind, wp_timezone_now.
  set (d1 := with_clock (db_clock d + 1) d).
  set (f0 := mkFollowUp None (t_id ticket) (db_clock d) None comment false
               None None).
  assert (Hbody : forall user,
    let f1 := mkFollowUp (f_id f0) (f_ticket f0) (f_date f0) (f_title f0)
                (f_comment f0) (truthy_ostr (p_public p)) user
                (f_new_status f0) in
    wp ('(ticket0, f, reassigned, old_owner, assigned) ←
          assign_owner (resolved_owner (p_owner p) ticket) ticket f1 ;
        '(ticket1, f2) ← change_status (p_new_status p) ticket0 f ;
        '(f3, ticket2) ← FollowUp_save env (p_public p) (default_title f2)
                           ticket1 ;
        ticket3 ← add_ticket_changes env p old_owner assigned
                    (t_status ticket0) (get_status_display ticket0) f3 ticket2 ;
        notify env acting (truthy_ostr (p_public p)) reassigned assigned
          (set_resolution_text (p_new_status p) comment ticket3) f3
          (process_attachments f3 req) ;;
        ticket4 ← Ticket_save None []
                    (set_resolution_text (p_new_status p) comment ticket3) ;
        mret (mkWorkflow ticket4 f3 reassigned))
      (one_followup k p d) d1).
  { intros user f1.
    apply wp_bind, wp_assign_owner; [|by left].
    intros f' _ _ _. simpl.
    set (t0 := set_assigned_to
                 (new_assignee (resolved_owner (p_owner p) ticket) ticket)
                 ticket).
    set (re := is_reassigned (resolved_owner (p_owner p) ticket) ticket).
    set (old := lookup_obj (db_users d) (t_assigned_to ticket)).
    set (new := lookup_obj (db_users d)
                  (new_assignee (resolved_owner (p_owner p) ticket) ticket)).
    assert (Hid0 : t_id t0 = Some k) by done. clearbody t0 re old new.
    assert (Hstatus : forall t1 f2 d2 st str,
      t_id t1 = Some k -> followups_same d d2 ->
      wp ('(f3, ticket2) ← FollowUp_save env (p_public p) (default_title f2)
                             t1 ;
          ticket3 ← add_ticket_changes env p old new st str f3 ticket2 ;
          notify env acting (truthy_ostr (p_public p)) re new
            (set_resolution_text (p_new_status p) comment ticket3) f3
            (process_attachments f3 req) ;;
          ticket4 ← Ticket_save None []
                      (set_resolution_text (p_new_status p) comment ticket3) ;
          mret (mkWorkflow ticket4 f3 re))
        (one_followup k p d) d2).
    { intros t1 f2 d2 st str Hid1 Hfu2.
      apply wp_bind, (wp_FollowUp_save env k); [done| |by left| |].
      2:{ intros e d3 [HT _]. left.
          eapply followups_same_trans; [exact Hfu2|].
          by apply same_tables_followups. }
      2:{ intros t2 d3 Hsaved _. left.
          eapply followups_same_trans; [exact Hfu2|].
          by destruct (saved_followups _ _ _ _ _ Hsaved). }
      intros t2 d3 b Hsaved Hb. simpl.
      destruct (saved_followups _ _ _ _ _ Hsaved) as [Hfu3 Hid2].
      destruct (followups_same_trans _ _ _ Hfu2 Hfu3) as [Hf3 Hs3].
      set (f3 := stored_followup (default_title f2) b k d3).
      set (d4 := followed d3 f3).
      assert (Hfu4 : db_followups d4 = db_followups d ++ [f3] /\
                     db_followup_seq d4 = db_followup_seq d + 1 /\
                     f_id f3 = Some (db_followup_seq d)).
      { subst d4 f3. simpl. by rewrite Hf3, Hs3. }
      destruct Hfu4 as (Hfu4 & Hseq4 & Hkey).
      apply wp_bind, wp_add_ticket_changes;
        [|by intros rows _; right; exists f3].
      intros t3 (Hid3 & _).
      apply wp_bind, wp_notify. intros r mails.
      destruct r as [[]|e]; [|by right; exists f3].
      apply wp_bind, (wp_Ticket_save_saved k).
      { destruct (set_resolution_text_kept (p_new_status p) comment t3)
          as [-> _]. congruence. }
      2:{ intros e5 d7 [HT _]. right. exists f3.
          destruct (same_tables_followups _ _ HT) as [-> _]. done. }
      intros t5 d7 Hsaved5. apply wp_ret. simpl.
      destruct (saved_followups _ _ _ _ _ Hsaved5) as [[-> ->] _].
      by repeat split. }
    apply wp_bind, (wp_change_status k); [done| | |].
    - intros _. exact (Hstatus t0 _ d1 _ _ Hid0 (conj eq_refl eq_refl)).
    - intros t1 d2 Hne Hsaved.
      destruct (saved_followups _ _ _ _ _ Hsaved) as [[Hfu Hsq] Hid1].
      refine (Hstatus _ _ _ _ _ Hid1 _). by split; simpl; rewrite ?Hfu, ?Hsq.
    - intros e d2 [HT _]. left. by apply same_tables_followups in HT. }
  destruct (user_is_staff acting || HELPDESK_ALLOW_NON_STAFF_TICKET_UPDATE env).
  - destruct acting as [[uid u]|].
    + apply wp_bind, wp_ret. apply Hbody.
    + apply wp_bind, wp_raise. by left.
  - apply wp_bind, wp_ret. apply Hbody.
Qed.

(** X9: an invocation that goes through the workflow stores exactly one
    follow-up, the one it hands on: bound to the ticket, with the key
    the sequence of the table gives, which moves on by one, and with
    the [public] value of the request converted to a boolean; an
    invocation that finds nothing to change stores none. *)
Theorem update_ticket_stores_one_followup req ticket_id public d ticket p
    response outcome d' :
  db_tickets d !! ticket_id = Some ticket -> t_id ticket = Some ticket_id ->
  parse_POST env req ticket d = (Ok p, d) ->
  update_ticket_run env req ticket_id public d = (Ok (response, outcome), d') ->
  match outcome with
  | Some w =>
      db_followups d' = db_followups d ++ [w_followup w] /\
      db_followup_seq d' = db_followup_seq d + 1 /\
      f_ticket (w_followup w) = Some ticket_id /\
      f_id (w_followup w) = Some (db_followup_seq d) /\
      public_column (p_public p) = Some (f_public (w_followup w))
  | None =>
      db_followups d' = db_followups d /\
      db_followup_seq d' = db_followup_seq d
  end.
Proof.
  intros Hrow Hid Hparse Hrun.
  refine (wp_run _
    (fun r d' => forall response outcome, r = Ok (response, outcome) ->
       match outcome with
       | Some w => one_followup ticket_id p d (Ok w) d'
       | None => followups_same d d'
       end) _ _ _ _ Hrun _ _ eq_refl).
  apply (wp_update_ticket_run env req ticket_id public ticket p);
    [done|done|by intros _ ? ? [= <- <-]|]. intros _.
  apply wp_bind, wp_no_changes. intros [[|]|e]; [| |by intros ? ? [=]].
  - apply wp_bind, wp_modify, wp_ret. by intros ? ? [= <- <-].
  - apply wp_bind.
    eapply wp_mono; [by apply (followup_body req _ p ticket ticket_id d)|].
    intros [w0|e] d2 Hw; [|by intros ? ? [=]].
    apply wp_ret. by intros resp w' [= _ <-].
Qed.

(** X11: when the ticket was not reassigned, an assignee with an
    address not yet sent to, who is not the one updating, is sent the
    message of the event whatever their preferences are: the settings
    are not read. *)
Theorem assignee_mailed_whatever_the_preferences acting uid owner ticket f
    files sent d q :
  user_id acting <> Some uid -> u_email owner <> "" ->
  Some (u_email owner) ∉ sent ->
  db_queues d !! t_queue ticket = Some q ->
  notify_owner env acting false (Some (uid, owner)) ticket f files sent d
  = (Ok (sent ++ [Some (u_email owner)]),
     with_outbox
       (db_outbox d ++ [mkMail (template_prefix f +:+ "owner")
                          (Some (u_email owner)) (from_address env q) files])
       d).
Proof.
  intros Hacting Hemail Hsent Hq. unfold notify_owner.
  rewrite (bool_decide_eq_false_2 _ Hacting).
  rewrite (bool_decide_eq_false_2 _ Hsent).
  assert (Ht : truthy_str (u_email owner) = true).
  { unfold truthy_str. by rewrite bool_decide_eq_false_2. }
  rewrite Ht. simpl.
  unfold send_from_queue, send_templated_mail, objects_get. unfold_m.
  rewrite Hq. unfold template_prefix.
  by repeat case_bool_decide.
Qed.

End Workflow2.

(** ** Further properties of [quick_update_ticket], of the saved
       queries and of the comment *)

#[local] Arguments Model_save : simpl never.
#[local] Arguments Ticket_save : simpl never.

Section QuickUpdate2.
Context (env : Env).

(** X13: naming an attribute of the ticket that is no column (a method,
    a property, a reverse relation, or the primary key) passes the
    [hasattr] test and then fails in the save, which refuses the name as
    an update field: the request ends on [ValueError], the ticket's row
    being as it was.  (The save reads the customer of the ticket before
    that: were it missing, the request would end there, on
    [DoesNotExist].) *)
Theorem quick_update_of_non_column_raises req ticket_id d ticket field s value :
  r_is_ajax req = true -> db_tickets d !! ticket_id = Some ticket ->
  t_id ticket = Some ticket_id ->
  r_POST req !! "field" = Some field -> field <> "" ->
  r_POST req !! "value" = Some s -> py_int env s = Some value ->
  is_update_field field = false ->
  field = "id" \/ ticket_attribute env field = true ->
  exists d',
    quick_update_ticket env req ticket_id d =
      (Raise (if fk_ok (db_customers d) (matched_customer d ticket)
              then ValueError else DoesNotExist), d') /\
    db_tickets d' = db_tickets d.
Proof.
  intros Hajax Hrow Hid Hfield Hne Hvalue Hint Hup Hattr.
  assert (Htruthy : truthy_str field = true).
  { unfold truthy_str. by rewrite bool_decide_eq_false_2. }
  assert (Hnot : forall name, is_update_field name = true -> field <> name).
  { intros name Hn ->. congruence. }
  assert (Hfk : foreign_key d ticket field = None).
  { unfold foreign_key.
    by rewrite !(bool_decide_eq_false_2 (field = _)) by by apply Hnot. }
  assert (Hhas : hasattr env ticket field d = (Ok true, d)).
  { unfold hasattr. unfold mbind, M_bind, bind, get_db, mret, M_ret, ret.
    rewrite Hfk. destruct Hattr as [-> | ->]; [done|]. by rewrite orb_true_r. }
  assert (Hset : setattr_quick field value ticket = ticket).
  { unfold setattr_quick.
    by rewrite !(bool_decide_eq_false_2 (field = _)) by by apply Hnot. }
  destruct (Ticket_save_stored [] ticket d ticket_id Hid eq_refl)
    as (s5 & d1 & Hsave & _ & HK & _).
  exists d1. split; [|done].
  unfold quick_update_ticket. rewrite Hajax. simpl.
  unfold mbind, M_bind, bind at 1. rewrite (get_ticket_found _ _ _ Hrow).
  rewrite Hfield, Htruthy. simpl. rewrite Hvalue, Hint.
  unfold bind at 1, get_db at 1. unfold bind at 1. rewrite Hhas. simpl.
  unfold kept_by_hasattr. rewrite Hfk, Hset.
  unfold bind at 1. rewrite (Hsave (Some [field])).
  destruct (fk_ok (db_customers d) (matched_customer d ticket)); [|done].
  unfold mbind, M_bind, bind at 1. rewrite Model_save_Some_run.
  cbn [forallb]. by rewrite Hup.
Qed.

End QuickUpdate2.


(** [old] occurs in [s]. *)
Fixpoint occurs (old s : string) : bool :=
  String.prefix old s
  || match s with
     | String _ s' => occurs old s'
     | EmptyString => false
     end.

Lemma replace_absent old new s : occurs old s = false -> replace old new s = s.
Proof.
  unfold replace. induction s as [|c s IH]; [done|].
  intros H. cbn [occurs] in H. apply orb_false_iff in H as [Hp Hs].
  cbn [replace_from]. rewrite Hp. by rewrite IH.
Qed.

(** X15: a comment that holds no tag opener, no tag closer and neither
    of the two markers goes to the template engine as it was written. *)
Theorem neutralize_comment_plain comment :
  occurs "{%" comment = false -> occurs "%}" comment = false ->
  occurs "X-HELPDESK-COMMENT-VERBATIM" comment = false ->
  occurs "X-HELPDESK-COMMENT-ENDVERBATIM" comment = false ->
  neutralize_comment comment = comment.
Proof.
  intros H1 H2 H3 H4. unfold neutralize_comment.
  by rewrite (replace_absent "{%"), (replace_absent "%}"),
       (replace_absent "X-HELPDESK-COMMENT-VERBATIM"),
       (replace_absent "X-HELPDESK-COMMENT-ENDVERBATIM").
Qed.

(** ** Ticket references and recipients *)

Lemma split_char_nonempty sep s : split_char sep s <> [].
Proof.
  destruct s as [|c s]; [done|]. simpl. case_bool_decide; [done|].
  by destruct (split_char sep s).
Qed.

Lemma prefix_char c s : String.prefix (String c "") (String c s) = true.
Proof.
  cbn [String.prefix]. destruct (ascii_dec c c); [by destruct s|done].
Qed.

Lemma split_char_absent s : occurs "-" s = false -> split_char "-" s = [s].
Proof.
  induction s as [|c s IH]; [done|]. intros H. cbn [occurs] in H.
  apply orb_false_iff in H as [Hp Hs]. simpl.
  case_bool_decide as Hc; [subst c; by rewrite prefix_char in Hp|].
  by rewrite IH.
Qed.

Lemma split_char_app slug text :
  occurs "-" text = false ->
  split_char "-" (slug +:+ "-" +:+ text) = split_char "-" slug ++ [text].
Proof.
  intros Htext. induction slug as [|c slug IH].
  - simpl. by rewrite split_char_absent.
  - rewrite string_app_cons. simpl. case_bool_decide; [by rewrite IH|].
    rewrite IH. pose proof (split_char_nonempty "-" slug).
    by destruct (split_char "-" slug).
Qed.

Lemma join_split_char s : join "-" (split_char "-" s) = s.
Proof.
  induction s as [|c s IH]; [done|]. simpl.
  pose proof (split_char_nonempty "-" s) as Hne.
  case_bool_decide as Hc.
  - subst c. simpl in *. destruct (split_char "-" s) as [|p ps]; [done|].
    by rewrite IH.
  - destruct (split_char "-" s) as [|p ps]; [done|]. simpl in *.
    destruct ps as [|p' ps]; [by rewrite IH|].
    by rewrite string_app_cons, IH.
Qed.

Lemma pretty_N_go_no_dash x s :
  occurs "-" s = false -> occurs "-" (pretty_N_go x s) = false.
Proof.
  revert s. induction (N.lt_wf_0 x) as [x _ IH]. intros s Hs.
  destruct (decide (x = 0)%N) as [->|Hx]; [by rewrite pretty_N_go_0|].
  rewrite pretty_N_go_step by lia. apply IH; [apply N.div_lt; lia|].
  cbn [occurs]. rewrite Hs, orb_false_r.
  unfold pretty_N_char. by repeat case_match.
Qed.

Lemma str_int_no_dash id : 0 <= id -> occurs "-" (str_int id) = false.
Proof.
  intros Hid. unfold str_int, pretty, pretty_Z.
  destruct id as [|x|x]; [done| |lia].
  unfold pretty, pretty_positive, pretty, pretty_N. simpl.
  by apply pretty_N_go_no_dash.
Qed.

(** X16: the query that names a ticket is read back into the slug of
    its queue and its key, whatever dashes the slug holds. *)
Theorem queue_and_id_from_ticket_for_url slug id :
  0 <= id ->
  queue_and_id_from_query (ticket_for_url slug id) = (slug, str_int id).
Proof.
  intros Hid. unfold queue_and_id_from_query, ticket_for_url.
  rewrite split_char_app by by apply str_int_no_dash.
  by rewrite removelast_last, last_last, join_split_char.
Qed.

(** X17: the submitter's addresses are read without writing anything;
    they are at most two, none is empty, none comes twice, and the
    submitter's own address is among them when it is set. *)
Theorem get_submitter_emails_distinct self d recipients d' :
  get_submitter_emails self d = (Ok recipients, d') ->
  d' = d /\ NoDup recipients /\ (length recipients <= 2)%nat /\
  Forall (fun email => email <> "") recipients /\
  (forall email, t_submitter_email self = Some email -> email <> "" ->
                 email ∈ recipients).
Proof.
  unfold get_submitter_emails, deref, objects_get. unfold_m.
  set (out := fun (r : list string) =>
    match t_submitter_email self with
    | Some email =>
        if truthy_str email && negb (bool_decide (email ∈ r))
        then r ++ [email] else r
    | None => r
    end).
  assert (Hout : forall r,
    NoDup r -> (length r <= 1)%nat -> Forall (fun email => email <> "") r ->
    NoDup (out r) /\ (length (out r) <= 2)%nat /\
    Forall (fun email => email <> "") (out r) /\
    (forall email, t_submitter_email self = Some email -> email <> "" ->
                   email ∈ out r)).
  { intros r Hnd Hlen Hall. subst out. simpl.
    destruct (t_submitter_email self) as [email|].
    2:{ split; [done|]. split; [lia|]. split; [done|]. by intros ? [=]. }
    unfold truthy_str. case_bool_decide as He; simpl.
    { subst email. split; [done|]. split; [lia|]. split; [done|].
      by intros ? [= <-]. }
    case_bool_decide as Hin; simpl.
    - split; [done|]. split; [lia|]. split; [done|]. by intros ? [= <-].
    - split; [|split; [|split]].
      + apply NoDup_app. split; [done|]. split; [|apply NoDup_singleton].
        intros x Hx Hx'. apply list_elem_of_singleton in Hx'. by subst.
      + rewrite length_app. simpl. lia.
      + apply Forall_app. split; [done|]. by constructor.
      + intros ? [= <-] _. apply elem_of_app. right. by constructor. }
  destruct (t_customer_contact self) as [k|]; simpl.
  - destruct (db_users d !! k) as [u|]; simpl; [|done].
    intros [= <- <-]. split; [done|].
    unfold truthy_str. case_bool_decide as He; simpl.
    + refine (Hout [] _ _ _); [constructor|simpl; lia|constructor].
    + refine (Hout [u_email u] _ _ _);
        [apply NoDup_singleton|simpl; lia|by repeat constructor].
  - intros [= <- <-]. split; [done|].
    refine (Hout [] _ _ _); [constructor|simpl; lia|constructor].
Qed.

(** X18: subscribing a staff member leaves them with exactly one CC
    entry of their own on the ticket if they had none, and changes
    nothing if they had one; subscribing again changes nothing. *)
Theorem subscribe_staff_member_idempotent ticket user pk d :
  t_id ticket = Some pk ->
  let d' := (subscribe_staff_member_to_ticket ticket user d).2 in
  subscribe_staff_member_to_ticket ticket user d' = (Ok tt, d') /\
  existsb (fun cc => bool_decide (cc_user cc = Some user))
    (ticketcc_set d' ticket) = true /\
  (existsb (fun cc => bool_decide (cc_user cc = Some user))
     (ticketcc_set d ticket) = true -> d' = d) /\
  (existsb (fun cc => bool_decide (cc_user cc = Some user))
     (ticketcc_set d ticket) = false ->
   db_ticketccs d' = db_ticketccs d ++ [mkTicketCC pk (Some user) None true true]).
Proof.
  intros Hid. unfold subscribe_staff_member_to_ticket. rewrite Hid.
  unfold_m. simpl.
  destruct (existsb _ (ticketcc_set d ticket)) eqn:Hex; simpl.
  - rewrite Hex. simpl. split; [done|]. split; [done|]. by split.
  - assert (Hnew : existsb (fun cc => bool_decide (cc_user cc = Some user))
        (ticketcc_set
           (with_ticketccs
              (db_ticketccs d ++ [mkTicketCC pk (Some user) None true true]) d)
           ticket) = true).
    { unfold ticketcc_set. simpl. rewrite filter_app, existsb_app.
      apply orb_true_iff. right.
      rewrite filter_cons_True by by simpl; rewrite Hid.
      simpl. by rewrite bool_decide_eq_true_2. }
    rewrite Hnew. simpl. split; [done|]. split; [done|]. by split.
Qed.

(** ** The theorems at work on the scenarios *)

(** C2 at work: Alice posts the title the ticket has and nothing else. *)
Lemma update_ticket_no_changes_witness :
  exists d',
    update_ticket_run scenario_env (post_by_alice [("title", "Printer")]) 1
      false scenario_db
    = (Ok (RedirectStaffUrl (Some 1), None), d') /\
    db_flash d' = ["Aucune modification n'a été apportée."] /\
    db_tickets d' = db_tickets scenario_db /\
    db_followups d' = [] /\ db_ticketchanges d' = [] /\ db_outbox d' = [].
Proof.
  apply (update_ticket_no_changes scenario_env
           (post_by_alice [("title", "Printer")]) 1 false scenario_db printer
           (mkProposed "" 1 "Printer" None (-1) 3 None None None None None));
    first [by left | by vm_compute].
Defined.

(** C10 at work: Alice comments on Bob's ticket and names no owner. *)
Lemma update_ticket_owner_sentinel_witness :
  let run := update_ticket_run scenario_env
               (post_by_alice [("comment", "hello")]) 1 false scenario_db in
  sentinel_frame 1 (Some 2) scenario_db run.2 /\
  forall response w, run.1 = Ok (response, Some w) ->
    w_reassigned w = false /\ t_assigned_to (w_ticket w) = Some 2 /\
    assignment_title (f_title (w_followup w)) = false.
Proof.
  apply (update_ticket_owner_sentinel scenario_env
           (post_by_alice [("comment", "hello")]) 1 false scenario_db printer
           (mkProposed "hello" 1 "" None (-1) 3 None None None None None));
    first [by vm_compute | done | by destruct (update_ticket_run _ _ _ _ _)].
Defined.


(** C3 at work: Alice renames Bob's ticket, takes it and raises its
    priority. *)
Lemma update_ticket_change_rows_witness :
  let req := post_by_alice
               [("title", "Printer v2"); ("priority", "2"); ("owner", "1")] in
  db_ticketchanges (update_ticket_run scenario_env req 1 false scenario_db).2
  = [mkTicketChange (Some 1) "Title" "Printer" "Printer v2";
     mkTicketChange (Some 1) "Owner" "Bob" "Alice";
     mkTicketChange (Some 1) "Priority" "3" "2"].
Proof.
  cbv zeta.
  destruct (update_ticket_run scenario_env
              (post_by_alice
                 [("title", "Printer v2"); ("priority", "2"); ("owner", "1")])
              1 false scenario_db) as [[[response [w|]]|e] d'] eqn:E;
    [|by vm_compute in E..].
  destruct (update_ticket_change_rows scenario_env
              (post_by_alice
                 [("title", "Printer v2"); ("priority", "2"); ("owner", "1")])
              1 false scenario_db printer
              (mkProposed "" 1 "Printer v2" None 1 2 None None None None None)
              response w d') as [H _];
    [by vm_compute|done|done|by vm_compute|exact E|].
  simpl. rewrite H. vm_compute in E. injection E as _ <- _.
  vm_compute. reflexivity.
Defined.

(** X2 at work: Bob's ticket is saved without a priority. *)
Lemma Ticket_save_fills_defaults_witness :
  match Ticket_save None [] (set_priority 0 printer) scenario_db with
  | (Ok self', d') =>
      t_priority self' <> 0 /\ t_customer self' = None /\
      exists pk, t_id self' = Some pk /\ db_tickets d' !! pk = Some self'
  | _ => False
  end.
Proof.
  destruct (Ticket_save None [] (set_priority 0 printer) scenario_db)
    as [[self'|e] d'] eqn:E; [|by vm_compute in E].
  destruct (Ticket_save_fills_defaults _ _ _ _ _ _ E) as (H1 & _ & H3 & H4).
  split; [exact H1|]. split; [|exact (H4 eq_refl eq_refl)].
  rewrite (H3 eq_refl). by vm_compute.
Defined.

(** X3 at work: the status rules on the resolved ticket being closed. *)
Lemma save_status_dates_idempotent_witness :
  match save_status_dates resolved_ticket_being_closed scenario_db with
  | (Ok self', d') => save_status_dates self' d' = (Ok self', d')
  | _ => False
  end.
Proof.
  destruct (save_status_dates resolved_ticket_being_closed scenario_db)
    as [[self'|e] d'] eqn:E; [|by vm_compute in E].
  exact (save_status_dates_idempotent _ _ _ _ E).
Defined.

(** X7 at work: Alice posts a priority in words. *)
Lemma update_ticket_rejects_bad_integer_witness :
  update_ticket scenario_env (post_by_alice [("priority", "high")]) 1 false
    scenario_db
  = (Raise ValueError, scenario_db).
Proof.
  apply (update_ticket_rejects_bad_integer scenario_env
           (post_by_alice [("priority", "high")]) 1 false scenario_db printer
           "priority" "high");
    first [by vm_compute | rewrite !elem_of_cons; auto].
Defined.

(** X8 at work: Alice hands the ticket to a user that does not exist. *)
Lemma update_ticket_unknown_owner_witness :
  update_ticket scenario_env (post_by_alice [("owner", "99")]) 1 false
    scenario_db
  = (Raise DoesNotExist, scenario_db).
Proof.
  apply (update_ticket_unknown_owner scenario_env
           (post_by_alice [("owner", "99")]) 1 false scenario_db printer
           (mkProposed "" 1 "" None 99 3 None None None None None));
    by vm_compute.
Defined.

(** X9 at work: Alice comments on Bob's ticket. *)
Lemma update_ticket_stores_one_followup_witness :
  match update_ticket_run scenario_env (post_by_alice [("comment", "hello")])
          1 false scenario_db with
  | (Ok (_, Some w), d') =>
      db_followups d' = db_followups scenario_db ++ [w_followup w] /\
      db_followup_seq d' = db_followup_seq scenario_db + 1 /\
      f_ticket (w_followup w) = Some 1 /\
      f_id (w_followup w) = Some (db_followup_seq scenario_db) /\
      public_column None = Some (f_public (w_followup w))
  | _ => False
  end.
Proof.
  destruct (update_ticket_run scenario_env
              (post_by_alice [("comment", "hello")]) 1 false scenario_db)
    as [[[response [w|]]|e] d'] eqn:E; [|by vm_compute in E..].
  apply (update_ticket_stores_one_followup scenario_env
           (post_by_alice [("comment", "hello")]) 1 false scenario_db printer
           (mkProposed "hello" 1 "" None (-1) 3 None None None None None)
           response (Some w) d');
    first [by vm_compute | exact E].
Defined.

(** X11 at work: Alice updates Bob's ticket; Bob wants no mail. *)
Lemma assignee_mailed_whatever_the_preferences_witness :
  notify_owner scenario_env (Some (1, alice)) false (Some (2, bob)) printer
    (mkFollowUp None (Some 1) 10 None "hello" false (Some 1) None) [] []
    scenario_db
  = (Ok [Some "bob@example.com"],
     with_outbox
       [mkMail "updated_owner" (Some "bob@example.com")
          "Support <support@example.com>" []] scenario_db).
Proof.
  apply (assignee_mailed_whatever_the_preferences scenario_env
           (Some (1, alice)) 2 bob printer
           (mkFollowUp None (Some 1) 10 None "hello" false (Some 1) None)
           [] [] scenario_db support);
    first [by vm_compute | apply not_elem_of_nil].
Defined.

(** X13 at work: Alice patches [pk]. *)
Lemma quick_update_of_non_column_raises_witness :
  exists d',
    quick_update_ticket scenario_env
      (post_by_alice [("field", "pk"); ("value", "5")]) 1 scenario_db
    = (Raise ValueError, d') /\
    db_tickets d' = db_tickets scenario_db.
Proof.
  apply (quick_update_of_non_column_raises scenario_env
           (post_by_alice [("field", "pk"); ("value", "5")]) 1 scenario_db
           printer "pk" "5" 5);
    first [by vm_compute | by right].
Defined.


(** X15 at work. *)
Lemma neutralize_comment_plain_witness :
  neutralize_comment "It works again." = "It works again.".
Proof. apply neutralize_comment_plain; by vm_compute. Defined.

(** X16 at work: a queue whose slug holds a dash. *)
Lemma queue_and_id_from_ticket_for_url_witness :
  queue_and_id_from_query (ticket_for_url "it-support" 17)
  = ("it-support", str_int 17).
Proof. apply queue_and_id_from_ticket_for_url. lia. Defined.

(** X17 at work: the submitter of Bob's ticket. *)
Lemma get_submitter_emails_distinct_witness :
  match get_submitter_emails printer scenario_db with
  | (Ok recipients, d') =>
      d' = scenario_db /\ NoDup recipients /\ (length recipients <= 2)%nat /\
      Forall (fun email => email <> "") recipients /\
      (forall email, t_submitter_email printer = Some email -> email <> "" ->
                     email ∈ recipients)
  | _ => False
  end.
Proof.
  destruct (get_submitter_emails printer scenario_db)
    as [[recipients|e] d'] eqn:E; [|by vm_compute in E].
  exact (get_submitter_emails_distinct _ _ _ _ E).
Defined.

(** X18 at work: Bob subscribes to his ticket, on which Alice is in
    copy. *)
Lemma subscribe_staff_member_idempotent_witness :
  let d' := (subscribe_staff_member_to_ticket printer 2 scenario_db).2 in
  subscribe_staff_member_to_ticket printer 2 d' = (Ok tt, d') /\
  db_ticketccs d'
  = [mkTicketCC 1 (Some 1) None true true; mkTicketCC 1 (Some 2) None true true].
Proof.
  cbv zeta.
  destruct (subscribe_staff_member_idempotent printer 2 1 scenario_db eq_refl)
    as (H1 & _ & _ & H4).
  split; [exact H1|]. rewrite H4; by vm_compute.
Defined.
